(** * Step detection and dead reckoning of the indoor AR tracker

    A shallow embedding of [src/index_indoor.js] (and of the older copies
    of the same page kept next to it): the orientation controller, the two
    [StepDetector] classes and [IndoorPositionTracker], followed by the
    signal-point helpers, the material cache, the nearest-point search and
    the motion and reset listeners.

    Number model.  A JavaScript number is modelled by a real number or
    NaN ([JSNumber]): arithmetic on numbers is exact, there is no rounding
    and no infinity, NaN propagates through every operation and every
    comparison with NaN is false.  The sensor bridge replaces every missing
    or NaN acceleration component by [0]
    ([event.accelerationIncludingGravity.x || 0]), so acceleration samples
    are vectors of reals.  A value that is not a number enters the detector
    in two places: the property lookup of [setSensitivity], and the [alpha]
    handed to [setFilter].  From there it flows through the filter into the
    window, the statistics and the thresholds, so every numeric field of
    the adaptive detector is a [JSNumber].  [Date.now()] and the time
    deltas computed from it are integers (milliseconds) and are modelled
    in [Z]; the clock is an explicit argument of [update]. *)

From Stdlib Require Import String.
From Stdlib Require Import Reals Lra Lia ZArith List Bool Arith.
Import ListNotations.

Open Scope R_scope.

(** ** Numbers and JavaScript values *)

Definition Rltb (a b : R) : bool := if Rlt_dec a b then true else false.

(** [a > b] of the source is [Rltb b a]. *)
Definition Rgtb (a b : R) : bool := Rltb b a.

(** A JavaScript number: a real number or NaN. *)
Inductive JSNumber : Type :=
| Num (r : R)
| NaN.

(** Arithmetic on JavaScript numbers: NaN in, NaN out. *)
Definition lift1 (f : R -> R) (a : JSNumber) : JSNumber :=
  match a with
  | Num r => Num (f r)
  | NaN => NaN
  end.

Definition lift2 (f : R -> R -> R) (a b : JSNumber) : JSNumber :=
  match a, b with
  | Num r, Num s => Num (f r s)
  | _, _ => NaN
  end.

Definition js_add : JSNumber -> JSNumber -> JSNumber := lift2 Rplus.
Definition js_sub : JSNumber -> JSNumber -> JSNumber := lift2 Rminus.
Definition js_mul : JSNumber -> JSNumber -> JSNumber := lift2 Rmult.

(** [a / b]; the divisor is never 0 where this is used (the length of a
    window of at least five samples). *)
Definition js_quot : JSNumber -> JSNumber -> JSNumber := lift2 Rdiv.

(** [Math.pow(a, 2)], [Math.sqrt(a)] (of a sum of squares), [Math.abs(a)] *)
Definition js_sq : JSNumber -> JSNumber := lift1 (fun r => r ^ 2).
Definition js_sqrt : JSNumber -> JSNumber := lift1 sqrt.
Definition js_abs : JSNumber -> JSNumber := lift1 Rabs.

(** [Math.max(a, b)] and [Math.min(a, b)]: NaN as soon as one argument is. *)
Definition js_max : JSNumber -> JSNumber -> JSNumber := lift2 Rmax.
Definition js_min : JSNumber -> JSNumber -> JSNumber := lift2 Rmin.

(** [a < b] and [a > b]: false as soon as one side is NaN. *)
Definition js_lt (a b : JSNumber) : bool :=
  match a, b with
  | Num r, Num s => Rltb r s
  | _, _ => false
  end.

Definition js_gt (a b : JSNumber) : bool := js_lt b a.

(** [Math.max(t, v)] for a [v] that is a number. *)
Definition max_num (t : JSNumber) (v : R) : JSNumber :=
  match t with
  | Num r => Num (Rmax r v)
  | NaN => NaN
  end.

(** [base <= dyn] as a proposition; false as soon as one side is NaN. *)
Definition le_num (a b : JSNumber) : Prop :=
  match a, b with
  | Num x, Num y => x <= y
  | _, _ => False
  end.

(** The result of a property lookup [obj[key]] on an object literal whose
    own properties are numbers. *)
Inductive JSValue : Type :=
| JSUndefined
| JSNum (r : R)
| JSInherited (key : string).

(** Truthiness, as used by [||]. *)
Definition truthy (v : JSValue) : bool :=
  match v with
  | JSUndefined => false
  | JSNum r => if Req_dec_T r 0 then false else true
  | JSInherited _ => true
  end.

Definition js_or (v w : JSValue) : JSValue := if truthy v then v else w.

(** [n / v]: a function or object operand converts to NaN.  A number
    operand is never 0 where this is used: [|| 1.5] has replaced it. *)
Definition js_div (n : R) (v : JSValue) : JSNumber :=
  match v with
  | JSNum r => Num (n / r)
  | JSUndefined => NaN
  | JSInherited _ => NaN
  end.

(** Property names every object literal inherits from [Object.prototype]. *)
Definition object_prototype_keys : list string :=
  [ "constructor"; "hasOwnProperty"; "isPrototypeOf"; "propertyIsEnumerable";
    "toLocaleString"; "toString"; "valueOf"; "__proto__";
    "__defineGetter__"; "__defineSetter__"; "__lookupGetter__";
    "__lookupSetter__" ]%string.

Fixpoint assoc_get (own : list (string * R)) (key : string) : option R :=
  match own with
  | [] => None
  | (k, v) :: rest => if String.eqb k key then Some v else assoc_get rest key
  end.

(** [obj[key]] for an object literal with the own properties [own]: own
    properties first, then the prototype chain. *)
Definition js_get (own : list (string * R)) (key : string) : JSValue :=
  match assoc_get own key with
  | Some v => JSNum v
  | None =>
      if existsb (String.eqb key) object_prototype_keys
      then JSInherited key
      else JSUndefined
  end.

(** A plain object with [x], [y], [z]: an acceleration sample or a position. *)
Record Vec3 : Type := mkVec3 { x : R; y : R; z : R }.

(** [Math.sqrt(a.x ** 2 + a.y ** 2 + a.z ** 2)] *)
Definition magnitudeOf (a : Vec3) : R :=
  sqrt (x a ^ 2 + y a ^ 2 + z a ^ 2).

(** [arr.push(v); if (arr.length > size) arr.shift()] *)
Definition push_bounded {A : Type} (size : nat) (arr : list A) (v : A)
    : list A :=
  let arr' := arr ++ [v] in
  if (size <? length arr')%nat then tl arr' else arr'.

(** [arr.reduce((a, b) => a + b, 0)] *)
Definition sum_list (arr : list JSNumber) : JSNumber :=
  fold_left js_add arr (Num 0).

(** [Math.min(...arr)] for a non-empty array. *)
Definition min_list (arr : list JSNumber) : JSNumber :=
  match arr with
  | [] => Num 0
  | v :: rest => fold_left js_min rest v
  end.

(** ** The adaptive detector ([index_indoor.js], part 8) *)

Module Advanced.

Record StepDetector : Type := mkStepDetector {
  magnitudeHistory : list JSNumber;
  historySize : nat;
  useFilter : bool;
  filterAlpha : JSNumber;
  filteredMagnitude : JSNumber;
  rawMagnitudeHistory : list R;
  baseThreshold : JSNumber;
  dynamicThreshold : JSNumber;
  avgMagnitude : JSNumber;
  magnitudeStdDev : JSNumber;
  lastPeakTime : Z;
  minPeakInterval : Z;
  lastMagnitude : JSNumber;
  lastDelta : JSNumber;
  stepCount : nat;
  enabled : bool;
  totalSamples : nat;
  falsePositiveFilter : bool
}.

(** [constructor()] *)
Definition new : StepDetector := {|
  magnitudeHistory := [];
  historySize := 10;
  useFilter := true;
  filterAlpha := Num 0.5;
  filteredMagnitude := Num 9.8;
  rawMagnitudeHistory := [];
  baseThreshold := Num 10.5;
  dynamicThreshold := Num 10.5;
  avgMagnitude := Num 9.8;
  magnitudeStdDev := Num 1.0;
  lastPeakTime := 0;
  minPeakInterval := 500;
  lastMagnitude := Num 0;
  lastDelta := Num 0;
  stepCount := 0;
  enabled := true;
  totalSamples := 0;
  falsePositiveFilter := false
|}.

(** Field assignments [this.f = v]. *)
Definition set_magnitudeHistory (v : list JSNumber) (d : StepDetector) :=
  mkStepDetector v (historySize d) (useFilter d) (filterAlpha d)
    (filteredMagnitude d) (rawMagnitudeHistory d) (baseThreshold d)
    (dynamicThreshold d) (avgMagnitude d) (magnitudeStdDev d) (lastPeakTime d)
    (minPeakInterval d) (lastMagnitude d) (lastDelta d) (stepCount d)
    (enabled d) (totalSamples d) (falsePositiveFilter d).
Definition set_useFilter (v : bool) (d : StepDetector) :=
  mkStepDetector (magnitudeHistory d) (historySize d) v (filterAlpha d)
    (filteredMagnitude d) (rawMagnitudeHistory d) (baseThreshold d)
    (dynamicThreshold d) (avgMagnitude d) (magnitudeStdDev d) (lastPeakTime d)
    (minPeakInterval d) (lastMagnitude d) (lastDelta d) (stepCount d)
    (enabled d) (totalSamples d) (falsePositiveFilter d).
Definition set_filterAlpha (v : JSNumber) (d : StepDetector) :=
  mkStepDetector (magnitudeHistory d) (historySize d) (useFilter d) v
    (filteredMagnitude d) (rawMagnitudeHistory d) (baseThreshold d)
    (dynamicThreshold d) (avgMagnitude d) (magnitudeStdDev d) (lastPeakTime d)
    (minPeakInterval d) (lastMagnitude d) (lastDelta d) (stepCount d)
    (enabled d) (totalSamples d) (falsePositiveFilter d).
Definition set_filteredMagnitude (v : JSNumber) (d : StepDetector) :=
  mkStepDetector (magnitudeHistory d) (historySize d) (useFilter d)
    (filterAlpha d) v (rawMagnitudeHistory d) (baseThreshold d)
    (dynamicThreshold d) (avgMagnitude d) (magnitudeStdDev d) (lastPeakTime d)
    (minPeakInterval d) (lastMagnitude d) (lastDelta d) (stepCount d)
    (enabled d) (totalSamples d) (falsePositiveFilter d).
Definition set_rawMagnitudeHistory (v : list R) (d : StepDetector) :=
  mkStepDetector (magnitudeHistory d) (historySize d) (useFilter d)
    (filterAlpha d) (filteredMagnitude d) v (baseThreshold d)
    (dynamicThreshold d) (avgMagnitude d) (magnitudeStdDev d) (lastPeakTime d)
    (minPeakInterval d) (lastMagnitude d) (lastDelta d) (stepCount d)
    (enabled d) (totalSamples d) (falsePositiveFilter d).
Definition set_baseThreshold (v : JSNumber) (d : StepDetector) :=
  mkStepDetector (magnitudeHistory d) (historySize d) (useFilter d)
    (filterAlpha d) (filteredMagnitude d) (rawMagnitudeHistory d) v
    (dynamicThreshold d) (avgMagnitude d) (magnitudeStdDev d) (lastPeakTime d)
    (minPeakInterval d) (lastMagnitude d) (lastDelta d) (stepCount d)
    (enabled d) (totalSamples d) (falsePositiveFilter d).
Definition set_dynamicThreshold (v : JSNumber) (d : StepDetector) :=
  mkStepDetector (magnitudeHistory d) (historySize d) (useFilter d)
    (filterAlpha d) (filteredMagnitude d) (rawMagnitudeHistory d)
    (baseThreshold d) v (avgMagnitude d) (magnitudeStdDev d) (lastPeakTime d)
    (minPeakInterval d) (lastMagnitude d) (lastDelta d) (stepCount d)
    (enabled d) (totalSamples d) (falsePositiveFilter d).
Definition set_avgMagnitude (v : JSNumber) (d : StepDetector) :=
  mkStepDetector (magnitudeHistory d) (historySize d) (useFilter d)
    (filterAlpha d) (filteredMagnitude d) (rawMagnitudeHistory d)
    (baseThreshold d) (dynamicThreshold d) v (magnitudeStdDev d)
    (lastPeakTime d) (minPeakInterval d) (lastMagnitude d) (lastDelta d)
    (stepCount d) (enabled d) (totalSamples d) (falsePositiveFilter d).
Definition set_magnitudeStdDev (v : JSNumber) (d : StepDetector) :=
  mkStepDetector (magnitudeHistory d) (historySize d) (useFilter d)
    (filterAlpha d) (filteredMagnitude d) (rawMagnitudeHistory d)
    (baseThreshold d) (dynamicThreshold d) (avgMagnitude d) v
    (lastPeakTime d) (minPeakInterval d) (lastMagnitude d) (lastDelta d)
    (stepCount d) (enabled d) (totalSamples d) (falsePositiveFilter d).
Definition set_lastPeakTime (v : Z) (d : StepDetector) :=
  mkStepDetector (magnitudeHistory d) (historySize d) (useFilter d)
    (filterAlpha d) (filteredMagnitude d) (rawMagnitudeHistory d)
    (baseThreshold d) (dynamicThreshold d) (avgMagnitude d)
    (magnitudeStdDev d) v (minPeakInterval d) (lastMagnitude d) (lastDelta d)
    (stepCount d) (enabled d) (totalSamples d) (falsePositiveFilter d).
Definition set_lastMagnitude (v : JSNumber) (d : StepDetector) :=
  mkStepDetector (magnitudeHistory d) (historySize d) (useFilter d)
    (filterAlpha d) (filteredMagnitude d) (rawMagnitudeHistory d)
    (baseThreshold d) (dynamicThreshold d) (avgMagnitude d)
    (magnitudeStdDev d) (lastPeakTime d) (minPeakInterval d) v (lastDelta d)
    (stepCount d) (enabled d) (totalSamples d) (falsePositiveFilter d).
Definition set_lastDelta (v : JSNumber) (d : StepDetector) :=
  mkStepDetector (magnitudeHistory d) (historySize d) (useFilter d)
    (filterAlpha d) (filteredMagnitude d) (rawMagnitudeHistory d)
    (baseThreshold d) (dynamicThreshold d) (avgMagnitude d)
    (magnitudeStdDev d) (lastPeakTime d) (minPeakInterval d)
    (lastMagnitude d) v (stepCount d) (enabled d) (totalSamples d)
    (falsePositiveFilter d).
Definition set_stepCount (v : nat) (d : StepDetector) :=
  mkStepDetector (magnitudeHistory d) (historySize d) (useFilter d)
    (filterAlpha d) (filteredMagnitude d) (rawMagnitudeHistory d)
    (baseThreshold d) (dynamicThreshold d) (avgMagnitude d)
    (magnitudeStdDev d) (lastPeakTime d) (minPeakInterval d)
    (lastMagnitude d) (lastDelta d) v (enabled d) (totalSamples d)
    (falsePositiveFilter d).
Definition set_enabled (v : bool) (d : StepDetector) :=
  mkStepDetector (magnitudeHistory d) (historySize d) (useFilter d)
    (filterAlpha d) (filteredMagnitude d) (rawMagnitudeHistory d)
    (baseThreshold d) (dynamicThreshold d) (avgMagnitude d)
    (magnitudeStdDev d) (lastPeakTime d) (minPeakInterval d)
    (lastMagnitude d) (lastDelta d) (stepCount d) v (totalSamples d)
    (falsePositiveFilter d).
Definition set_totalSamples (v : nat) (d : StepDetector) :=
  mkStepDetector (magnitudeHistory d) (historySize d) (useFilter d)
    (filterAlpha d) (filteredMagnitude d) (rawMagnitudeHistory d)
    (baseThreshold d) (dynamicThreshold d) (avgMagnitude d)
    (magnitudeStdDev d) (lastPeakTime d) (minPeakInterval d)
    (lastMagnitude d) (lastDelta d) (stepCount d) (enabled d) v
    (falsePositiveFilter d).

(** *** [update], in the order of the source *)

(** The low-pass filter: lines 301-315. *)
Definition applyFilter (rawMagnitude : R) (d : StepDetector) : StepDetector :=
  if useFilter d then
    let d1 := set_filteredMagnitude
                (js_add (js_mul (filterAlpha d) (Num rawMagnitude))
                   (js_mul (js_sub (Num 1) (filterAlpha d))
                      (filteredMagnitude d))) d in
    set_rawMagnitudeHistory
      (push_bounded 5 (rawMagnitudeHistory d1) rawMagnitude) d1
  else d.

(** The value of the local [magnitude] once the filter has run. *)
Definition currentMagnitude (rawMagnitude : R) (d : StepDetector)
    : JSNumber :=
  if useFilter d then filteredMagnitude d else Num rawMagnitude.

(** History buffer and sample counter: lines 317-323. *)
Definition record (magnitude : JSNumber) (d : StepDetector) : StepDetector :=
  let d1 := set_magnitudeHistory
              (push_bounded (historySize d) (magnitudeHistory d) magnitude) d in
  set_totalSamples (S (totalSamples d1)) d1.

(** [variance] of lines 335-337. *)
Definition varianceOf (arr : list JSNumber) (avg : JSNumber) : JSNumber :=
  js_quot
    (fold_left (fun sum val => js_add sum (js_sq (js_sub val avg))) arr
       (Num 0))
    (Num (INR (length arr))).

(** Moving average, deviation and dynamic threshold: lines 331-346. *)
Definition adaptThreshold (d : StepDetector) : StepDetector :=
  if (totalSamples d mod 10 =? 0)%nat then
    let d1 := set_avgMagnitude
                (js_quot (sum_list (magnitudeHistory d))
                   (Num (INR (length (magnitudeHistory d))))) d in
    let variance := varianceOf (magnitudeHistory d1) (avgMagnitude d1) in
    let d2 := set_magnitudeStdDev (js_sqrt variance) d1 in
    set_dynamicThreshold
      (js_max (baseThreshold d2)
         (js_add (avgMagnitude d2) (js_mul (Num 1) (magnitudeStdDev d2)))) d2
  else d.

(** [isPeak] of lines 356-359, in a state where the threshold is current. *)
Definition isPeak (magnitude delta : JSNumber) (d : StepDetector) : bool :=
  js_gt magnitude (dynamicThreshold d)
  && js_gt (lastDelta d) (Num 0)
  && js_lt delta (Num 0)
  && js_gt (js_abs (lastDelta d)) (Num 0.25).

(** [isValidStep] of lines 368-379. *)
Definition isValidStep (magnitude : JSNumber) (d : StepDetector) : bool :=
  if falsePositiveFilter d then
    let recentMin := min_list (magnitudeHistory d) in
    let peakProminence := js_sub magnitude recentMin in
    negb (js_lt peakProminence (js_mul (magnitudeStdDev d) (Num 1.5)))
  else true.

(** Peak test, time window and bookkeeping: lines 348-405, run once the
    window holds five samples. *)
Definition detect (magnitude : JSNumber) (currentTime : Z) (d : StepDetector)
    : StepDetector * bool :=
  let delta := js_sub magnitude (lastMagnitude d) in
  let timeSinceLastPeak := (currentTime - lastPeakTime d)%Z in
  if isPeak magnitude delta d
     && (minPeakInterval d <? timeSinceLastPeak)%Z
     && isValidStep magnitude d
  then
    (set_lastDelta delta
       (set_lastMagnitude magnitude
          (set_lastPeakTime currentTime
             (set_stepCount (S (stepCount d)) d))), true)
  else
    (set_lastDelta delta (set_lastMagnitude magnitude d), false).

(** [update(acceleration, deltaTime)]; [currentTime] is what [Date.now()]
    returns during the call. *)
Definition update (d : StepDetector) (acceleration : Vec3) (deltaTime : Z)
    (currentTime : Z) : StepDetector * bool :=
  if negb (enabled d) then (d, false) else
  let rawMagnitude := magnitudeOf acceleration in
  let d1 := applyFilter rawMagnitude d in
  let magnitude := currentMagnitude rawMagnitude d1 in
  let d2 := record magnitude d1 in
  if (length (magnitudeHistory d2) <? 5)%nat then
    (set_lastMagnitude magnitude d2, false)
  else
    detect magnitude currentTime (adaptThreshold d2).

(** The value [isPeak] takes during [update]; [false] when the call
    returns before computing it. *)
Definition candidate (d : StepDetector) (acceleration : Vec3) : bool :=
  if negb (enabled d) then false else
  let rawMagnitude := magnitudeOf acceleration in
  let d1 := applyFilter rawMagnitude d in
  let magnitude := currentMagnitude rawMagnitude d1 in
  let d2 := record magnitude d1 in
  if (length (magnitudeHistory d2) <? 5)%nat then false
  else
    let d3 := adaptThreshold d2 in
    isPeak magnitude (js_sub magnitude (lastMagnitude d3)) d3.

(** [reset()] *)
Definition reset (d : StepDetector) : StepDetector :=
  let d1 := set_stepCount 0 d in
  let d2 := set_magnitudeHistory [] d1 in
  let d3 := set_rawMagnitudeHistory [] d2 in
  let d4 := set_lastPeakTime 0 d3 in
  let d5 := set_totalSamples 0 d4 in
  let d6 := set_avgMagnitude (Num 9.8) d5 in
  let d7 := set_filteredMagnitude (Num 9.8) d6 in
  set_dynamicThreshold (baseThreshold d7) d7.

(** [setEnabled(enabled)] *)
Definition setEnabled (v : bool) (d : StepDetector) : StepDetector :=
  set_enabled v d.

(** [setFilter(enabled, alpha)]; [alpha] is any JavaScript number, NaN
    included. *)
Definition setFilter (v : bool) (alpha : JSNumber) (d : StepDetector)
    : StepDetector :=
  let d1 := set_useFilter v d in
  set_filterAlpha (js_max (Num 0.1) (js_min (Num 1.0) alpha)) d1.

(** [setFilter(enabled)]: an omitted [alpha] defaults to 0.5. *)
Definition setFilterDefault (v : bool) (d : StepDetector) : StepDetector :=
  setFilter v (Num 0.5) d.

(** The [multipliers] table of [setSensitivity]. *)
Definition multipliers : list (string * R) :=
  [ ("low", 1.0); ("medium", 1.5); ("high", 2.0) ]%string.

(** [setSensitivity(level)] *)
Definition setSensitivity (level : string) (d : StepDetector) : StepDetector :=
  let multiplier := js_or (js_get multipliers level) (JSNum 1.5) in
  set_baseThreshold (js_div 11 multiplier) d.

(** *** Feeding a stream of motion samples *)

(** One [devicemotion] sample as the detector sees it, with the clock
    reading taken inside [update]. *)
Record Sample : Type := mkSample {
  acceleration : Vec3;
  deltaTime : Z;
  currentTime : Z
}.

Definition step (d : StepDetector) (s : Sample) : StepDetector * bool :=
  update d (acceleration s) (deltaTime s) (currentTime s).

(** The detector after the samples of [l]. *)
Fixpoint run (d : StepDetector) (l : list Sample) : StepDetector :=
  match l with
  | [] => d
  | s :: rest => run (fst (step d s)) rest
  end.

(** What [update] returned for each sample of [l]. *)
Fixpoint outputs (d : StepDetector) (l : list Sample) : list bool :=
  match l with
  | [] => []
  | s :: rest => snd (step d s) :: outputs (fst (step d s)) rest
  end.

(** Whether each sample of [l] was a candidate peak. *)
Fixpoint candidates (d : StepDetector) (l : list Sample) : list bool :=
  match l with
  | [] => []
  | s :: rest =>
      candidate d (acceleration s) :: candidates (fst (step d s)) rest
  end.

(** ** The position tracker ([index_indoor.js], part 9) *)

Record IndoorPositionTracker : Type := mkTracker {
  position : Vec3;
  stepLength : R;
  stepDetector : StepDetector;
  yaw : R
}.

(** [constructor(stepLength = 0.65)] *)
Definition newTracker (stepLength : R) : IndoorPositionTracker := {|
  position := mkVec3 0 1.6 0;
  stepLength := stepLength;
  stepDetector := new;
  yaw := 0
|}.

(** [updateOrientation(orientationData, initialYaw)]; [None] is [null]. *)
Definition updateOrientation (alpha : option R) (initialYaw : option R)
    (t : IndoorPositionTracker) : IndoorPositionTracker :=
  match alpha, initialYaw with
  | Some a, Some y0 =>
      mkTracker (position t) (stepLength t) (stepDetector t)
        (y0 - a * PI / 180)
  | _, _ => t
  end.

(** [IndoorPositionTracker.update(accelerationData, deltaTime)] *)
Definition trackerUpdate (t : IndoorPositionTracker) (accelerationData : Vec3)
    (deltaTime : Z) (currentTime : Z) : IndoorPositionTracker * bool :=
  let (sd, stepDetected) :=
    update (stepDetector t) accelerationData deltaTime currentTime in
  if stepDetected then
    let forwardX := sin (yaw t) in
    let forwardZ := - cos (yaw t) in
    let px := x (position t) + forwardX * stepLength t in
    let pz := z (position t) + forwardZ * stepLength t in
    (mkTracker (mkVec3 px (y (position t)) pz) (stepLength t) sd (yaw t), true)
  else
    (mkTracker (position t) (stepLength t) sd (yaw t), false).

(** [IndoorPositionTracker.reset()] *)
Definition trackerReset (t : IndoorPositionTracker) : IndoorPositionTracker :=
  mkTracker (mkVec3 0 1.6 0) (stepLength t) (reset (stepDetector t)) (yaw t).

Definition getPosition (t : IndoorPositionTracker) : Vec3 := position t.
Definition getStepCount (t : IndoorPositionTracker) : nat :=
  stepCount (stepDetector t).

Definition trackerStep (t : IndoorPositionTracker) (s : Sample)
    : IndoorPositionTracker * bool :=
  trackerUpdate t (acceleration s) (deltaTime s) (currentTime s).

Fixpoint trackerRun (t : IndoorPositionTracker) (l : list Sample)
    : IndoorPositionTracker :=
  match l with
  | [] => t
  | s :: rest => trackerRun (fst (trackerStep t s)) rest
  end.

(** What an observer sees after each sample: the flag returned by
    [update], [getStepCount()] and [getPosition()]. *)
Fixpoint trackerOutputs (t : IndoorPositionTracker) (l : list Sample)
    : list (bool * nat * Vec3) :=
  match l with
  | [] => []
  | s :: rest =>
      let t' := fst (trackerStep t s) in
      (snd (trackerStep t s), getStepCount t', getPosition t')
        :: trackerOutputs t' rest
  end.

(** ** The orientation controller ([index_indoor.js], part 3) *)

(** [THREE.MathUtils.degToRad] of three.js: [degrees * (Math.PI / 180)]. *)
Definition degToRad (degrees : R) : R := degrees * (PI / 180).

(** A [deviceorientation] event; [None] is a [null] angle. *)
Record OrientationEvent : Type := mkOrientationEvent {
  ev_alpha : option R;
  ev_beta : option R;
  ev_gamma : option R
}.

(** The fields of [DeviceOrientationController] the heading depends on
    (camera, Euler angles and quaternion are presentation only). *)
Record DeviceOrientationController : Type := mkController {
  alpha : R;
  beta : R;
  gamma : R;
  initialYaw : option R
}.

(** [constructor(camera)] *)
Definition newController : DeviceOrientationController :=
  mkController 0 0 0 None.

(** [event.alpha || 0] *)
Definition or_zero (v : option R) : R :=
  match v with
  | Some a => a
  | None => 0
  end.

(** [handleOrientation] of [connect()] *)
Definition handleOrientation (event : OrientationEvent)
    (c : DeviceOrientationController) : DeviceOrientationController :=
  let yaw0 :=
    match initialYaw c, ev_alpha event with
    | None, Some a => Some (degToRad a)
    | _, _ => initialYaw c
    end in
  mkController (degToRad (or_zero (ev_alpha event)))
    (degToRad (or_zero (ev_beta event))) 0 yaw0.

(** The page: the controller and the tracker it feeds. *)
Record Page : Type := mkPage {
  deviceOrientationControls : DeviceOrientationController;
  tracker : IndoorPositionTracker
}.

Definition newPage : Page := mkPage newController (newTracker 0.65).

(** One [deviceorientation] event on a page whose controller is connected.
    The page registers the tracker's listener while the module loads
    (part 10) and the controller's only in [connect()], so the tracker's
    listener runs first and reads the [initialYaw] left by the events
    before this one.  [dispatchOrientation] below is the same event with
    the connection state made explicit. *)
Definition onDeviceOrientation (event : OrientationEvent) (p : Page) : Page :=
  let t := updateOrientation (ev_alpha event)
             (initialYaw (deviceOrientationControls p)) (tracker p) in
  mkPage (handleOrientation event (deviceOrientationControls p)) t.

Definition onDeviceOrientations (events : list OrientationEvent) (p : Page)
    : Page :=
  fold_left (fun q e => onDeviceOrientation e q) events p.

(** The page and the [handleOrientation] listeners registered on it: none
    while the page waits for the click on the permission button, one more
    for every call of [connect()] (the click calls it, and on a device that
    asks no permission [init()] calls it a second time). *)
Record Session : Type := mkSession {
  page : Page;
  listeners : nat
}.

(** The page once the module has been evaluated. *)
Definition loaded : Session := mkSession newPage 0.

(** [connect()]: [window.addEventListener('deviceorientation', ...)] with a
    new closure. *)
Definition connect (s : Session) : Session :=
  mkSession (page s) (S (listeners s)).

(** One [deviceorientation] event: the tracker's listener, then every
    registered [handleOrientation], in the order of registration. *)
Definition dispatchOrientation (event : OrientationEvent) (s : Session)
    : Session :=
  let c := deviceOrientationControls (page s) in
  let t := updateOrientation (ev_alpha event) (initialYaw c)
             (tracker (page s)) in
  mkSession
    (mkPage (Nat.iter (listeners s) (handleOrientation event) c) t)
    (listeners s).

(** What can happen to the heading of a page. *)
Inductive PageEvent : Type :=
| Orientation (event : OrientationEvent)
| Connect.

Definition pageStep (s : Session) (e : PageEvent) : Session :=
  match e with
  | Orientation event => dispatchOrientation event s
  | Connect => connect s
  end.

Definition pageRun (events : list PageEvent) (s : Session) : Session :=
  fold_left pageStep events s.

(** The first non-null [alpha] of a stream of events. *)
Fixpoint firstAlpha (events : list OrientationEvent) : option R :=
  match events with
  | [] => None
  | e :: rest =>
      match ev_alpha e with
      | Some a => Some a
      | None => firstAlpha rest
      end
  end.

(** [DeviceOrientationController.update()]: the angles handed to
    [euler.set]; [initialYaw || 0] is 0 while the reference is [null]. *)
Definition controllerUpdate (c : DeviceOrientationController) : R * R * R :=
  (beta c - PI / 2, alpha c - or_zero (initialYaw c), 0).

(** The configuration step of [initializeSystem]. *)
Definition initializeSystem (t : IndoorPositionTracker)
    : IndoorPositionTracker :=
  mkTracker (position t) (stepLength t)
    (setSensitivity "medium" (setFilter true (Num 0.5) (stepDetector t)))
    (yaw t).

(** The last non-null [alpha] of a stream of events. *)
Fixpoint lastAlpha (events : list OrientationEvent) : option R :=
  match events with
  | [] => None
  | e :: rest =>
      match lastAlpha rest with
      | Some a => Some a
      | None => ev_alpha e
      end
  end.

End Advanced.

(** ** The fixed-threshold detector (second half of [index_indoor.js],
       and the two older copies of the page) *)

Module Basic.

Record StepDetector : Type := mkStepDetector {
  lastMagnitude : R;
  threshold : R;
  cooldown : Z;
  cooldownTime : Z;
  stepCount : nat;
  enabled : bool
}.

(** [constructor()] *)
Definition new : StepDetector := {|
  lastMagnitude := 0;
  threshold := 11.25;
  cooldown := 0;
  cooldownTime := 300;
  stepCount := 0;
  enabled := true
|}.

(** [update(acceleration, deltaTime)] *)
Definition update (d : StepDetector) (acceleration : Vec3) (deltaTime : Z)
    : StepDetector * bool :=
  let cooldown' := Z.max 0 (cooldown d - deltaTime) in
  let magnitude := magnitudeOf acceleration in
  if enabled d
     && Rgtb magnitude (threshold d)
     && Rltb (lastMagnitude d) (threshold d)
     && (cooldown' =? 0)%Z
  then
    (mkStepDetector magnitude (threshold d) (cooldownTime d) (cooldownTime d)
       (S (stepCount d)) (enabled d), true)
  else
    (mkStepDetector magnitude (threshold d) cooldown' (cooldownTime d)
       (stepCount d) (enabled d), false).

(** [reset()] *)
Definition reset (d : StepDetector) : StepDetector :=
  mkStepDetector (lastMagnitude d) (threshold d) (cooldown d) (cooldownTime d)
    0 (enabled d).

(** [setEnabled(enabled)] *)
Definition setEnabled (v : bool) (d : StepDetector) : StepDetector :=
  mkStepDetector (lastMagnitude d) (threshold d) (cooldown d) (cooldownTime d)
    (stepCount d) v.

(** What [update] returned for each sample of [l]. *)
Fixpoint outputs (d : StepDetector) (l : list (Vec3 * Z)) : list bool :=
  match l with
  | [] => []
  | (a, dt) :: rest => snd (update d a dt) :: outputs (fst (update d a dt)) rest
  end.

End Basic.

(** ** Signal points, colours and meshes ([index_indoor.js], parts 5-7) *)

(** [a >= b] of the source. *)
Definition Rgeb (a b : R) : bool := negb (Rltb a b).

Module Signals.

(** An entry of [INDOOR_SIGNAL_POINTS]; its [x], [y], [z] are kept together
    as [location]. *)
Record SignalPoint : Type := mkSignalPoint {
  location : Vec3;
  power : R;
  name : string
}.

Definition INDOOR_SIGNAL_POINTS : list SignalPoint :=
  [ mkSignalPoint (mkVec3 0 0 (-5)) 90 "訊號點 A";
    mkSignalPoint (mkVec3 (-3) 0 0) 5 "訊號點 B";
    mkSignalPoint (mkVec3 (-3) 0 (-3)) 30 "訊號點 C";
    mkSignalPoint (mkVec3 0 0 (-10)) 50 "訊號點 D";
    mkSignalPoint (mkVec3 5 0 (-2)) 70 "訊號點 E";
    mkSignalPoint (mkVec3 (-5) 0 (-2)) 10 "訊號點 F" ].

(** [getColorForSignal(strength)] *)
Definition getColorForSignal (strength : R) : Z :=
  if Rgeb strength 90 then 0x00ff00%Z
  else if Rgeb strength 70 then 0x7fff00%Z
  else if Rgeb strength 50 then 0xffff00%Z
  else if Rgeb strength 30 then 0xff7f00%Z
  else if Rgeb strength 10 then 0xff0000%Z
  else 0x555555%Z.

(** [getRadiusForSignal(strength)] *)
Definition getRadiusForSignal (strength : R) : R :=
  if Rgeb strength 90 then 0.5
  else if Rgeb strength 70 then 0.4
  else if Rgeb strength 50 then 0.35
  else if Rgeb strength 30 then 0.3
  else if Rgeb strength 10 then 0.25
  else 0.

(** A [THREE.MeshBasicMaterial] as the page builds it; [uid] stands for the
    identity of the object. *)
Record Material : Type := mkMaterial {
  uid : nat;
  color : Z;
  transparent : bool;
  opacity : R;
  doubleSide : bool
}.

(** [materialCache], a [Map] from colour to material in insertion order,
    and the number of materials constructed so far. *)
Record MaterialStore : Type := mkMaterialStore {
  materialCache : list (Z * Material);
  constructed : nat
}.

Definition emptyStore : MaterialStore := mkMaterialStore [] 0.

(** [materialCache.get(color)]; [None] when [has(color)] is false. *)
Fixpoint cacheGet (cache : list (Z * Material)) (c : Z) : option Material :=
  match cache with
  | [] => None
  | (k, m) :: rest => if (k =? c)%Z then Some m else cacheGet rest c
  end.

(** [getMaterialForColor(color)] *)
Definition getMaterialForColor (c : Z) (st : MaterialStore)
    : MaterialStore * Material :=
  match cacheGet (materialCache st) c with
  | Some m => (st, m)
  | None =>
      let m := mkMaterial (constructed st) c true 0.7 true in
      (mkMaterialStore (materialCache st ++ [(c, m)]) (S (constructed st)), m)
  end.

(** [mesh.userData] *)
Record MeshData : Type := mkMeshData {
  dataName : string;
  dataPower : R;
  originalPosition : Vec3
}.

(** A circle mesh as [createIndoorSignals] builds it. *)
Record Mesh : Type := mkMesh {
  geometryRadius : R;
  geometrySegments : Z;
  material : Material;
  position : Vec3;
  rotationX : R;
  userData : MeshData
}.

(** The material cache and [signalMeshes] (the scene receives the same
    meshes in the same order). *)
Record Scene : Type := mkScene {
  materials : MaterialStore;
  signalMeshes : list Mesh
}.

Definition emptyScene : Scene := mkScene emptyStore [].

(** The body of the [forEach] of [createIndoorSignals]. *)
Definition createSignal (sc : Scene) (point : SignalPoint) : Scene :=
  let c := getColorForSignal (power point) in
  let radius := getRadiusForSignal (power point) in
  if Req_dec_T radius 0 then sc
  else
    let (store, mat) := getMaterialForColor c (materials sc) in
    let mesh :=
      mkMesh radius 32 mat
        (mkVec3 (x (location point)) 0.1 (z (location point)))
        (- PI / 2)
        (mkMeshData (name point) (power point)
           (mkVec3 (x (location point)) 0.1 (z (location point)))) in
    mkScene store (signalMeshes sc ++ [mesh]).

(** [createIndoorSignals()] over a table of points. *)
Definition createIndoorSignalsFor (points : list SignalPoint) (sc : Scene)
    : Scene :=
  fold_left createSignal points sc.

Definition createIndoorSignals (sc : Scene) : Scene :=
  createIndoorSignalsFor INDOOR_SIGNAL_POINTS sc.

(** The search of [updateInfoPanel]: [nearestPoint] and [minDistance] after
    the [forEach]; [None] is [null] for the point and [Infinity] for the
    distance. *)
Definition distanceTo (pos : Vec3) (point : SignalPoint) : R :=
  let dx := x pos - x (location point) in
  let dz := z pos - z (location point) in
  sqrt (dx * dx + dz * dz).

Definition nearer (pos : Vec3) (acc : option (SignalPoint * R))
    (point : SignalPoint) : option (SignalPoint * R) :=
  let distance := distanceTo pos point in
  match acc with
  | None => Some (point, distance)
  | Some (_, minDistance) =>
      if Rltb distance minDistance then Some (point, distance) else acc
  end.

Definition nearestPoint (pos : Vec3) (points : list SignalPoint)
    : option (SignalPoint * R) :=
  fold_left (nearer pos) points None.

End Signals.

(** ** The motion listener and the reset button ([index_indoor.js],
       parts 10 and 13) *)

Module Motion.
Import Advanced.

(** [event.accelerationIncludingGravity]; [None] is a [null] component. *)
Record DeviceAcceleration : Type := mkDeviceAcceleration {
  accX : option R;
  accY : option R;
  accZ : option R
}.

(** What the listeners share: the tracker, [camera.position] and
    [lastTime]. *)
Record View : Type := mkView {
  viewTracker : IndoorPositionTracker;
  cameraPosition : Vec3;
  lastTime : Z
}.

(** The page after loading at clock [loadTime]. *)
Definition newView (loadTime : Z) : View :=
  mkView (newTracker 0.65) (mkVec3 0 1.6 0) loadTime.

(** The [devicemotion] listener.  [now] is the clock read by the listener,
    [currentTime] the clock read inside [StepDetector.update];
    [accelerationIncludingGravity] is [None] when the event has none. *)
Definition onDeviceMotion (accelerationIncludingGravity : option DeviceAcceleration)
    (now currentTime : Z) (v : View) : View :=
  let dt := (now - lastTime v)%Z in
  match accelerationIncludingGravity with
  | Some g =>
      let accel := mkVec3 (or_zero (accX g)) (or_zero (accY g))
                     (or_zero (accZ g)) in
      let (t, moved) := trackerUpdate (viewTracker v) accel dt currentTime in
      if moved then
        let pos := getPosition t in
        mkView t (mkVec3 (x pos) (y (cameraPosition v)) (z pos)) now
      else mkView t (cameraPosition v) now
  | None => mkView (viewTracker v) (cameraPosition v) now
  end.

(** The click handler of [initializeResetButton]. *)
Definition onResetClick (v : View) : View :=
  mkView (trackerReset (viewTracker v)) (mkVec3 0 1.6 0) (lastTime v).

(** What can happen to a view. *)
Inductive ViewEvent : Type :=
| DeviceMotion (g : option DeviceAcceleration) (now currentTime : Z)
| DeviceOrientation (alpha : option R) (initialYaw : option R)
| ResetClick.

Definition handle (v : View) (e : ViewEvent) : View :=
  match e with
  | DeviceMotion g now currentTime => onDeviceMotion g now currentTime v
  | DeviceOrientation a y0 =>
      mkView (updateOrientation a y0 (viewTracker v)) (cameraPosition v)
        (lastTime v)
  | ResetClick => onResetClick v
  end.

Definition handleAll (events : list ViewEvent) (v : View) : View :=
  fold_left handle events v.

End Motion.

(** ** Vocabulary of the properties *)

Module Spec.
Import Advanced.

(** A sample of magnitude [m] along the vertical axis, read at clock [t]. *)
Definition vertical (m : R) (t : Z) : Sample := mkSample (mkVec3 0 0 m) 100 t.

(** [m < t] for a threshold that may be NaN. *)
Definition lt_num (m : R) (t : JSNumber) : Prop :=
  match t with
  | Num r => m < r
  | NaN => False
  end.

(** The detector states the public methods can produce; [setFilter] is
    handed any JavaScript number, NaN included. *)
Inductive Reachable : StepDetector -> Prop :=
| reach_new : Reachable new
| reach_update d a dt t : Reachable d -> Reachable (fst (update d a dt t))
| reach_reset d : Reachable d -> Reachable (reset d)
| reach_setEnabled v d : Reachable d -> Reachable (setEnabled v d)
| reach_setFilter v a d : Reachable d -> Reachable (setFilter v a d)
| reach_setSensitivity level d :
    Reachable d -> Reachable (setSensitivity level d).

(** The states reachable without [setSensitivity]. *)
Inductive Steady : StepDetector -> Prop :=
| steady_new : Steady new
| steady_update d a dt t : Steady d -> Steady (fst (update d a dt t))
| steady_reset d : Steady d -> Steady (reset d)
| steady_setEnabled v d : Steady d -> Steady (setEnabled v d)
| steady_setFilter v a d : Steady d -> Steady (setFilter v a d).

(** A detector that was constructed and configured but has not seen a
    sample yet. *)
Inductive Configured : StepDetector -> Prop :=
| conf_new : Configured new
| conf_setEnabled v d : Configured d -> Configured (setEnabled v d)
| conf_setFilter v a d : Configured d -> Configured (setFilter v a d)
| conf_setSensitivity level d :
    Configured d -> Configured (setSensitivity level d).

(** A JavaScript number that is a number between [lo] and [hi]. *)
Definition inRange (lo hi : R) (v : JSNumber) : Prop :=
  match v with
  | Num r => lo <= r <= hi
  | NaN => False
  end.

(** The floor of the data model: the dynamic threshold is a number and is
    not below the base threshold. *)
Definition floor_ok (d : StepDetector) : Prop :=
  le_num (baseThreshold d) (dynamicThreshold d).

(** Four samples at rest and one strong sample: the filtered magnitude
    rises to 14.9. *)
Definition rise : list Sample :=
  [ vertical 9.8 1700000000000; vertical 9.8 1700000000100;
    vertical 9.8 1700000000200; vertical 9.8 1700000000300;
    vertical 20 1700000000400 ].

(** The detector after [rise]. *)
Definition risen : StepDetector := {|
  magnitudeHistory := [Num 9.8; Num 9.8; Num 9.8; Num 9.8; Num 14.9];
  historySize := 10;
  useFilter := true;
  filterAlpha := Num 0.5;
  filteredMagnitude := Num 14.9;
  rawMagnitudeHistory := [9.8; 9.8; 9.8; 9.8; 20];
  baseThreshold := Num 10.5;
  dynamicThreshold := Num 10.5;
  avgMagnitude := Num 9.8;
  magnitudeStdDev := Num 1.0;
  lastPeakTime := 0;
  minPeakInterval := 500;
  lastMagnitude := Num 14.9;
  lastDelta := Num 5.1;
  stepCount := 0;
  enabled := true;
  totalSamples := 5;
  falsePositiveFilter := false
|}.

(** A run whose fifth sample falls while the filtered magnitude is still
    above the threshold, and whose last sample rises again. *)
Definition surge : list Sample :=
  [ vertical 20 1700000000000; vertical 20 1700000000100;
    vertical 20 1700000000200; vertical 20 1700000000300;
    vertical 9.8 1700000000400; vertical 30 1700000000500 ].

(** The flags of a tracker's outputs. *)
Definition flags (o : list (bool * nat * Vec3)) : list bool :=
  map (fun r => fst (fst r)) o.

(** What a run below the base threshold [b] preserves: the threshold is
    not a number below [b], and while the stored slope is positive the
    filtered magnitude is not a number at or above [b]. *)
Definition quiet (b : R) (d : StepDetector) : Prop :=
  baseThreshold d = Num b
  /\ (floor_ok d \/ dynamicThreshold d = NaN)
  /\ (inRange 0 1 (filterAlpha d) \/ filterAlpha d = NaN)
  /\ (useFilter d = true ->
      (js_gt (lastDelta d) (Num 0) = true ->
       forall f, filteredMagnitude d = Num f -> f < b)
      /\ (magnitudeHistory d = [] \/ lastMagnitude d = filteredMagnitude d)).

(** The clock readings of a stream of samples. *)
Definition times (l : list Sample) : list Z := map currentTime l.

(** Samples that stay below 11 and still make the filtered magnitude peak
    above 10.5. *)
Definition ripple : list Sample :=
  [ vertical 9.8 1700000000000; vertical 9.8 1700000000100;
    vertical 9.8 1700000000200; vertical 9.8 1700000000300;
    vertical 10.9 1700000000400; vertical 10.9 1700000000500;
    vertical 10.5 1700000000600 ].

(** Five samples of free fall and a sample of 7.3: the filtered magnitude
    falls to 0.30625 and rises again. *)
Definition dip : list Sample :=
  [ vertical 0 1700000000000; vertical 0 1700000000100;
    vertical 0 1700000000200; vertical 0 1700000000300;
    vertical 0 1700000000400; vertical 7.3 1700000000500 ].

(** Five samples of 7.3 after a reset. *)
Definition low_tail : list Sample :=
  [ vertical 7.3 1700000001000; vertical 7.3 1700000001100;
    vertical 7.3 1700000001200; vertical 7.3 1700000001300;
    vertical 7.3 1700000001400 ].

(** [rise], a fall, a second rise and a second fall 200 ms after the
    first. *)
Definition two_peaks : list Sample :=
  rise ++ [ vertical 9.8 1700000000500; vertical 20 1700000000600;
            vertical 9.8 1700000000700 ].

(** The orientation events of a stream. *)
Fixpoint orientations (events : list PageEvent) : list OrientationEvent :=
  match events with
  | [] => []
  | Orientation e :: rest => e :: orientations rest
  | Connect :: rest => orientations rest
  end.

(** The orientation events that arrive after the first [connect()]. *)
Fixpoint heard (events : list PageEvent) : list OrientationEvent :=
  match events with
  | [] => []
  | Orientation _ :: rest => heard rest
  | Connect :: rest => orientations rest
  end.

(** An orientation event with the given [alpha]. *)
Definition withAlpha (a : R) (b g : option R) : OrientationEvent :=
  mkOrientationEvent (Some a) b g.

(** [rise], a fall, a second rise and a second fall 700 ms after the
    first. *)
Definition two_steps : list Sample :=
  rise ++ [ vertical 9.8 1700000000500; vertical 20 1700000000600;
            vertical 9.8 1700000001200 ].

(** The stored slope is not above 0.25 (or is NaN): too flat to start a
    peak. *)
Definition flat (d : StepDetector) : Prop :=
  js_gt (lastDelta d) (Num 0.25) = false.

(** A detector with the three fields [reset()] leaves alone blanked out. *)
Definition core (d : StepDetector) : StepDetector :=
  set_magnitudeStdDev (Num 0) (set_lastDelta (Num 0)
    (set_lastMagnitude (Num 0) d)).

(** Two detectors that agree except on the fields [reset()] leaves alone:
    the stored magnitudes agree as soon as the window is not empty, and the
    stored slopes agree or are both too flat to start a peak. *)
Definition alike (d1 d2 : StepDetector) : Prop :=
  core d1 = core d2
  /\ falsePositiveFilter d1 = false
  /\ (magnitudeHistory d1 = [] \/ lastMagnitude d1 = lastMagnitude d2)
  /\ (lastDelta d1 = lastDelta d2
      \/ (flat d1 /\ flat d2)).

(** What a viewer of the scene sees of a mesh. *)
Definition meshView (m : Signals.Mesh) : string * Vec3 * R * Z :=
  (Signals.dataName (Signals.userData m), Signals.position m,
   Signals.geometryRadius m, Signals.color (Signals.material m)).

(** What [createIndoorSignals] is to show for a point. *)
Definition pointView (p : Signals.SignalPoint) : string * Vec3 * R * Z :=
  (Signals.name p,
   mkVec3 (x (Signals.location p)) 0.1 (z (Signals.location p)),
   Signals.getRadiusForSignal (Signals.power p),
   Signals.getColorForSignal (Signals.power p)).

(** The points strong enough to be drawn. *)
Definition drawn (p : Signals.SignalPoint) : bool :=
  Rgeb (Signals.power p) 10.

(** The store after asking for the materials of [colors] in turn. *)
Definition askAll (colors : list Z) (st : Signals.MaterialStore)
    : Signals.MaterialStore :=
  fold_left (fun s c => fst (Signals.getMaterialForColor c s)) colors st.

(** Camera and tracker show the same place, at eye height. *)
Definition synced (v : Motion.View) : Prop :=
  x (Motion.cameraPosition v) = x (position (Motion.viewTracker v))
  /\ z (Motion.cameraPosition v) = z (position (Motion.viewTracker v))
  /\ y (Motion.cameraPosition v) = 1.6
  /\ y (position (Motion.viewTracker v)) = 1.6.

(** The cache maps every colour to a material of that colour, and every
    mesh carries the material cached for its colour. *)
Definition tidy (sc : Signals.Scene) : Prop :=
  (forall k m,
     Signals.cacheGet (Signals.materialCache (Signals.materials sc)) k = Some m ->
     Signals.color m = k)
  /\ (forall mesh,
        In mesh (Signals.signalMeshes sc) ->
        Signals.cacheGet (Signals.materialCache (Signals.materials sc))
          (Signals.color (Signals.material mesh))
        = Some (Signals.material mesh)).

(** What the search has established after the points of [seen]. *)
Definition nearestSoFar (pos : Vec3) (seen : list Signals.SignalPoint)
    (acc : option (Signals.SignalPoint * R)) : Prop :=
  match acc with
  | None => seen = []
  | Some (p, d) =>
      d = Signals.distanceTo pos p
      /\ exists before after,
           seen = before ++ p :: after
           /\ (forall q, In q before -> d < Signals.distanceTo pos q)
           /\ (forall q, In q after -> d <= Signals.distanceTo pos q)
  end.

(** Ten samples of magnitude 12 along the vertical axis. *)
Definition still : list Sample :=
  map (fun k => vertical 12 (1700000000000 + 100 * Z.of_nat k))
    (seq 0 10).

(** The last [n] elements of a list. *)
Definition lastn {A : Type} (n : nat) (l : list A) : list A :=
  skipn (length l - n) l.

(** How many calls of a run returned [true]. *)
Definition countSteps (flagsOut : list bool) : nat :=
  count_occ bool_dec flagsOut true.

(** A new detector carrying the filter and enable settings of [d]. *)
Definition freshLike (d : StepDetector) : StepDetector :=
  setEnabled (enabled d) (setFilter (useFilter d) (filterAlpha d) new).

(** The time deltas of a run of the fixed-threshold detector, added up. *)
Definition elapsed (l : list (Vec3 * Z)) : Z :=
  fold_right (fun s acc => (snd s + acc)%Z) 0%Z l.

End Spec.

(** * Properties *)

Import Advanced.
Import Spec.

(** ** Comparisons and magnitudes *)

Lemma Rltb_true (a b : R) : a < b -> Rltb a b = true.
Proof.
  intros H. unfold Rltb. destruct (Rlt_dec a b); [reflexivity | contradiction].
Qed.

Lemma Rltb_false (a b : R) : b <= a -> Rltb a b = false.
Proof.
  intros H. unfold Rltb. destruct (Rlt_dec a b); [lra | reflexivity].
Qed.

Lemma Rltb_lt (a b : R) : Rltb a b = true <-> a < b.
Proof.
  unfold Rltb. destruct (Rlt_dec a b); split; intros; congruence || assumption.
Qed.

Lemma Rltb_ge (a b : R) : Rltb a b = false <-> b <= a.
Proof.
  unfold Rltb. destruct (Rlt_dec a b); split; intros; try congruence; lra.
Qed.

(** A number cannot be both below and above another. *)
Lemma js_lt_not_gt (a b : JSNumber) : js_lt a b = true -> js_gt a b = false.
Proof.
  destruct a as [r |], b as [t |]; cbn; try discriminate.
  intros H. apply Rltb_lt in H. apply Rltb_false. lra.
Qed.

Lemma js_gt_NaN (a : JSNumber) : js_gt NaN a = false.
Proof. destruct a; reflexivity. Qed.

Lemma js_lt_NaN (a : JSNumber) : js_lt NaN a = false.
Proof. reflexivity. Qed.

Lemma magnitudeOf_nonneg (a : Vec3) : 0 <= magnitudeOf a.
Proof. unfold magnitudeOf. apply sqrt_pos. Qed.

(** A sample along the vertical axis has the magnitude of its component. *)
Lemma magnitudeOf_z (m : R) : 0 <= m -> magnitudeOf (mkVec3 0 0 m) = m.
Proof.
  intros H. unfold magnitudeOf. cbn [x y z].
  replace (0 ^ 2 + 0 ^ 2 + m ^ 2) with (Rsqr m) by (unfold Rsqr; ring).
  apply sqrt_Rsqr; assumption.
Qed.

Lemma push_bounded_length {A : Type} (size : nat) (arr : list A) (v : A) :
  (length (push_bounded size arr v) <= S (length arr))%nat.
Proof.
  unfold push_bounded.
  assert (L : length (arr ++ [v]) = S (length arr))
    by (rewrite length_app; cbn [length]; lia).
  destruct (size <? length (arr ++ [v]))%nat; [| lia].
  destruct (arr ++ [v]); cbn [tl length] in *; lia.
Qed.

(** ** Evaluating the detector on concrete samples *)

Ltac unfold_update_in H :=
  cbv beta iota zeta delta
    [step update detect candidate applyFilter currentMagnitude record
     adaptThreshold isPeak isValidStep push_bounded Rgtb
     lift1 lift2 js_add js_sub js_mul js_quot js_sq js_sqrt js_abs js_max
     js_min js_lt js_gt
     magnitudeHistory historySize useFilter filterAlpha filteredMagnitude
     rawMagnitudeHistory baseThreshold dynamicThreshold avgMagnitude
     magnitudeStdDev lastPeakTime minPeakInterval lastMagnitude lastDelta
     stepCount enabled totalSamples falsePositiveFilter
     set_magnitudeHistory set_useFilter set_filterAlpha set_filteredMagnitude
     set_rawMagnitudeHistory set_baseThreshold set_dynamicThreshold
     set_avgMagnitude set_magnitudeStdDev set_lastPeakTime set_lastMagnitude
     set_lastDelta set_stepCount set_enabled set_totalSamples
     acceleration deltaTime currentTime
     negb andb length app tl Nat.ltb Nat.leb Nat.eqb Nat.modulo Nat.divmod
     Nat.sub fst snd] in H.

Ltac decide_comparisons_in H :=
  repeat match type of H with
  | context [Rabs ?a] =>
      first [ rewrite (Rabs_right a) in H by lra
            | rewrite (Rabs_left a) in H by lra ]
  | context [Rltb ?a ?b] =>
      first [ rewrite (Rltb_true a b) in H by lra
            | rewrite (Rltb_false a b) in H by lra ]
  | context [Z.ltb ?a ?b] =>
      let v := eval vm_compute in (Z.ltb a b) in
      change (Z.ltb a b) with v in H
  end.

(** Replaces one call [step d s] or [candidate d a] on an explicit state by
    its value. *)
Ltac eval_call c :=
  let r := fresh "r" in
  let H := fresh "H" in
  remember c as r eqn:H in |- *;
  unfold_update_in H; rewrite ?magnitudeOf_z in H by lra;
  decide_comparisons_in H;
  cbv beta iota in H; subst r;
  cbv beta iota delta [fst snd].

Ltac eval_step :=
  match goal with
  | |- context [step (mkStepDetector ?a1 ?a2 ?a3 ?a4 ?a5 ?a6 ?a7 ?a8 ?a9
                        ?a10 ?a11 ?a12 ?a13 ?a14 ?a15 ?a16 ?a17 ?a18) ?s] =>
      eval_call (step (mkStepDetector a1 a2 a3 a4 a5 a6 a7 a8 a9 a10 a11 a12
                         a13 a14 a15 a16 a17 a18) s)
  | |- context [candidate (mkStepDetector ?a1 ?a2 ?a3 ?a4 ?a5 ?a6 ?a7 ?a8 ?a9
                        ?a10 ?a11 ?a12 ?a13 ?a14 ?a15 ?a16 ?a17 ?a18) ?s] =>
      eval_call (candidate (mkStepDetector a1 a2 a3 a4 a5 a6 a7 a8 a9 a10 a11
                              a12 a13 a14 a15 a16 a17 a18) s)
  end.

(** Field reads and writes on an explicit record. *)
Ltac compute_fields :=
  cbv beta iota zeta delta
    [magnitudeHistory historySize useFilter filterAlpha filteredMagnitude
     rawMagnitudeHistory baseThreshold dynamicThreshold avgMagnitude
     magnitudeStdDev lastPeakTime minPeakInterval lastMagnitude lastDelta
     stepCount enabled totalSamples falsePositiveFilter
     set_magnitudeHistory set_useFilter set_filterAlpha set_filteredMagnitude
     set_rawMagnitudeHistory set_baseThreshold set_dynamicThreshold
     set_avgMagnitude set_magnitudeStdDev set_lastPeakTime set_lastMagnitude
     set_lastDelta set_stepCount set_enabled set_totalSamples negb core].

Ltac compute_fields_in H :=
  cbv beta iota zeta delta
    [magnitudeHistory historySize useFilter filterAlpha filteredMagnitude
     rawMagnitudeHistory baseThreshold dynamicThreshold avgMagnitude
     magnitudeStdDev lastPeakTime minPeakInterval lastMagnitude lastDelta
     stepCount enabled totalSamples falsePositiveFilter
     set_magnitudeHistory set_useFilter set_filterAlpha set_filteredMagnitude
     set_rawMagnitudeHistory set_baseThreshold set_dynamicThreshold
     set_avgMagnitude set_magnitudeStdDev set_lastPeakTime set_lastMagnitude
     set_lastDelta set_stepCount set_enabled set_totalSamples negb core] in H.

(** ** Stage lemmas for [update] *)

Lemma adaptThreshold_history (d : StepDetector) :
  magnitudeHistory (adaptThreshold d) = magnitudeHistory d.
Proof. unfold adaptThreshold. destruct (_ =? _)%nat; reflexivity. Qed.

Lemma detect_history (m : JSNumber) (t : Z) (d : StepDetector) :
  magnitudeHistory (fst (detect m t d)) = magnitudeHistory d.
Proof. unfold detect. destruct (_ && _ && _); reflexivity. Qed.

Lemma applyFilter_history (m : R) (d : StepDetector) :
  magnitudeHistory (applyFilter m d) = magnitudeHistory d.
Proof. unfold applyFilter. destruct (useFilter d); reflexivity. Qed.

Lemma applyFilter_historySize (m : R) (d : StepDetector) :
  historySize (applyFilter m d) = historySize d.
Proof. unfold applyFilter. destruct (useFilter d); reflexivity. Qed.

(** ** C7: warm-up *)

(** One call adds at most one sample to the window. *)
Lemma update_window_grows (d : StepDetector) (s : Sample) :
  (length (magnitudeHistory (fst (step d s)))
   <= S (length (magnitudeHistory d)))%nat.
Proof.
  unfold step, update. destruct (enabled d); cbn [negb fst]; [| lia].
  set (m := currentMagnitude _ _).
  assert (L2 : (length (magnitudeHistory (record m
                 (applyFilter (magnitudeOf (acceleration s)) d)))
                <= S (length (magnitudeHistory d)))%nat).
  { unfold record. cbn [magnitudeHistory set_totalSamples
                        set_magnitudeHistory].
    rewrite applyFilter_history.
    apply push_bounded_length. }
  destruct (_ <? 5)%nat; cbn [fst].
  - exact L2.
  - rewrite detect_history, adaptThreshold_history. exact L2.
Qed.

(** A call after which the window holds fewer than five samples took the
    early return of lines 325-329. *)
Lemma update_early_return (d : StepDetector) (s : Sample) :
  (length (magnitudeHistory (fst (step d s))) < 5)%nat ->
  snd (step d s) = false /\ stepCount (fst (step d s)) = stepCount d.
Proof.
  unfold step, update.
  destruct (enabled d); cbn [negb]; [| intros _; split; reflexivity].
  set (m := currentMagnitude _ _). set (d2 := record m _).
  destruct (length (magnitudeHistory d2) <? 5)%nat eqn:E.
  - intros _. split; [reflexivity |].
    subst d2. unfold record, applyFilter.
    destruct (useFilter d); reflexivity.
  - intros H. rewrite detect_history, adaptThreshold_history in H.
    apply Nat.ltb_ge in E. lia.
Qed.

(** C7.  A call to [update] after which the sliding window holds fewer than
    five samples (the sample of the call included) returns [false] and
    leaves the step count alone; in particular every call made while the
    window holds fewer than four earlier samples does.  A call that returns
    [true] leaves at least five samples in the window.  [update] is a total
    function, so no call fails. *)
Theorem warmup_no_step (d : StepDetector) (s : Sample) :
  ((length (magnitudeHistory (fst (step d s))) < 5)%nat ->
   snd (step d s) = false /\ stepCount (fst (step d s)) = stepCount d)
  /\ ((length (magnitudeHistory d) < 4)%nat -> snd (step d s) = false)
  /\ (snd (step d s) = true ->
      (5 <= length (magnitudeHistory (fst (step d s))))%nat).
Proof.
  split; [exact (update_early_return d s) |]. split.
  - intros H. apply update_early_return.
    pose proof (update_window_grows d s). lia.
  - intros H.
    destruct (Nat.lt_ge_cases (length (magnitudeHistory (fst (step d s)))) 5)
      as [Hlt | Hge]; [| exact Hge].
    destruct (update_early_return d s Hlt) as [E _]. congruence.
Qed.

Lemma warmup_no_step_witness :
  snd (step new (vertical 20 1700000000000)) = false.
Proof.
  apply (warmup_no_step new (vertical 20 1700000000000)).
  cbn [new magnitudeHistory length]. lia.
Defined.

(** A detector with an empty window answers its first four samples with
    [false]. *)
Lemma warmup_run (l : list Sample) (d : StepDetector) (n : nat) :
  (length (magnitudeHistory d) <= n)%nat ->
  (n + length l <= 4)%nat ->
  outputs d l = repeat false (length l).
Proof.
  revert d n. induction l as [| s l IH]; intros d n Hd Hl; [reflexivity |].
  cbn [length] in Hl. cbn [outputs length repeat].
  pose proof (update_window_grows d s) as Hg.
  destruct (update_early_return d s) as [E _]; [lia |].
  rewrite E. f_equal. apply (IH _ (S n)); lia.
Qed.

(** ** C8: the filter coefficient *)

(** For an [alpha] that is a number, the stored coefficient lies in
    [0.1, 1.0]. *)
Lemma setFilter_range (v : bool) (a : R) (d : StepDetector) :
  exists r, filterAlpha (setFilter v (Num a) d) = Num r /\ 0.1 <= r <= 1.0.
Proof.
  unfold setFilter. cbn [filterAlpha set_filterAlpha set_useFilter].
  eexists. split; [reflexivity |].
  unfold Rmax, Rmin.
  destruct (Rle_dec 1.0 a); destruct (Rle_dec 0.1 _); lra.
Qed.

(** For an [alpha] that is a number, [setFilter] clamps: a value below 0.1
    is stored as 0.1, a value above 1.0 as 1.0, and a value inside the
    range unchanged. *)
Lemma setFilter_clamps_numbers (v : bool) (a : R) (d : StepDetector) :
  (a < 0.1 -> filterAlpha (setFilter v (Num a) d) = Num 0.1)
  /\ (1.0 < a -> filterAlpha (setFilter v (Num a) d) = Num 1.0)
  /\ (0.1 <= a <= 1.0 -> filterAlpha (setFilter v (Num a) d) = Num a)
  /\ useFilter (setFilter v (Num a) d) = v.
Proof.
  unfold setFilter.
  cbn [filterAlpha useFilter set_filterAlpha set_useFilter js_max js_min
       lift2].
  unfold Rmax, Rmin.
  destruct (Rle_dec 1.0 a); destruct (Rle_dec 0.1 _);
    repeat split; intros; try reflexivity; try (f_equal; lra); lra.
Qed.

(** Clamping twice is clamping once, NaN included. *)
Lemma setFilter_idempotent (v w : bool) (a : JSNumber) (d : StepDetector) :
  filterAlpha (setFilter w (filterAlpha (setFilter v a d)) new)
  = filterAlpha (setFilter v a d).
Proof.
  unfold setFilter. cbn [filterAlpha set_filterAlpha set_useFilter].
  destruct a as [a |]; [| reflexivity].
  cbn [js_max js_min lift2]. f_equal.
  unfold Rmax, Rmin.
  destruct (Rle_dec 1.0 a); repeat destruct (Rle_dec _ _); lra.
Qed.

(** C8 (the code at the failing input).  [setFilter(true, NaN)] does not
    clamp: [Math.min(1.0, NaN)] and [Math.max(0.1, NaN)] are NaN, so the
    coefficient stored is NaN and not a number of [0.1, 1.0], in a state
    the public methods can produce. *)
Theorem setFilter_NaN (v : bool) (d : StepDetector) :
  filterAlpha (setFilter v NaN d) = NaN
  /\ ~ inRange 0.1 1.0 (filterAlpha (setFilter v NaN d))
  /\ (Reachable d -> Reachable (setFilter v NaN d)).
Proof.
  split; [reflexivity |]. split.
  - intros H. exact H.
  - apply reach_setFilter.
Qed.

(** ** C10: sensitivity tiers *)

Lemma truthy_nonzero (r : R) : r <> 0 -> truthy (JSNum r) = true.
Proof.
  intros H. unfold truthy. destruct (Req_dec_T r 0); [contradiction | reflexivity].
Qed.

(** The three named tiers give 11, 11/1.5 and 5.5. *)
Lemma setSensitivity_tiers (d : StepDetector) :
  baseThreshold (setSensitivity "low" d) = Num 11
  /\ baseThreshold (setSensitivity "medium" d) = Num (11 / 1.5)
  /\ baseThreshold (setSensitivity "high" d) = Num 5.5.
Proof.
  unfold setSensitivity, js_or.
  cbn [baseThreshold set_baseThreshold].
  repeat split.
  - change (js_get multipliers "low") with (JSNum 1.0).
    rewrite truthy_nonzero by lra. cbn [js_div]. f_equal. lra.
  - change (js_get multipliers "medium") with (JSNum 1.5).
    rewrite truthy_nonzero by lra. reflexivity.
  - change (js_get multipliers "high") with (JSNum 2.0).
    rewrite truthy_nonzero by lra. cbn [js_div]. f_equal. lra.
Qed.

(** A level that names neither a tier nor an inherited property falls back
    to the medium multiplier. *)
Lemma setSensitivity_fallback (level : string) (d : StepDetector) :
  level <> "low"%string -> level <> "medium"%string ->
  level <> "high"%string ->
  ~ In level object_prototype_keys ->
  baseThreshold (setSensitivity level d) = Num (11 / 1.5).
Proof.
  intros Hl Hm Hh Hp.
  unfold setSensitivity, js_or, js_get, multipliers.
  cbn [assoc_get].
  rewrite (proj2 (String.eqb_neq _ _)) by congruence.
  rewrite (proj2 (String.eqb_neq _ _)) by congruence.
  rewrite (proj2 (String.eqb_neq _ _)) by congruence.
  destruct (existsb (String.eqb level) object_prototype_keys) eqn:E.
  - exfalso. apply Hp. apply existsb_exists in E.
    destruct E as [k [Hin Hk]]. apply String.eqb_eq in Hk. subst k. exact Hin.
  - reflexivity.
Qed.

(** A level that names a property inherited from [Object.prototype] is
    looked up successfully, so there is no fallback and the threshold
    becomes NaN. *)
Lemma setSensitivity_inherited (level : string) (d : StepDetector) :
  In level object_prototype_keys ->
  baseThreshold (setSensitivity level d) = NaN.
Proof.
  intros H. unfold object_prototype_keys in H. cbn [In] in H.
  repeat (destruct H as [H | H]; [subst level; reflexivity |]).
  contradiction.
Qed.

(** C10 (the code at the failing input).  [setSensitivity("toString")] is a
    level outside low/medium/high, yet the base threshold it stores is NaN
    and not 11/1.5. *)
Theorem setSensitivity_toString (d : StepDetector) :
  baseThreshold (setSensitivity "toString" d) = NaN
  /\ baseThreshold (setSensitivity "toString" d) <> Num (11 / 1.5).
Proof.
  assert (E : baseThreshold (setSensitivity "toString" d) = NaN)
    by (apply setSensitivity_inherited; cbn; tauto).
  split; [exact E | rewrite E; discriminate].
Qed.

(** ** C6: the floor of the dynamic threshold *)

Lemma le_num_refl_num (r : R) : le_num (Num r) (Num r).
Proof. cbn. lra. Qed.

(** Recomputing the threshold never takes it to a number below a base that
    is a number: the result is at least the base, or NaN when the window
    holds a NaN. *)
Lemma adaptThreshold_floor (d : StepDetector) :
  floor_ok d \/ dynamicThreshold d = NaN ->
  (exists b, baseThreshold d = Num b) ->
  floor_ok (adaptThreshold d) \/ dynamicThreshold (adaptThreshold d) = NaN.
Proof.
  unfold floor_ok, adaptThreshold. intros H [b Hb].
  destruct (_ =? _)%nat; [| exact H].
  cbn [baseThreshold dynamicThreshold set_dynamicThreshold
       set_magnitudeStdDev set_avgMagnitude avgMagnitude magnitudeStdDev].
  rewrite Hb.
  destruct (js_add _ _) as [v |]; [left | right; reflexivity].
  cbn. apply Rmax_l.
Qed.

Lemma adaptThreshold_base (d : StepDetector) :
  baseThreshold (adaptThreshold d) = baseThreshold d.
Proof. unfold adaptThreshold. destruct (_ =? _)%nat; reflexivity. Qed.

Lemma detect_thresholds (m : JSNumber) (t : Z) (d : StepDetector) :
  baseThreshold (fst (detect m t d)) = baseThreshold d
  /\ dynamicThreshold (fst (detect m t d)) = dynamicThreshold d.
Proof. unfold detect. destruct (_ && _ && _); split; reflexivity. Qed.

Lemma applyFilter_thresholds (m : R) (d : StepDetector) :
  baseThreshold (applyFilter m d) = baseThreshold d
  /\ dynamicThreshold (applyFilter m d) = dynamicThreshold d.
Proof. unfold applyFilter. destruct (useFilter d); split; reflexivity. Qed.

(** [update] never writes the base threshold. *)
Lemma update_base (d : StepDetector) (a : Vec3) (dt t : Z) :
  baseThreshold (fst (update d a dt t)) = baseThreshold d.
Proof.
  unfold update. destruct (enabled d); cbn [negb fst]; [| reflexivity].
  set (m := currentMagnitude _ _).
  assert (E : baseThreshold (record m (applyFilter (magnitudeOf a) d))
              = baseThreshold d).
  { unfold record.
    cbn [baseThreshold set_totalSamples set_magnitudeHistory].
    apply (proj1 (applyFilter_thresholds _ d)). }
  destruct (_ <? 5)%nat; cbn [fst].
  - exact E.
  - rewrite (proj1 (detect_thresholds _ _ _)), adaptThreshold_base. exact E.
Qed.

(** [update] keeps the floor as long as the threshold stays a number. *)
Lemma update_floor (d : StepDetector) (a : Vec3) (dt t : Z) :
  floor_ok d \/ dynamicThreshold d = NaN ->
  (exists b, baseThreshold d = Num b) ->
  floor_ok (fst (update d a dt t))
  \/ dynamicThreshold (fst (update d a dt t)) = NaN.
Proof.
  intros H Hb. unfold update.
  destruct (enabled d); cbn [negb]; [| exact H].
  set (m := currentMagnitude _ _).
  set (d2 := record m _).
  assert (H2 : (floor_ok d2 \/ dynamicThreshold d2 = NaN)
               /\ exists b, baseThreshold d2 = Num b).
  { subst d2. unfold floor_ok, record.
    cbn [baseThreshold dynamicThreshold set_totalSamples set_magnitudeHistory].
    destruct (applyFilter_thresholds (magnitudeOf a) d) as [-> ->].
    split; assumption. }
  destruct H2 as [H2 Hb2].
  destruct (_ <? 5)%nat; cbn [fst].
  - exact H2.
  - unfold floor_ok.
    destruct (detect_thresholds m t (adaptThreshold d2)) as [-> ->].
    apply adaptThreshold_floor; assumption.
Qed.

Lemma reset_floor (d : StepDetector) :
  (exists b, baseThreshold d = Num b) -> floor_ok (reset d).
Proof.
  intros [b Hb]. unfold floor_ok, reset.
  cbn [baseThreshold dynamicThreshold set_dynamicThreshold
       set_filteredMagnitude set_avgMagnitude set_totalSamples
       set_lastPeakTime set_rawMagnitudeHistory set_magnitudeHistory
       set_stepCount].
  rewrite Hb. apply le_num_refl_num.
Qed.

(** Without [setSensitivity] the base threshold stays at 10.5, and the
    dynamic threshold is never a number below it. *)
Lemma steady_floor (d : StepDetector) :
  Steady d ->
  baseThreshold d = Num 10.5 /\ (floor_ok d \/ dynamicThreshold d = NaN).
Proof.
  induction 1 as [| d a dt t H [IHb IHf] | d H [IHb IHf]
                  | v d H IH | v a d H IH].
  - split; [reflexivity | left; apply le_num_refl_num].
  - split; [rewrite update_base; exact IHb |].
    apply update_floor; [exact IHf | eexists; exact IHb].
  - split; [exact IHb | left; apply reset_floor; eexists; exact IHb].
  - exact IH.
  - exact IH.
Qed.

(** C6 (the code at the failing input).  [setSensitivity("low")] on a new
    detector raises the base threshold to 11 and leaves the dynamic
    threshold at 10.5: a reachable state whose dynamic threshold is below
    the configured base threshold. *)
Theorem setSensitivity_low_breaks_floor :
  Reachable (setSensitivity "low" new)
  /\ baseThreshold (setSensitivity "low" new) = Num 11
  /\ dynamicThreshold (setSensitivity "low" new) = Num 10.5
  /\ ~ floor_ok (setSensitivity "low" new).
Proof.
  split; [apply reach_setSensitivity, reach_new |].
  destruct (setSensitivity_tiers new) as [E _].
  split; [exact E |]. split; [reflexivity |].
  unfold floor_ok. rewrite E.
  cbn [dynamicThreshold setSensitivity set_baseThreshold new le_num]. lra.
Qed.

(** ** C9: the fixed-threshold detector *)

Lemma basic_update_threshold (d : Basic.StepDetector) (a : Vec3) (dt : Z) :
  Basic.threshold (fst (Basic.update d a dt)) = Basic.threshold d
  /\ Basic.lastMagnitude (fst (Basic.update d a dt)) = magnitudeOf a.
Proof.
  unfold Basic.update. destruct (_ && _ && _ && _); split; reflexivity.
Qed.

(** No step is reported while the stored magnitude is at or above the
    threshold. *)
Lemma basic_no_rising_edge (d : Basic.StepDetector) (a : Vec3) (dt : Z) :
  Basic.threshold d <= Basic.lastMagnitude d ->
  snd (Basic.update d a dt) = false.
Proof.
  intros H. unfold Basic.update.
  rewrite (Rltb_false (Basic.lastMagnitude d) (Basic.threshold d)) by exact H.
  rewrite andb_false_r. reflexivity.
Qed.

Lemma basic_step_magnitude (d : Basic.StepDetector) (a : Vec3) (dt : Z) :
  snd (Basic.update d a dt) = true ->
  Basic.threshold d < magnitudeOf a.
Proof.
  unfold Basic.update. intros H.
  destruct (Rgtb (magnitudeOf a) (Basic.threshold d)) eqn:E.
  - apply Rltb_lt in E. exact E.
  - rewrite andb_false_r in H. cbn in H. discriminate.
Qed.

Lemma basic_quiet_run (l : list (Vec3 * Z)) (d : Basic.StepDetector) :
  Basic.threshold d <= Basic.lastMagnitude d ->
  Forall (fun s => Basic.threshold d <= magnitudeOf (fst s)) l ->
  Basic.outputs d l = repeat false (length l).
Proof.
  revert d. induction l as [| [a dt] l IH]; intros d Hd Hl; [reflexivity |].
  cbn [Basic.outputs length repeat].
  inversion Hl as [| s l' Hs Hl']; subst. cbn [fst] in Hs.
  rewrite basic_no_rising_edge by exact Hd. f_equal.
  destruct (basic_update_threshold d a dt) as [Et Em].
  apply IH.
  - rewrite Et, Em. exact Hs.
  - rewrite Et. exact Hl'.
Qed.

(** C9.  After a detected step the stored [lastMagnitude] is above the
    threshold; the very next call returns [false], and so does every later
    call as long as no sample's magnitude has fallen below the threshold. *)
Theorem basic_no_consecutive_steps (d : Basic.StepDetector) (a : Vec3)
    (dt : Z) :
  snd (Basic.update d a dt) = true ->
  let d' := fst (Basic.update d a dt) in
  Basic.threshold d' < Basic.lastMagnitude d'
  /\ (forall a2 dt2, snd (Basic.update d' a2 dt2) = false)
  /\ (forall l,
        Forall (fun s => Basic.threshold d' <= magnitudeOf (fst s)) l ->
        Basic.outputs d' l = repeat false (length l)).
Proof.
  intros H d'.
  destruct (basic_update_threshold d a dt) as [Et Em].
  assert (Hgt : Basic.threshold d' < Basic.lastMagnitude d').
  { subst d'. rewrite Et, Em. apply basic_step_magnitude with (dt := dt).
    exact H. }
  split; [exact Hgt |]. split.
  - intros a2 dt2. apply basic_no_rising_edge. lra.
  - intros l Hl. apply basic_quiet_run; [lra | exact Hl].
Qed.

Lemma basic_first_step :
  snd (Basic.update Basic.new (mkVec3 0 0 12) 100) = true.
Proof.
  unfold Basic.update, Basic.new.
  cbn [Basic.enabled Basic.threshold Basic.lastMagnitude Basic.cooldown
       andb].
  rewrite magnitudeOf_z by lra. unfold Rgtb.
  rewrite (Rltb_true 11.25 12) by lra.
  rewrite (Rltb_true 0 11.25) by lra.
  reflexivity.
Qed.

Lemma basic_no_consecutive_steps_witness :
  snd (Basic.update (fst (Basic.update Basic.new (mkVec3 0 0 12) 100))
         (mkVec3 0 0 30) 1000) = false.
Proof.
  apply (basic_no_consecutive_steps Basic.new (mkVec3 0 0 12) 100).
  exact basic_first_step.
Defined.

(** ** C1: dead reckoning *)

(** C1.  When the detector accepts a step, the tracker adds
    [(sin yaw * stepLength, - cos yaw * stepLength)] to [(x, z)] and leaves
    the height alone.  With a step length of 0.65 and a position of
    [(0, 0)], heading 0 gives [(0, -0.65)] and heading [PI / 2] gives
    [(0.65, 0)]. *)
Theorem dead_reckoning_step (t : IndoorPositionTracker) (a : Vec3)
    (dt now : Z) :
  snd (update (stepDetector t) a dt now) = true ->
  let t' := fst (trackerUpdate t a dt now) in
  snd (trackerUpdate t a dt now) = true
  /\ x (position t') = x (position t) + sin (yaw t) * stepLength t
  /\ z (position t') = z (position t) + - cos (yaw t) * stepLength t
  /\ y (position t') = y (position t)
  /\ (stepLength t = 0.65 -> x (position t) = 0 -> z (position t) = 0 ->
      (yaw t = 0 -> x (position t') = 0 /\ z (position t') = -0.65)
      /\ (yaw t = PI / 2 -> x (position t') = 0.65 /\ z (position t') = 0)).
Proof.
  intros H. unfold trackerUpdate.
  destruct (update (stepDetector t) a dt now) as [sd b]. cbn [snd] in H.
  subst b. cbn [fst snd position x y z].
  repeat (split; [reflexivity |]).
  intros HL Hx Hz. rewrite HL, Hx, Hz.
  split; intros Hyaw; rewrite Hyaw.
  - rewrite sin_0, cos_0. split; lra.
  - rewrite sin_PI2, cos_PI2. split; lra.
Qed.

(** Without a step the position does not move. *)
Lemma dead_reckoning_idle (t : IndoorPositionTracker) (a : Vec3)
    (dt now : Z) :
  snd (update (stepDetector t) a dt now) = false ->
  position (fst (trackerUpdate t a dt now)) = position t
  /\ snd (trackerUpdate t a dt now) = false.
Proof.
  intros H. unfold trackerUpdate.
  destruct (update (stepDetector t) a dt now) as [sd b]. cbn [snd] in H.
  subst b. split; reflexivity.
Qed.

Ltac close_numbers := repeat first [ reflexivity | lra | progress f_equal ].

Lemma run_rise : run new rise = risen /\ outputs new rise = repeat false 5.
Proof.
  unfold rise, risen, vertical, new. cbn [run outputs repeat].
  do 5 eval_step. split; close_numbers.
Qed.

Lemma risen_accepts :
  snd (step risen (vertical 9.8 1700000000500)) = true.
Proof. unfold risen, vertical. eval_step. reflexivity. Qed.

Lemma trackerRun_idle (l : list Sample) (t : IndoorPositionTracker) :
  outputs (stepDetector t) l = repeat false (length l) ->
  trackerRun t l
  = mkTracker (position t) (stepLength t) (run (stepDetector t) l) (yaw t).
Proof.
  revert t. induction l as [| s l IH]; intros t H.
  - destruct t; reflexivity.
  - cbn [outputs length repeat] in H. injection H as Hs Hl.
    cbn [trackerRun run].
    assert (E : fst (trackerStep t s)
                = mkTracker (position t) (stepLength t)
                    (fst (step (stepDetector t) s)) (yaw t)).
    { unfold trackerStep, trackerUpdate, step in *.
      destruct (update (stepDetector t) (acceleration s) (deltaTime s)
                  (currentTime s)) as [sd b].
      cbn [snd] in Hs. subst b. reflexivity. }
    rewrite E. rewrite IH; [reflexivity | exact Hl].
Qed.

Lemma dead_reckoning_step_witness :
  let t := trackerRun (newTracker 0.65) rise in
  let t' := fst (trackerStep t (vertical 9.8 1700000000500)) in
  x (position t') = 0 /\ z (position t') = -0.65.
Proof.
  intros t t'.
  destruct run_rise as [Hrun Hout].
  assert (Et : t = mkTracker (mkVec3 0 1.6 0) 0.65 risen 0).
  { subst t. rewrite trackerRun_idle; cbn [newTracker stepDetector]; 
      [rewrite Hrun; reflexivity | exact Hout]. }
  subst t'. rewrite Et.
  apply (dead_reckoning_step (mkTracker (mkVec3 0 1.6 0) 0.65 risen 0)
           (mkVec3 0 0 9.8) 100 1700000000500);
    try reflexivity.
  exact risen_accepts.
Defined.

(** ** C5: heading calibration *)

(** The reference heading after a stream of events: kept if already set,
    otherwise taken from the first non-null [alpha]. *)
Lemma initialYaw_capture (events : list OrientationEvent) (p : Page) :
  initialYaw (deviceOrientationControls (onDeviceOrientations events p))
  = match initialYaw (deviceOrientationControls p) with
    | Some y0 => Some y0
    | None => option_map degToRad (firstAlpha events)
    end.
Proof.
  revert p. induction events as [| e events IH]; intros p.
  - cbn. destruct (initialYaw _); reflexivity.
  - unfold onDeviceOrientations in *. cbn [fold_left firstAlpha].
    rewrite IH.
    cbn [onDeviceOrientation deviceOrientationControls handleOrientation
         initialYaw].
    destruct (initialYaw (deviceOrientationControls p)); [reflexivity |].
    destruct (ev_alpha e); reflexivity.
Qed.

Lemma onDeviceOrientations_app (e1 e2 : list OrientationEvent) (p : Page) :
  onDeviceOrientations (e1 ++ e2) p
  = onDeviceOrientations e2 (onDeviceOrientations e1 p).
Proof. unfold onDeviceOrientations. apply fold_left_app. Qed.

(** C5.  On a page whose reference heading is not set yet, let the first
    event with a non-null [alpha] carry [theta0].  The reference heading is
    then [theta0] in radians and no later event changes it; an event with
    alpha [a] sets the heading to the reference minus [a] in radians, which
    is 0 for [a = theta0] and [- PI / 2] for [a = theta0 + 90]. *)
Theorem heading_calibration (p : Page) (before between : list OrientationEvent)
    (theta0 a : R) (b g b' g' : option R) :
  initialYaw (deviceOrientationControls p) = None ->
  firstAlpha before = None ->
  let p1 :=
    onDeviceOrientations (before ++ withAlpha theta0 b g :: between) p in
  let p2 := onDeviceOrientation (withAlpha a b' g') p1 in
  initialYaw (deviceOrientationControls p1) = Some (degToRad theta0)
  /\ initialYaw (deviceOrientationControls p2) = Some (degToRad theta0)
  /\ yaw (tracker p2) = degToRad theta0 - degToRad a
  /\ (a = theta0 -> yaw (tracker p2) = 0)
  /\ (a = theta0 + 90 -> yaw (tracker p2) = - PI / 2).
Proof.
  intros Hp Hb p1 p2.
  assert (E1 : initialYaw (deviceOrientationControls p1)
               = Some (degToRad theta0)).
  { subst p1. rewrite initialYaw_capture, Hp.
    assert (F : firstAlpha (before ++ withAlpha theta0 b g :: between)
                = Some theta0).
    { clear - Hb. induction before as [| e l IH]; [reflexivity |].
      cbn [app firstAlpha] in *. destruct (ev_alpha e); [discriminate |].
      apply IH. exact Hb. }
    rewrite F. reflexivity. }
  assert (Ey : yaw (tracker p2) = degToRad theta0 - degToRad a).
  { subst p2. cbn [onDeviceOrientation tracker withAlpha ev_alpha].
    rewrite E1. cbn [updateOrientation yaw]. unfold degToRad. lra. }
  split; [exact E1 |]. split.
  - subst p2.
    cbn [onDeviceOrientation deviceOrientationControls handleOrientation
         initialYaw].
    rewrite E1. reflexivity.
  - split; [exact Ey |].
    split; intros ->; rewrite Ey; unfold degToRad; lra.
Qed.

Lemma heading_calibration_witness :
  let p1 :=
    onDeviceOrientations
      ([mkOrientationEvent None None None]
         ++ withAlpha 30 (Some 80) (Some 2)
         :: [withAlpha 75 (Some 85) None]) newPage in
  yaw (tracker (onDeviceOrientation (withAlpha 120 None None) p1)) = - PI / 2.
Proof.
  intros p1.
  apply (heading_calibration newPage [mkOrientationEvent None None None]
           [withAlpha 75 (Some 85) None] 30 120 (Some 80) (Some 2) None None).
  - reflexivity.
  - reflexivity.
  - lra.
Defined.

(** ** C3: magnitudes below the base threshold *)

Lemma adaptThreshold_shape (d : StepDetector) :
  exists avg sd dyn,
    adaptThreshold d
    = set_dynamicThreshold dyn
        (set_magnitudeStdDev sd (set_avgMagnitude avg d)).
Proof.
  unfold adaptThreshold.
  destruct (_ =? _)%nat.
  - eexists _, _, _. reflexivity.
  - exists (avgMagnitude d), (magnitudeStdDev d), (dynamicThreshold d).
    destruct d; reflexivity.
Qed.

Lemma isPeak_not_rising (m delta : JSNumber) (d : StepDetector) :
  js_gt (lastDelta d) (Num 0) = false -> isPeak m delta d = false.
Proof.
  intros H. unfold isPeak. rewrite H.
  rewrite andb_false_r. reflexivity.
Qed.

Lemma detect_no_peak (m : JSNumber) (t : Z) (d : StepDetector) :
  isPeak m (js_sub m (lastMagnitude d)) d = false ->
  detect m t d
  = (set_lastDelta (js_sub m (lastMagnitude d)) (set_lastMagnitude m d),
     false).
Proof. intros H. unfold detect. rewrite H. reflexivity. Qed.

Lemma filter_below (alpha raw f b : R) :
  0 <= alpha <= 1 -> raw < b -> f < b -> alpha * raw + (1 - alpha) * f < b.
Proof.
  intros Ha Hr Hf.
  assert (H1 : 0 <= alpha * (b - raw)) by (apply Rmult_le_pos; lra).
  assert (H2 : 0 <= (1 - alpha) * (b - f)) by (apply Rmult_le_pos; lra).
  destruct (Req_dec alpha 0) as [-> | Hne]; [lra |].
  assert (H3 : 0 < alpha * (b - raw)) by (apply Rmult_lt_0_compat; lra).
  lra.
Qed.

Lemma filter_rising (alpha raw f : R) :
  0 <= alpha <= 1 -> 0 < alpha * raw + (1 - alpha) * f - f -> f < raw.
Proof.
  intros Ha H.
  destruct (Rlt_dec f raw) as [Hlt | Hge]; [exact Hlt | exfalso].
  assert (H1 : 0 <= alpha * (f - raw)) by (apply Rmult_le_pos; lra).
  lra.
Qed.

(** A magnitude below a base that the threshold respects is not above the
    threshold; neither is NaN. *)
Lemma below_floor (m : JSNumber) (b : R) (dyn : JSNumber) :
  (forall x, m = Num x -> x < b) ->
  le_num (Num b) dyn \/ dyn = NaN ->
  js_gt m dyn = false.
Proof.
  intros Hm [Hle | ->]; [| destruct m; reflexivity].
  destruct m as [x |]; [| apply js_gt_NaN].
  destruct dyn as [y |]; [| destruct Hle].
  cbn in *. apply Rltb_false. specialize (Hm x eq_refl). lra.
Qed.

Lemma isPeak_below (m delta : JSNumber) (d : StepDetector) :
  js_gt m (dynamicThreshold d) = false -> isPeak m delta d = false.
Proof. intros H. unfold isPeak. rewrite H. reflexivity. Qed.

(** The filter keeps a magnitude below [b] below [b]. *)
Lemma filtered_below (alpha f : JSNumber) (raw b : R) :
  inRange 0 1 alpha \/ alpha = NaN ->
  raw < b ->
  (forall x, f = Num x -> x < b) ->
  forall x,
    js_add (js_mul alpha (Num raw)) (js_mul (js_sub (Num 1) alpha) f) = Num x ->
    x < b.
Proof.
  intros Ha Hr Hf x E.
  destruct alpha as [a |]; [| discriminate E].
  destruct f as [f0 |]; [| discriminate E].
  destruct Ha as [Ha | Ha]; [| discriminate Ha].
  cbn in E, Ha. injection E as <-.
  apply filter_below; [exact Ha | exact Hr | apply Hf; reflexivity].
Qed.

(** A filtered magnitude that rose is below the raw magnitude. *)
Lemma filtered_rising (alpha f : JSNumber) (raw b : R) :
  inRange 0 1 alpha \/ alpha = NaN ->
  raw < b ->
  js_gt (js_sub
           (js_add (js_mul alpha (Num raw)) (js_mul (js_sub (Num 1) alpha) f))
           f) (Num 0) = true ->
  forall x, f = Num x -> x < b.
Proof.
  intros Ha Hr H x ->.
  destruct alpha as [a |]; [| discriminate H].
  destruct Ha as [Ha | Ha]; [| discriminate Ha].
  cbn in H, Ha. apply Rltb_lt in H.
  apply filter_rising in H; [lra | exact Ha].
Qed.

Lemma adaptThreshold_floor_shape (d : StepDetector) :
  floor_ok d \/ dynamicThreshold d = NaN ->
  (exists b, baseThreshold d = Num b) ->
  le_num (baseThreshold d) (dynamicThreshold (adaptThreshold d))
  \/ dynamicThreshold (adaptThreshold d) = NaN.
Proof.
  intros H Hb. destruct (adaptThreshold_floor d H Hb) as [F | F].
  - left. unfold floor_ok in F. rewrite adaptThreshold_base in F. exact F.
  - right. exact F.
Qed.

Lemma quiet_step (b : R) (d : StepDetector) (s : Sample) :
  quiet b d ->
  magnitudeOf (acceleration s) < b ->
  snd (step d s) = false
  /\ stepCount (fst (step d s)) = stepCount d
  /\ quiet b (fst (step d s)).
Proof.
  intros Hq Hm. pose proof Hq as (Hb & Hfl & Ha & Hf).
  unfold step, update.
  destruct (enabled d); cbn [negb];
    [| split; [reflexivity | split; [reflexivity | exact Hq ]]].
  set (raw := magnitudeOf (acceleration s)) in *.
  destruct (useFilter d) eqn:Euf.
  - (* filter on *)
    destruct (Hf eq_refl) as [Hrise Hlast].
    unfold applyFilter, currentMagnitude. rewrite Euf.
    cbn [useFilter filteredMagnitude set_rawMagnitudeHistory
         set_filteredMagnitude].
    rewrite Euf.
    set (f' := js_add _ _).
    set (d1 := set_rawMagnitudeHistory _ _).
    assert (Hfl1 : floor_ok (record f' d1)
                   \/ dynamicThreshold (record f' d1) = NaN) by exact Hfl.
    assert (Hb1 : baseThreshold (record f' d1) = Num b) by exact Hb.
    pose proof (adaptThreshold_floor_shape (record f' d1) Hfl1
                  (ex_intro _ b Hb1)) as Hdyn.
    rewrite Hb1 in Hdyn.
    destruct (adaptThreshold_shape (record f' d1))
      as (avg & sd & dyn & E).
    rewrite E in Hdyn.
    cbn [dynamicThreshold set_dynamicThreshold] in Hdyn.
    destruct (_ <? 5)%nat eqn:Elen.
    + cbn [fst snd]. split; [reflexivity | split; [reflexivity |]].
      split; [exact Hb | split; [exact Hfl | split; [exact Ha |]]].
      intros _. split.
      * cbn. intros Hd. subst f'.
        apply filtered_below; [exact Ha | exact Hm |]. apply Hrise, Hd.
      * right. reflexivity.
    + rewrite E.
      assert (Hwin : magnitudeHistory d <> []).
      { intros Hnil. subst d1. unfold record in Elen.
        cbn [magnitudeHistory set_totalSamples set_magnitudeHistory
             set_rawMagnitudeHistory set_filteredMagnitude historySize] in Elen.
        rewrite Hnil in Elen. unfold push_bounded in Elen.
        cbn [app length] in Elen.
        destruct (historySize d <? 1)%nat; cbn in Elen; discriminate. }
      assert (El : lastMagnitude d = filteredMagnitude d)
        by (destruct Hlast; [contradiction | assumption]).
      rewrite detect_no_peak.
      * cbn [fst snd]. split; [reflexivity | split; [reflexivity |]].
        split; [exact Hb | split; [| split; [exact Ha |]]].
        -- unfold floor_ok. cbn. rewrite Hb. exact Hdyn.
        -- intros _. split; [| right; reflexivity].
           cbn. intros Hd. rewrite El in Hd. subst f'.
           apply filtered_below; [exact Ha | exact Hm |].
           apply (filtered_rising (filterAlpha d) (filteredMagnitude d) raw b);
             assumption.
      * destruct (js_gt (lastDelta d) (Num 0)) eqn:Hgt.
        -- apply isPeak_below. cbn.
           apply below_floor with (b := b); [| exact Hdyn].
           subst f'. apply filtered_below; [exact Ha | exact Hm |].
           apply Hrise. reflexivity.
        -- apply isPeak_not_rising. exact Hgt.
  - (* filter off *)
    unfold applyFilter, currentMagnitude. rewrite Euf. rewrite Euf.
    assert (Hfl1 : floor_ok (record (Num raw) d)
                   \/ dynamicThreshold (record (Num raw) d) = NaN)
      by exact Hfl.
    assert (Hb1 : baseThreshold (record (Num raw) d) = Num b) by exact Hb.
    pose proof (adaptThreshold_floor_shape (record (Num raw) d) Hfl1
                  (ex_intro _ b Hb1)) as Hdyn.
    rewrite Hb1 in Hdyn.
    destruct (adaptThreshold_shape (record (Num raw) d))
      as (avg & sd & dyn & E).
    rewrite E in Hdyn.
    cbn [dynamicThreshold set_dynamicThreshold] in Hdyn.
    destruct (_ <? 5)%nat eqn:Elen.
    + cbn [fst snd]. split; [reflexivity | split; [reflexivity |]].
      split; [exact Hb | split; [exact Hfl | split; [exact Ha |]]].
      cbn. rewrite Euf. discriminate.
    + rewrite E.
      rewrite detect_no_peak.
      * cbn [fst snd]. split; [reflexivity | split; [reflexivity |]].
        split; [exact Hb | split; [| split; [exact Ha |]]].
        -- unfold floor_ok. cbn. rewrite Hb. exact Hdyn.
        -- cbn. rewrite Euf. discriminate.
      * apply isPeak_below. cbn.
        apply below_floor with (b := b); [| exact Hdyn].
        intros x Hx. injection Hx as <-. exact Hm.
Qed.

Lemma Forall_prefix {A : Type} (P : A -> Prop) (k : nat) (l : list A) :
  Forall P l -> Forall P (firstn k l).
Proof.
  revert k. induction l as [| a l IH]; intros k H.
  - destruct k; constructor.
  - destruct k; [constructor |].
    inversion H; subst. cbn [firstn]. constructor; [assumption |].
    apply IH. assumption.
Qed.

Lemma quiet_run (b : R) (l : list Sample) (d : StepDetector) :
  quiet b d ->
  Forall (fun s => magnitudeOf (acceleration s) < b) l ->
  outputs d l = repeat false (length l)
  /\ stepCount (run d l) = stepCount d
  /\ quiet b (run d l).
Proof.
  revert d. induction l as [| s l IH]; intros d Hq Hl.
  - split; [reflexivity | split; [reflexivity | exact Hq]].
  - inversion Hl as [| s' l' Hs Hl']; subst.
    destruct (quiet_step b d s Hq Hs) as (Hout & Hcount & Hq').
    destruct (IH _ Hq' Hl') as (IHout & IHcount & IHq).
    cbn [outputs run length repeat].
    rewrite Hout, IHout, IHcount, Hcount.
    split; [reflexivity | split; [reflexivity | exact IHq]].
Qed.

(** A constructed and configured detector has an empty window, no stored
    slope, no steps, and a coefficient in range or NaN. *)
Lemma configured_fresh (d : StepDetector) :
  Configured d ->
  magnitudeHistory d = [] /\ lastDelta d = Num 0 /\ stepCount d = 0%nat
  /\ (inRange 0 1 (filterAlpha d) \/ filterAlpha d = NaN).
Proof.
  induction 1 as [| v d H IH | v a d H IH | level d H IH].
  - cbn. repeat split. left. lra.
  - exact IH.
  - destruct IH as (Hh & Hd & Hc & _).
    repeat split; try assumption.
    destruct a as [a |]; [left | right; reflexivity].
    destruct (setFilter_range v a d) as [r [-> Hr]]. cbn. lra.
  - exact IH.
Qed.

(** As long as the dynamic threshold is not below the base threshold when
    the samples start, a constructed and configured detector reports no
    step on a run whose magnitudes all stay below the base threshold. *)
Lemma floor_keeps_quiet (d : StepDetector) (l : list Sample) :
  Configured d ->
  floor_ok d ->
  Forall (fun s => lt_num (magnitudeOf (acceleration s)) (baseThreshold d)) l ->
  outputs d l = repeat false (length l)
  /\ (forall k, stepCount (run d (firstn k l)) = 0%nat).
Proof.
  intros Hc Hfl Hl.
  destruct (baseThreshold d) as [b |] eqn:Hb;
    [| unfold floor_ok in Hfl; rewrite Hb in Hfl; destruct Hfl].
  cbn [lt_num] in Hl.
  destruct (configured_fresh d Hc) as (Hh & Hd & Hcount & Ha).
  assert (Hq : quiet b d).
  { split; [exact Hb | split; [left; exact Hfl | split; [exact Ha |]]].
    intros _. split; [| left; exact Hh].
    rewrite Hd. cbn. rewrite Rltb_false by lra. discriminate. }
  split.
  - apply (quiet_run b l d Hq Hl).
  - intros k.
    destruct (quiet_run b (firstn k l) d Hq (Forall_prefix _ k l Hl))
      as (_ & Hc' & _).
    rewrite Hc'. exact Hcount.
Qed.

(** [setSensitivity('low')] changes nothing but the base threshold of a
    new detector. *)
Lemma low_configuration :
  setSensitivity "low" new = set_baseThreshold (Num 11) new.
Proof.
  unfold setSensitivity, js_or.
  change (js_get multipliers "low") with (JSNum 1.0).
  rewrite truthy_nonzero by lra. cbn [js_div]. do 2 f_equal. lra.
Qed.

(** So does the page's own configuration, [setFilter(true, 0.5)] followed
    by [setSensitivity('medium')]. *)
Lemma page_configuration :
  setSensitivity "medium" (setFilter true (Num 0.5) new)
  = set_baseThreshold (Num (11 / 1.5)) new.
Proof.
  unfold setSensitivity, js_or.
  change (js_get multipliers "medium") with (JSNum 1.5).
  rewrite truthy_nonzero by lra. cbn [js_div]. f_equal.
  unfold setFilter, new, set_useFilter, set_filterAlpha.
  compute_fields. cbn [js_max js_min lift2]. do 2 f_equal.
  unfold Rmax, Rmin.
  destruct (Rle_dec 1.0 0.5); destruct (Rle_dec 0.1 _); lra.
Qed.

Ltac below_base :=
  unfold vertical;
  repeat (constructor;
          [cbn [lt_num acceleration]; rewrite magnitudeOf_z by lra; lra |]);
  constructor.

Ltac unfold_new :=
  unfold vertical, new, set_baseThreshold;
  cbn [outputs run magnitudeHistory historySize useFilter filterAlpha
       filteredMagnitude rawMagnitudeHistory baseThreshold dynamicThreshold
       avgMagnitude magnitudeStdDev lastPeakTime minPeakInterval
       lastMagnitude lastDelta stepCount enabled totalSamples
       falsePositiveFilter].

(** The slope left in [lastDelta] survives [reset()], so the first window
    after a reset can end in a step below the base threshold.  In the
    page's configuration (base threshold 11/1.5) every sample of [dip] and
    of [low_tail] is below the base threshold; [dip] ends on a rising
    slope, and after [reset()] the fifth sample of [low_tail] is counted as
    a step. *)
Lemma reset_step_below_base :
  let d := setSensitivity "medium" (setFilter true (Num 0.5) new) in
  Forall (fun s => lt_num (magnitudeOf (acceleration s)) (baseThreshold d))
    (dip ++ low_tail)
  /\ outputs d dip = repeat false 6
  /\ outputs (reset (run d dip)) low_tail
     = [false; false; false; false; true].
Proof.
  cbv zeta. rewrite page_configuration.
  split; [| split].
  - cbn [baseThreshold set_baseThreshold]. unfold dip, low_tail. cbn [app].
    below_base.
  - unfold dip. unfold_new. do 6 eval_step. reflexivity.
  - unfold dip. unfold_new. do 6 eval_step.
    unfold reset. compute_fields.
    unfold low_tail, vertical. cbn [outputs].
    do 5 eval_step. reflexivity.
Qed.

(** C3 (the code at the failing input).  [setSensitivity("low")] on a new
    detector gives a constructed and configured detector with base
    threshold 11 and dynamic threshold 10.5.  Every sample of [ripple] has
    a magnitude below the base threshold, and the seventh call to [update]
    returns [true] and counts a step. *)
Theorem low_sensitivity_step_below_base :
  Configured (setSensitivity "low" new)
  /\ Forall (fun s => lt_num (magnitudeOf (acceleration s))
                        (baseThreshold (setSensitivity "low" new))) ripple
  /\ outputs (setSensitivity "low" new) ripple
     = [false; false; false; false; false; false; true]
  /\ stepCount (run (setSensitivity "low" new) ripple) = 1%nat.
Proof.
  split; [apply conf_setSensitivity, conf_new |].
  rewrite low_configuration.
  split; [| split].
  - cbn [baseThreshold set_baseThreshold]. unfold ripple. below_base.
  - unfold ripple. unfold_new. do 7 eval_step. reflexivity.
  - unfold ripple. unfold_new. do 7 eval_step. reflexivity.
Qed.

(** ** C4: debounce *)

(** With the prominence filter off, [update] returns [true] exactly when the
    sample is a candidate peak and the last accepted step is more than
    [minPeakInterval] back; an accepted step stamps [lastPeakTime] and
    counts one step, a rejected one leaves both alone. *)
Lemma step_accepts (d : StepDetector) (s : Sample) :
  falsePositiveFilter d = false ->
  let d' := fst (step d s) in
  snd (step d s)
  = candidate d (acceleration s)
    && (minPeakInterval d <? currentTime s - lastPeakTime d)%Z
  /\ falsePositiveFilter d' = false
  /\ minPeakInterval d' = minPeakInterval d
  /\ lastPeakTime d'
     = (if snd (step d s) then currentTime s else lastPeakTime d)
  /\ stepCount d'
     = (if snd (step d s) then S (stepCount d) else stepCount d).
Proof.
  intros Hfp d'. subst d'.
  unfold step, update, candidate.
  destruct (enabled d); cbn [negb];
    [| repeat split; try reflexivity; assumption].
  set (m := currentMagnitude _ _).
  set (d1 := applyFilter _ d).
  assert (H1 : falsePositiveFilter d1 = false
               /\ minPeakInterval d1 = minPeakInterval d
               /\ lastPeakTime d1 = lastPeakTime d
               /\ stepCount d1 = stepCount d).
  { subst d1. unfold applyFilter. destruct (useFilter d);
      repeat split; try reflexivity; assumption. }
  destruct H1 as (F1 & M1 & L1 & C1).
  destruct (_ <? 5)%nat.
  - cbn. repeat split; assumption.
  - destruct (adaptThreshold_shape (record m d1))
      as (avg & sd & dyn & E).
    rewrite E. set (d3 := set_dynamicThreshold _ _).
    assert (H3 : falsePositiveFilter d3 = false
                 /\ minPeakInterval d3 = minPeakInterval d
                 /\ lastPeakTime d3 = lastPeakTime d
                 /\ stepCount d3 = stepCount d).
    { subst d3. cbn. repeat split; assumption. }
    destruct H3 as (F3 & M3 & L3 & C3). clearbody d3.
    unfold detect, isValidStep. rewrite F3, M3, L3, andb_true_r.
    destruct (isPeak _ _ d3 && _); cbn; rewrite ?F3, ?M3, ?L3, ?C3;
      repeat split; reflexivity.
Qed.

(** No public method switches the prominence filter on or changes the
    minimum interval. *)
Lemma reachable_filter_off (d : StepDetector) :
  Reachable d ->
  falsePositiveFilter d = false /\ minPeakInterval d = 500%Z.
Proof.
  induction 1 as [| d a dt t H [IHf IHm] | d H IH | v d H IH
                  | v a d H IH | level d H IH];
    try exact IH; try (split; reflexivity).
  destruct (step_accepts d (mkSample a dt t) IHf) as (_ & F & M & _).
  unfold step in F, M. cbn [acceleration deltaTime currentTime] in F, M.
  split; [exact F | rewrite M; exact IHm].
Qed.

Lemma nth_repeat_false (n k : nat) : nth k (repeat false n) false = false.
Proof.
  revert k. induction n as [| n IH]; intros [| k]; cbn; try reflexivity.
  apply IH.
Qed.

(** While every candidate comes no later than [minPeakInterval] after the
    last accepted step, nothing is accepted. *)
Lemma debounced_run (l : list Sample) (d : StepDetector) :
  falsePositiveFilter d = false ->
  (forall k, nth k (candidates d l) false = true ->
             (nth k (times l) 0 - lastPeakTime d <= minPeakInterval d)%Z) ->
  outputs d l = repeat false (length l)
  /\ stepCount (run d l) = stepCount d.
Proof.
  revert d. induction l as [| s l IH]; intros d Hfp H.
  - split; reflexivity.
  - destruct (step_accepts d s Hfp) as (Hout & F & M & L & C).
    assert (E : snd (step d s) = false).
    { rewrite Hout. destruct (candidate d (acceleration s)) eqn:Ec;
        [| reflexivity].
      specialize (H 0%nat Ec). cbn in H. cbn [andb].
      apply Z.ltb_ge. exact H. }
    rewrite E in L, C.
    cbn [outputs run length repeat]. rewrite E.
    destruct (IH (fst (step d s)) F) as (IHout & IHcount).
    + intros k Hk. rewrite L, M. apply (H (S k)). exact Hk.
    + rewrite IHout, IHcount, C. split; reflexivity.
Qed.

(** C4.  Let a run contain exactly two candidate peaks, at positions
    [i < j], read less than [minPeakInterval] apart, the first of them more
    than [minPeakInterval] after the last step accepted before the run (on a
    new or reset detector: a clock reading above 500).  With the prominence
    filter off, as the constructor leaves it, [update] returns [true] at
    position [i] and nowhere else, and the step count grows by exactly
    one. *)
Theorem debounce_two_peaks (l : list Sample) (d : StepDetector) (i j : nat) :
  falsePositiveFilter d = false ->
  (i < j)%nat ->
  (forall k, nth k (candidates d l) false = true <-> k = i \/ k = j) ->
  (minPeakInterval d < nth i (times l) 0 - lastPeakTime d)%Z ->
  (nth j (times l) 0 - nth i (times l) 0 < minPeakInterval d)%Z ->
  (forall k, nth k (outputs d l) false = true <-> k = i)
  /\ stepCount (run d l) = S (stepCount d).
Proof.
  revert d i j. induction l as [| s l IH]; intros d i j Hfp Hij Hc Ht1 Ht2.
  - exfalso. destruct (Hc i) as [_ Hi].
    specialize (Hi (or_introl eq_refl)). destruct i; discriminate.
  - destruct (step_accepts d s Hfp) as (Hout & F & M & L & C).
    destruct j as [| j]; [lia |].
    destruct i as [| i].
    + (* the first candidate is the head of the run *)
      assert (Ec : candidate d (acceleration s) = true)
        by (apply (Hc 0%nat); left; reflexivity).
      assert (E : snd (step d s) = true).
      { rewrite Hout, Ec. cbn [andb]. apply Z.ltb_lt. exact Ht1. }
      rewrite E in L, C.
      destruct (debounced_run l (fst (step d s)) F) as (Dout & Dcount).
      { intros k Hk. rewrite L, M.
        destruct (Hc (S k)) as [Hk' _]. specialize (Hk' Hk).
        destruct Hk' as [Hk' | Hk']; [discriminate |].
        injection Hk' as ->. unfold times in *. cbn [map nth] in Ht2. lia. }
      cbn [outputs run]. rewrite E, Dout, Dcount, C.
      split; [| reflexivity].
      intros [| k]; cbn [nth].
      * split; reflexivity.
      * rewrite nth_repeat_false. split; [discriminate | lia].
    + (* the head of the run is not a candidate *)
      assert (Ec : candidate d (acceleration s) = false).
      { destruct (candidate d (acceleration s)) eqn:Ec; [| reflexivity].
        destruct (Hc 0%nat) as [H0 _]. specialize (H0 Ec). lia. }
      assert (E : snd (step d s) = false) by (rewrite Hout, Ec; reflexivity).
      rewrite E in L, C.
      destruct (IH (fst (step d s)) i j F) as (IHout & IHcount).
      * lia.
      * intros k. destruct (Hc (S k)) as [H1 H2]. cbn [candidates nth] in H1, H2.
        split.
        -- intros Hk. specialize (H1 Hk). lia.
        -- intros Hk. apply H2. lia.
      * rewrite L, M. exact Ht1.
      * rewrite M. exact Ht2.
      * cbn [outputs run]. rewrite E, IHcount, C.
        split; [| reflexivity].
        intros [| k]; cbn [nth].
        -- split; [discriminate | lia].
        -- rewrite IHout. lia.
Qed.

Lemma candidates_two_peaks :
  candidates new two_peaks
  = [false; false; false; false; false; true; false; true].
Proof.
  unfold two_peaks, rise, vertical, new. cbn [app candidates].
  repeat eval_step. reflexivity.
Qed.

Lemma debounce_two_peaks_witness :
  (forall k, nth k (outputs new two_peaks) false = true <-> k = 5%nat)
  /\ stepCount (run new two_peaks) = 1%nat.
Proof.
  apply (debounce_two_peaks two_peaks new 5 7).
  - reflexivity.
  - lia.
  - intros k. rewrite candidates_two_peaks.
    do 8 (destruct k as [| k]; [cbn; split; [discriminate || lia | intros [H | H]; (discriminate || reflexivity)] |]).
    cbn. destruct k; split; try discriminate; lia.
  - cbn. lia.
  - cbn. lia.
Defined.

(** ** C2: reset and replay *)

Lemma trackerStep_detector (t : IndoorPositionTracker) (s : Sample) :
  stepDetector (fst (trackerStep t s)) = fst (step (stepDetector t) s)
  /\ snd (trackerStep t s) = snd (step (stepDetector t) s).
Proof.
  unfold trackerStep, trackerUpdate, step.
  destruct (update _ _ _ _) as [sd [|]]; split; reflexivity.
Qed.

Lemma trackerOutputs_flags (l : list Sample) (t : IndoorPositionTracker) :
  flags (trackerOutputs t l) = outputs (stepDetector t) l.
Proof.
  revert t. induction l as [| s l IH]; intros t; [reflexivity |].
  cbn [trackerOutputs flags map outputs fst].
  destruct (trackerStep_detector t s) as [Ed Eb].
  rewrite Eb. f_equal. fold (flags (trackerOutputs (fst (trackerStep t s)) l)).
  rewrite IH, Ed. reflexivity.
Qed.

Lemma trackerRun_detector (l : list Sample) (t : IndoorPositionTracker) :
  stepDetector (trackerRun t l) = run (stepDetector t) l.
Proof.
  revert t. induction l as [| s l IH]; intros t; [reflexivity |].
  cbn [trackerRun run]. rewrite IH.
  rewrite (proj1 (trackerStep_detector t s)). reflexivity.
Qed.

(** [reset()] does not touch the stored slope, the stored magnitude or the
    deviation. *)
Lemma reset_keeps_slope (d : StepDetector) :
  lastDelta (reset d) = lastDelta d
  /\ lastMagnitude (reset d) = lastMagnitude d
  /\ magnitudeStdDev (reset d) = magnitudeStdDev d.
Proof. repeat split; reflexivity. Qed.

Lemma surge_fresh : outputs new surge = repeat false 6.
Proof.
  unfold surge, vertical, new. cbn [outputs]. repeat eval_step. reflexivity.
Qed.

Lemma surge_after_reset :
  outputs (reset (run new surge)) surge
  = [false; false; false; false; true; false].
Proof.
  unfold surge, vertical, new. cbn [run]. repeat eval_step.
  cbv beta iota zeta delta
    [reset set_stepCount set_magnitudeHistory set_rawMagnitudeHistory
     set_lastPeakTime set_totalSamples set_avgMagnitude set_filteredMagnitude
     set_dynamicThreshold magnitudeHistory historySize useFilter filterAlpha
     filteredMagnitude rawMagnitudeHistory baseThreshold dynamicThreshold
     avgMagnitude magnitudeStdDev lastPeakTime minPeakInterval lastMagnitude
     lastDelta stepCount enabled totalSamples falsePositiveFilter].
  cbn [outputs]. repeat eval_step. reflexivity.
Qed.

(** C2 (the code at the failing input).  Feed [surge] to a new tracker,
    call [reset()], and feed [surge] again: the fifth sample is now reported
    as a step, while a new tracker with the same configuration reports no
    step for any sample of [surge]. *)
Theorem reset_replay_differs :
  let used := trackerRun (newTracker 0.65) surge in
  flags (trackerOutputs (newTracker 0.65) surge)
  = [false; false; false; false; false; false]
  /\ flags (trackerOutputs (trackerReset used) surge)
     = [false; false; false; false; true; false]
  /\ trackerOutputs (trackerReset used) surge
     <> trackerOutputs (newTracker 0.65) surge.
Proof.
  intros used.
  assert (E1 : flags (trackerOutputs (newTracker 0.65) surge)
               = [false; false; false; false; false; false]).
  { rewrite trackerOutputs_flags. exact surge_fresh. }
  assert (E2 : flags (trackerOutputs (trackerReset used) surge)
               = [false; false; false; false; true; false]).
  { rewrite trackerOutputs_flags. subst used.
    cbn [trackerReset stepDetector]. rewrite trackerRun_detector.
    exact surge_after_reset. }
  split; [exact E1 | split; [exact E2 |]].
  intros H. rewrite H, E1 in E2. discriminate.
Qed.

(** * Further properties of the code *)

(** ** The adaptive detector: counting, windows, spacing *)

(** The three ways a call to [update] can end. *)
Ltac split_update :=
  unfold step, update;
  match goal with
  | |- context [negb (enabled ?d)] =>
      destruct (enabled d) eqn:?; cbn [negb];
      [ match goal with
        | |- context [record ?m ?d1] =>
            destruct (length (magnitudeHistory (record m d1)) <? 5)%nat eqn:?;
            [ | let avg := fresh "avg" in
                let sd := fresh "sd" in
                let dyn := fresh "dyn" in
                let E := fresh "E" in
                destruct (adaptThreshold_shape (record m d1))
                  as (avg & sd & dyn & E);
                rewrite E; unfold detect;
                destruct (_ && _ && _) eqn:? ]
        end
      | ]
  end.

Lemma update_counts (d : StepDetector) (s : Sample) :
  stepCount (fst (step d s))
  = if snd (step d s) then S (stepCount d) else stepCount d.
Proof.
  split_update; subst; cbn; unfold record, applyFilter;
    destruct (useFilter d); reflexivity.
Qed.

Lemma countSteps_cons (b : bool) (l : list bool) :
  countSteps (b :: l) = ((if b then 1 else 0) + countSteps l)%nat.
Proof. unfold countSteps. destruct b; reflexivity. Qed.

Lemma countSteps_length (l : list bool) : (countSteps l <= length l)%nat.
Proof. unfold countSteps. apply count_occ_bound. Qed.

(** X1.  The step count grows by one exactly on the calls that return
    [true]: after a run it is the count before the run plus the number of
    [true] answers, so it never decreases and never grows by more than the
    number of samples. *)
Theorem stepCount_accounting (l : list Sample) (d : StepDetector) :
  stepCount (run d l) = (stepCount d + countSteps (outputs d l))%nat
  /\ (stepCount d <= stepCount (run d l) <= stepCount d + length l)%nat.
Proof.
  assert (E : forall l d,
             stepCount (run d l) = (stepCount d + countSteps (outputs d l))%nat).
  { clear. induction l as [| s l IH]; intros d.
    - cbn. unfold countSteps. cbn. lia.
    - cbn [run outputs]. rewrite IH, update_counts, countSteps_cons.
      destruct (snd (step d s)); lia. }
  split; [apply E |].
  rewrite E. pose proof (countSteps_length (outputs d l)) as H.
  assert (L : length (outputs d l) = length l).
  { clear. revert d. induction l as [| s l IH]; intros d; cbn; [| rewrite IH];
      reflexivity. }
  lia.
Qed.

Lemma push_bounded_le {A : Type} (size : nat) (arr : list A) (v : A) :
  (length arr <= size)%nat -> (length (push_bounded size arr v) <= size)%nat.
Proof.
  intros H. unfold push_bounded.
  assert (L : length (arr ++ [v]) = S (length arr))
    by (rewrite length_app; cbn [length]; lia).
  destruct (size <? length (arr ++ [v]))%nat eqn:E.
  - destruct (arr ++ [v]); cbn [tl length] in *; lia.
  - apply Nat.ltb_ge in E. exact E.
Qed.

(** What an enabled call does to the two windows and which settings it
    leaves alone. *)
Lemma update_windows (d : StepDetector) (s : Sample) :
  enabled d = true ->
  let raw := magnitudeOf (acceleration s) in
  let d' := fst (step d s) in
  magnitudeHistory d'
  = push_bounded (historySize d) (magnitudeHistory d)
      (currentMagnitude raw (applyFilter raw d))
  /\ rawMagnitudeHistory d'
     = (if useFilter d then push_bounded 5 (rawMagnitudeHistory d) raw
        else rawMagnitudeHistory d)
  /\ historySize d' = historySize d
  /\ enabled d' = true
  /\ useFilter d' = useFilter d
  /\ filterAlpha d' = filterAlpha d.
Proof.
  intros He raw d'. subst d' raw.
  split_update; try congruence; subst; cbn; unfold record, applyFilter;
    destruct (useFilter d) eqn:Ef; cbn; rewrite ?Ef; repeat split;
    try reflexivity; try assumption.
Qed.

Lemma update_disabled (d : StepDetector) (s : Sample) :
  enabled d = false -> step d s = (d, false).
Proof. intros H. unfold step, update. rewrite H. reflexivity. Qed.

Lemma reachable_windows (d : StepDetector) :
  Reachable d ->
  historySize d = 10%nat
  /\ (length (magnitudeHistory d) <= 10)%nat
  /\ (length (rawMagnitudeHistory d) <= 5)%nat.
Proof.
  induction 1 as [| d a dt t H (IHs & IHm & IHr) | d H (IHs & IHm & IHr)
                  | v d H IH | v a d H IH | level d H IH];
    try exact IH.
  - cbn. repeat split; lia.
  - change (update d a dt t) with (step d (mkSample a dt t)).
    destruct (enabled d) eqn:He.
    + destruct (update_windows d (mkSample a dt t) He)
        as (Em & Er & Es & _).
      rewrite Em, Er, Es, IHs. split; [reflexivity |]. split.
      * apply push_bounded_le. lia.
      * destruct (useFilter d); [apply push_bounded_le |]; lia.
    + rewrite update_disabled by exact He. cbn [fst]. repeat split; assumption.
  - cbn. repeat split; lia.
Qed.

(** X2.  In every state the public methods can produce, the sliding window
    holds at most [historySize] = 10 magnitudes and the raw window at most
    5; the minimum interval is still 500 ms and the prominence filter is
    still off. *)
Theorem windows_bounded (d : StepDetector) :
  Reachable d ->
  historySize d = 10%nat
  /\ (length (magnitudeHistory d) <= 10)%nat
  /\ (length (rawMagnitudeHistory d) <= 5)%nat
  /\ minPeakInterval d = 500%Z
  /\ falsePositiveFilter d = false.
Proof.
  intros H.
  destruct (reachable_windows d H) as (Hs & Hm & Hr).
  destruct (reachable_filter_off d H) as (Hf & Hi).
  repeat split; assumption.
Qed.

Lemma windows_bounded_witness :
  (length (magnitudeHistory (run new two_steps)) <= 10)%nat.
Proof.
  apply (windows_bounded (run new two_steps)).
  unfold two_steps, rise. cbn [app run]. unfold step.
  repeat apply reach_update. apply reach_new.
Defined.

Lemma push_bounded_lastn {A : Type} (size : nat) (arr : list A) (v : A) :
  (length arr <= size)%nat ->
  push_bounded size arr v = lastn size (arr ++ [v]).
Proof.
  intros H. unfold push_bounded, lastn.
  assert (L : length (arr ++ [v]) = S (length arr))
    by (rewrite length_app; cbn [length]; lia).
  rewrite L.
  destruct (size <? S (length arr))%nat eqn:E.
  - apply Nat.ltb_lt in E.
    replace (S (length arr) - size)%nat with 1%nat by lia.
    destruct (arr ++ [v]); reflexivity.
  - apply Nat.ltb_ge in E.
    replace (S (length arr) - size)%nat with 0%nat by lia. reflexivity.
Qed.

Lemma lastn_length {A : Type} (n : nat) (l : list A) :
  (length (lastn n l) <= n)%nat.
Proof. unfold lastn. rewrite length_skipn. lia. Qed.

Lemma lastn_all {A : Type} (n : nat) (l : list A) :
  (length l <= n)%nat -> lastn n l = l.
Proof.
  intros H. unfold lastn. replace (length l - n)%nat with 0%nat by lia.
  reflexivity.
Qed.

Lemma lastn_drop {A : Type} (n : nat) (p r : list A) :
  (n <= length r)%nat -> lastn n (p ++ r) = lastn n r.
Proof.
  intros H. unfold lastn. rewrite length_app, skipn_app.
  rewrite (skipn_all2 p) by lia. cbn [app]. f_equal. lia.
Qed.

Lemma lastn_app {A : Type} (n : nat) (l1 l2 : list A) :
  lastn n (lastn n l1 ++ l2) = lastn n (l1 ++ l2).
Proof.
  destruct (Nat.le_gt_cases (length l1) n) as [Hle | Hgt].
  - rewrite (lastn_all n l1) by exact Hle. reflexivity.
  - change (lastn n l1) with (skipn (length l1 - n) l1).
    rewrite <- (firstn_skipn (length l1 - n) l1) at 3.
    rewrite <- app_assoc.
    rewrite (lastn_drop n (firstn (length l1 - n) l1)); [reflexivity |].
    rewrite length_app, length_skipn. lia.
Qed.

Lemma sliding_window_filter_off (l : list Sample) (d : StepDetector) :
  enabled d = true ->
  useFilter d = false ->
  (length (magnitudeHistory d) <= historySize d)%nat ->
  magnitudeHistory (run d l)
  = lastn (historySize d)
      (magnitudeHistory d
       ++ map (fun s => Num (magnitudeOf (acceleration s))) l).
Proof.
  revert d. induction l as [| s l IH]; intros d He Hf Hlen.
  - cbn [run map]. rewrite app_nil_r, lastn_all by exact Hlen. reflexivity.
  - destruct (update_windows d s He) as (Em & _ & Es & He' & Hf' & _).
    cbn [run map]. rewrite IH.
    + rewrite Em, Es. unfold applyFilter, currentMagnitude.
      rewrite Hf, Hf. rewrite push_bounded_lastn by exact Hlen.
      rewrite lastn_app, <- app_assoc. reflexivity.
    + exact He'.
    + rewrite Hf'. exact Hf.
    + rewrite Em, Es. apply push_bounded_le. exact Hlen.
Qed.

(** X3.  With the filter off the window is a sliding window over the raw
    magnitudes: after a run it holds the last [historySize] magnitudes of
    what it held before followed by the magnitudes of the run, oldest
    first. *)
Theorem window_slides (l : list Sample) (d : StepDetector) :
  enabled d = true ->
  useFilter d = false ->
  (length (magnitudeHistory d) <= historySize d)%nat ->
  magnitudeHistory (run d l)
  = lastn (historySize d)
      (magnitudeHistory d
       ++ map (fun s => Num (magnitudeOf (acceleration s))) l)
  /\ (length (magnitudeHistory (run d l)) <= historySize d)%nat.
Proof.
  intros He Hf Hlen.
  rewrite (sliding_window_filter_off l d He Hf Hlen).
  split; [reflexivity | apply lastn_length].
Qed.

(** With the filter on, the raw window holds the last five raw magnitudes
    in the same way. *)
Lemma raw_sliding_window (l : list Sample) (d : StepDetector) :
  enabled d = true ->
  useFilter d = true ->
  (length (rawMagnitudeHistory d) <= 5)%nat ->
  rawMagnitudeHistory (run d l)
  = lastn 5
      (rawMagnitudeHistory d ++ map (fun s => magnitudeOf (acceleration s)) l).
Proof.
  revert d. induction l as [| s l IH]; intros d He Hf Hlen.
  - cbn [run map]. rewrite app_nil_r, lastn_all by exact Hlen. reflexivity.
  - destruct (update_windows d s He) as (_ & Er & _ & He' & Hf' & _).
    cbn [run map]. rewrite IH.
    + rewrite Er, Hf. rewrite push_bounded_lastn by exact Hlen.
      rewrite lastn_app, <- app_assoc. reflexivity.
    + exact He'.
    + rewrite Hf'. exact Hf.
    + rewrite Er, Hf. apply push_bounded_le. exact Hlen.
Qed.

Lemma window_slides_witness :
  magnitudeHistory (run (setFilter false (Num 0.5) new) still)
  = lastn 10 ([] ++ map (fun s => Num (magnitudeOf (acceleration s))) still).
Proof.
  apply (window_slides still (setFilter false (Num 0.5) new)).
  - reflexivity.
  - reflexivity.
  - cbn. lia.
Defined.

(** An accepted step stores a negative slope and stamps the clock; a call
    that returns [false] leaves [lastPeakTime] alone.  No call changes
    [minPeakInterval]. *)
Lemma update_stamp (d : StepDetector) (s : Sample) :
  let d' := fst (step d s) in
  minPeakInterval d' = minPeakInterval d
  /\ (snd (step d s) = true ->
      js_lt (lastDelta d') (Num 0) = true
      /\ lastPeakTime d' = currentTime s
      /\ (minPeakInterval d < currentTime s - lastPeakTime d)%Z)
  /\ (snd (step d s) = false -> lastPeakTime d' = lastPeakTime d).
Proof.
  split_update; cbn [fst snd].
  - unfold record, applyFilter. destruct (useFilter d);
      (split; [reflexivity | split; [discriminate | reflexivity]]).
  - split; [| split; [intros _ | discriminate]].
    + unfold record, applyFilter. destruct (useFilter d); reflexivity.
    + match goal with H : (_ && _ && _) = true |- _ =>
        apply andb_prop in H; destruct H as [H _];
        apply andb_prop in H; destruct H as [Hp Ht] end.
      split; [| split].
      * unfold isPeak in Hp.
        apply andb_prop in Hp; destruct Hp as [Hp _].
        apply andb_prop in Hp; destruct Hp as [_ Hp].
        cbn in Hp |- *. exact Hp.
      * reflexivity.
      * apply Z.ltb_lt in Ht. cbn in Ht.
        unfold record, applyFilter in Ht |- *.
        destruct (useFilter d); exact Ht.
  - split; [| split; [discriminate | intros _]];
      unfold record, applyFilter; destruct (useFilter d); reflexivity.
  - split; [reflexivity | split; [discriminate | reflexivity]].
Qed.

(** A call made while the stored slope is not positive returns [false]. *)
Lemma update_needs_rise (d : StepDetector) (s : Sample) :
  js_gt (lastDelta d) (Num 0) = false -> snd (step d s) = false.
Proof.
  intros H.
  destruct (snd (step d s)) eqn:E; [exfalso | reflexivity].
  revert E. split_update; cbn [snd]; try discriminate.
  match goal with H : (_ && _ && _) = true |- _ =>
    apply andb_prop in H; destruct H as [H _];
    apply andb_prop in H; destruct H as [Hp _] end.
  rewrite isPeak_not_rising in Hp; [discriminate |].
  cbn. unfold record, applyFilter. destruct (useFilter d); exact H.
Qed.

(** X4.  The adaptive detector never reports a step on two calls in a row:
    an accepted step stores the falling slope it was detected on, and the
    next call needs a positive stored slope. *)
Theorem adaptive_steps_not_adjacent (d : StepDetector) (s s' : Sample) :
  snd (step d s) = true ->
  snd (step (fst (step d s)) s') = false.
Proof.
  intros H. apply update_needs_rise.
  destruct (update_stamp d s) as (_ & Hacc & _).
  destruct (Hacc H) as (Hneg & _). apply js_lt_not_gt. exact Hneg.
Qed.

Lemma adaptive_steps_not_adjacent_witness :
  snd (step (fst (step risen (vertical 9.8 1700000000500)))
         (vertical 30 1700000009000)) = false.
Proof.
  apply (adaptive_steps_not_adjacent risen (vertical 9.8 1700000000500)).
  exact risen_accepts.
Defined.

Lemma outputs_length (l : list Sample) (d : StepDetector) :
  length (outputs d l) = length l.
Proof.
  revert d. induction l as [| s l IH]; intros d; cbn; [| rewrite IH];
    reflexivity.
Qed.

(** The first accepted step of a run comes more than [minPeakInterval]
    after the last step accepted before the run. *)
Lemma first_accept_interval (l : list Sample) (d : StepDetector) (j : nat) :
  nth j (outputs d l) false = true ->
  (forall k, (k < j)%nat -> nth k (outputs d l) false = false) ->
  (minPeakInterval d < nth j (times l) 0 - lastPeakTime d)%Z.
Proof.
  revert d j. induction l as [| s l IH]; intros d j Hj Hk.
  - destruct j; discriminate.
  - destruct (update_stamp d s) as (M & Hacc & Hrej).
    destruct j as [| j].
    + cbn in Hj. destruct (Hacc Hj) as (_ & _ & Ht). exact Ht.
    + assert (E : snd (step d s) = false) by (apply (Hk 0%nat); lia).
      cbn [outputs nth times map] in *.
      rewrite <- M, <- (Hrej E). apply IH; [exact Hj |].
      intros k Hlt. apply (Hk (S k)). lia.
Qed.

(** X5.  Two steps accepted one after the other, with no accepted step
    between them, are read more than [minPeakInterval] apart on the clock
    of [update]. *)
Theorem step_spacing (l : list Sample) (d : StepDetector) (i j : nat) :
  (i < j)%nat ->
  nth i (outputs d l) false = true ->
  nth j (outputs d l) false = true ->
  (forall k, (i < k < j)%nat -> nth k (outputs d l) false = false) ->
  (minPeakInterval d < nth j (times l) 0 - nth i (times l) 0)%Z.
Proof.
  revert d i j. induction l as [| s l IH]; intros d i j Hij Hi Hj Hk.
  - destruct i; discriminate.
  - destruct (update_stamp d s) as (M & Hacc & _).
    destruct j as [| j]; [lia |].
    destruct i as [| i].
    + cbn in Hi. destruct (Hacc Hi) as (_ & Hstamp & _).
      cbn [outputs nth times map] in *.
      rewrite <- M, <- Hstamp. apply first_accept_interval; [exact Hj |].
      intros k Hlt. apply (Hk (S k)). lia.
    + cbn [outputs nth times map] in *.
      rewrite <- M. apply IH; [lia | exact Hi | exact Hj |].
      intros k Hlt. apply (Hk (S k)). lia.
Qed.

Lemma outputs_two_steps :
  outputs new two_steps
  = [false; false; false; false; false; true; false; true].
Proof.
  unfold two_steps, rise, vertical, new. cbn [app outputs].
  repeat eval_step. reflexivity.
Qed.

Lemma step_spacing_witness :
  (minPeakInterval new
   < nth 7 (times two_steps) 0 - nth 5 (times two_steps) 0)%Z.
Proof.
  apply (step_spacing two_steps new 5 7).
  - lia.
  - rewrite outputs_two_steps. reflexivity.
  - rewrite outputs_two_steps. reflexivity.
  - intros k Hk. assert (k = 6%nat) as -> by lia.
    rewrite outputs_two_steps. reflexivity.
Defined.

(** ** The filter, the enable switch and the lazy threshold *)

(** The coefficient of a reachable state is a number of [0.1, 1.0], or
    NaN once [setFilter] was handed NaN. *)
Lemma reachable_alpha (d : StepDetector) :
  Reachable d -> inRange 0.1 1.0 (filterAlpha d) \/ filterAlpha d = NaN.
Proof.
  induction 1 as [| d a dt t H IH | d H IH | v d H IH | v a d H IH
                  | level d H IH];
    try exact IH.
  - left. cbn. lra.
  - change (update d a dt t) with (step d (mkSample a dt t)).
    destruct (enabled d) eqn:He.
    + destruct (update_windows d (mkSample a dt t) He)
        as (_ & _ & _ & _ & _ & Ea).
      rewrite Ea. exact IH.
    + rewrite update_disabled by exact He. exact IH.
  - destruct a as [a |]; [left | right; reflexivity].
    destruct (setFilter_range v a d) as [r [-> Hr]]. exact Hr.
Qed.

Lemma update_filtered (d : StepDetector) (s : Sample) :
  filteredMagnitude (fst (step d s))
  = (if enabled d && useFilter d
     then js_add
            (js_mul (filterAlpha d) (Num (magnitudeOf (acceleration s))))
            (js_mul (js_sub (Num 1) (filterAlpha d)) (filteredMagnitude d))
     else filteredMagnitude d)
  /\ filterAlpha (fst (step d s)) = filterAlpha d
  /\ useFilter (fst (step d s)) = useFilter d.
Proof.
  split_update; cbn; unfold record, applyFilter;
    destruct (useFilter d) eqn:Eu; cbn; rewrite ?Eu; repeat split;
    reflexivity.
Qed.

Lemma convex_between (alpha raw f lo hi : R) :
  0 <= alpha <= 1 -> lo <= raw <= hi -> lo <= f <= hi ->
  lo <= alpha * raw + (1 - alpha) * f <= hi.
Proof.
  intros Ha Hr Hf.
  assert (H1 : 0 <= alpha * (raw - lo)) by (apply Rmult_le_pos; lra).
  assert (H2 : 0 <= (1 - alpha) * (f - lo)) by (apply Rmult_le_pos; lra).
  assert (H3 : 0 <= alpha * (hi - raw)) by (apply Rmult_le_pos; lra).
  assert (H4 : 0 <= (1 - alpha) * (hi - f)) by (apply Rmult_le_pos; lra).
  lra.
Qed.

(** With the filter on and a coefficient that is NaN, the filtered
    magnitude becomes NaN and the call returns [false]: the detector is
    silent until [setFilter] and [reset()] repair it. *)
Lemma NaN_alpha_silent (l : list Sample) (d : StepDetector) :
  useFilter d = true -> filterAlpha d = NaN ->
  outputs d l = repeat false (length l).
Proof.
  revert d. induction l as [| s l IH]; intros d Hu Ha; [reflexivity |].
  destruct (update_filtered d s) as (_ & Ea & Eu).
  cbn [outputs length repeat]. f_equal.
  - destruct (snd (step d s)) eqn:E; [exfalso | reflexivity].
    revert E. split_update; cbn [snd]; try discriminate.
    match goal with H : (_ && _ && _) = true |- _ =>
      apply andb_prop in H; destruct H as [H _];
      apply andb_prop in H; destruct H as [Hp _] end.
    unfold isPeak, currentMagnitude, applyFilter in Hp.
    rewrite Hu, Ha in Hp.
    cbn [useFilter filteredMagnitude set_rawMagnitudeHistory
         set_filteredMagnitude js_mul js_add lift2] in Hp.
    rewrite Hu in Hp. rewrite js_gt_NaN in Hp. discriminate Hp.
  - apply IH; [rewrite Eu; exact Hu | rewrite Ea; exact Ha].
Qed.

(** X6.  The low-pass filter never overshoots: in a reachable state whose
    coefficient is a number, if the filtered magnitude is a number between
    [lo] and [hi] and every raw magnitude of a run lies between [lo] and
    [hi], the filtered magnitude after the run is a number between [lo] and
    [hi]. *)
Theorem filter_stays_between (l : list Sample) (d : StepDetector)
    (lo hi : R) :
  Reachable d ->
  filterAlpha d <> NaN ->
  inRange lo hi (filteredMagnitude d) ->
  Forall (fun s => lo <= magnitudeOf (acceleration s) <= hi) l ->
  inRange lo hi (filteredMagnitude (run d l)).
Proof.
  intros Hr Hn.
  assert (Ha : inRange 0.1 1.0 (filterAlpha d))
    by (destruct (reachable_alpha d Hr); [assumption | contradiction]).
  clear Hr Hn.
  revert d Ha. induction l as [| s l IH]; intros d Ha Hf Hl; [exact Hf |].
  inversion Hl as [| s' l' Hs Hl']; subst.
  destruct (update_filtered d s) as (Ef & Ea & _).
  cbn [run]. apply IH.
  - rewrite Ea. exact Ha.
  - rewrite Ef. destruct (enabled d && useFilter d); [| exact Hf].
    destruct (filterAlpha d) as [a |]; [| destruct Ha].
    destruct (filteredMagnitude d) as [f |]; [| destruct Hf].
    cbn in Ha, Hf |- *.
    apply convex_between; [lra | exact Hs | exact Hf].
  - exact Hl'.
Qed.

Lemma filter_stays_between_witness :
  inRange 9 12 (filteredMagnitude (run new [vertical 9 0; vertical 12 0])).
Proof.
  apply (filter_stays_between [vertical 9 0; vertical 12 0] new 9 12).
  - apply reach_new.
  - discriminate.
  - cbn. lra.
  - unfold vertical.
    repeat (constructor;
            [cbn [acceleration]; rewrite magnitudeOf_z by lra; lra |]).
    constructor.
Defined.

Lemma trackerStep_fixed (t : IndoorPositionTracker) (s : Sample) :
  stepLength (fst (trackerStep t s)) = stepLength t
  /\ yaw (fst (trackerStep t s)) = yaw t
  /\ y (position (fst (trackerStep t s))) = y (position t).
Proof.
  unfold trackerStep, trackerUpdate.
  destruct (update _ _ _ _) as [sd [|]]; repeat split; reflexivity.
Qed.

(** X7.  [setEnabled(false)] freezes the detector and the tracker: whatever
    samples arrive, every call returns [false] and the tracker, position,
    step count and detector state included, stays exactly as it was. *)
Theorem disabled_tracker_frozen (l : list Sample) (t : IndoorPositionTracker) :
  enabled (stepDetector t) = false ->
  trackerRun t l = t
  /\ flags (trackerOutputs t l) = repeat false (length l).
Proof.
  intros H.
  assert (E : forall s, trackerStep t s = (t, false)).
  { intros s. unfold trackerStep, trackerUpdate.
    change (update (stepDetector t) (acceleration s) (deltaTime s)
              (currentTime s)) with (step (stepDetector t) s).
    rewrite update_disabled by exact H. destruct t; reflexivity. }
  induction l as [| s l [IH1 IH2]]; [split; reflexivity |].
  cbn [trackerRun trackerOutputs flags map length repeat].
  rewrite E. cbn [fst snd]. split; [exact IH1 |].
  f_equal. exact IH2.
Qed.

Lemma disabled_tracker_frozen_witness :
  let t := mkTracker (mkVec3 0 1.6 0) 0.65 (setEnabled false risen) 0 in
  trackerRun t [vertical 9.8 1700000000500] = t.
Proof.
  intros t.
  apply (disabled_tracker_frozen [vertical 9.8 1700000000500] t).
  reflexivity.
Defined.

(** Unless the call is the one that recomputes the threshold, [update]
    does not read [baseThreshold]. *)
Lemma update_ignores_base (b : JSNumber) (d : StepDetector) (s : Sample) :
  (S (totalSamples d) mod 10 <> 0)%nat ->
  step (set_baseThreshold b d) s
  = (set_baseThreshold b (fst (step d s)), snd (step d s))
  /\ dynamicThreshold (fst (step d s)) = dynamicThreshold d
  /\ (totalSamples (fst (step d s)) <= S (totalSamples d))%nat.
Proof.
  intros H. apply Nat.eqb_neq in H.
  destruct d as [h hs uf fa fm rh bt dt_ avg sd lpt mpi lm ld sc en ts fp].
  cbn [totalSamples] in H.
  unfold step, update, applyFilter, currentMagnitude, record, adaptThreshold,
    detect, isPeak, isValidStep.
  cbv beta iota zeta delta
    [magnitudeHistory historySize useFilter filterAlpha filteredMagnitude
     rawMagnitudeHistory baseThreshold dynamicThreshold avgMagnitude
     magnitudeStdDev lastPeakTime minPeakInterval lastMagnitude lastDelta
     stepCount enabled totalSamples falsePositiveFilter
     set_magnitudeHistory set_useFilter set_filterAlpha set_filteredMagnitude
     set_rawMagnitudeHistory set_baseThreshold set_dynamicThreshold
     set_avgMagnitude set_magnitudeStdDev set_lastPeakTime set_lastMagnitude
     set_lastDelta set_stepCount set_enabled set_totalSamples negb].
  destruct en; [| split; [reflexivity | split; [reflexivity | cbn; lia]]].
  destruct uf; cbv beta iota; rewrite ?H;
    repeat match goal with
           | |- context [if ?c then _ else _] => destruct c
           end;
    cbn [fst snd]; (split; [reflexivity | split; [reflexivity | lia]]).
Qed.

(** X8.  A change of sensitivity is lazy.  While fewer than ten samples
    have been counted since construction or [reset()], a run answers
    exactly as it would without the [setSensitivity] call, and the dynamic
    threshold stays where it was. *)
Theorem sensitivity_is_lazy (level : string) (l : list Sample)
    (d : StepDetector) :
  (totalSamples d + length l < 10)%nat ->
  outputs (setSensitivity level d) l = outputs d l
  /\ dynamicThreshold (run (setSensitivity level d) l) = dynamicThreshold d.
Proof.
  unfold setSensitivity.
  generalize (js_div 11 (js_or (js_get multipliers level) (JSNum 1.5))).
  intros b. revert d. induction l as [| s l IH]; intros d H.
  - split; reflexivity.
  - cbn [length] in H.
    destruct (update_ignores_base b d s) as (E & Edyn & Etot).
    { intros Hmod. apply Nat.Div0.mod_divides in Hmod.
      destruct Hmod as [c Hc]. lia. }
    cbn [outputs run]. rewrite E. cbn [fst snd].
    destruct (IH (fst (step d s))) as [IHo IHd]; [lia |].
    rewrite IHo, IHd, Edyn. split; reflexivity.
Qed.

Lemma sensitivity_is_lazy_witness :
  outputs (setSensitivity "high" new) two_steps = outputs new two_steps.
Proof.
  apply (sensitivity_is_lazy "high" two_steps new).
  cbn. lia.
Defined.

Lemma trackerOutputs_idle (l : list Sample) (t : IndoorPositionTracker) :
  outputs (stepDetector t) l = repeat false (length l) ->
  trackerOutputs t l = repeat (false, getStepCount t, position t) (length l).
Proof.
  revert t. induction l as [| s l IH]; intros t H; [reflexivity |].
  cbn [outputs length repeat] in H. injection H as Hs Hl.
  assert (E : trackerStep t s
              = (mkTracker (position t) (stepLength t)
                   (fst (step (stepDetector t) s)) (yaw t), false)).
  { unfold trackerStep, trackerUpdate, step in *.
    destruct (update (stepDetector t) (acceleration s) (deltaTime s)
                (currentTime s)) as [sd b].
    cbn [snd] in Hs. subst b. reflexivity. }
  cbn [trackerOutputs length repeat]. rewrite E. cbn [fst snd].
  rewrite IH by exact Hl.
  unfold getStepCount, getPosition. cbn [stepDetector position].
  rewrite update_counts, Hs. reflexivity.
Qed.

(** X9.  [reset()] puts the tracker back at the origin with a step count of
    0, and the detector warms up again: the next four calls to [update]
    return [false] and leave position and count there. *)
Theorem reset_then_warmup (l : list Sample) (t : IndoorPositionTracker) :
  (length l <= 4)%nat ->
  getPosition (trackerReset t) = mkVec3 0 1.6 0
  /\ getStepCount (trackerReset t) = 0%nat
  /\ trackerOutputs (trackerReset t) l
     = repeat (false, 0%nat, mkVec3 0 1.6 0) (length l).
Proof.
  intros H. split; [reflexivity | split; [reflexivity |]].
  rewrite trackerOutputs_idle; [reflexivity |].
  apply (warmup_run l _ 0); cbn; lia.
Qed.

Lemma reset_then_warmup_witness :
  trackerOutputs
    (trackerReset (mkTracker (mkVec3 3 1.6 (-2)) 0.65 risen 1))
    [vertical 9.8 1700000000500; vertical 30 1700000000600]
  = repeat (false, 0%nat, mkVec3 0 1.6 0) 2.
Proof.
  apply (reset_then_warmup
           [vertical 9.8 1700000000500; vertical 30 1700000000600]
           (mkTracker (mkVec3 3 1.6 (-2)) 0.65 risen 1)).
  cbn. lia.
Defined.

(** ** When [reset()] is as good as a new detector *)

(** A stored slope of at most 0.25, or NaN, cannot start a peak. *)
Lemma isPeak_flat (m delta : JSNumber) (d : StepDetector) :
  flat d -> isPeak m delta d = false.
Proof.
  unfold flat. intros H. unfold isPeak.
  destruct (lastDelta d) as [r |]; cbn in H |- *;
    [| rewrite andb_false_r; reflexivity].
  apply Rltb_ge in H.
  destruct (Rle_dec r 0) as [Hle | Hgt].
  - rewrite (Rltb_false 0 r) by exact Hle.
    rewrite andb_false_r. reflexivity.
  - rewrite (Rltb_false 0.25 (Rabs r)).
    + apply andb_false_r.
    + rewrite Rabs_right by lra. exact H.
Qed.

Lemma detect_alike (m : JSNumber) (t : Z) (d1 d2 : StepDetector) :
  core d1 = core d2 ->
  falsePositiveFilter d1 = false ->
  lastMagnitude d1 = lastMagnitude d2 ->
  (lastDelta d1 = lastDelta d2 \/ (flat d1 /\ flat d2)) ->
  snd (detect m t d1) = snd (detect m t d2)
  /\ alike (fst (detect m t d1)) (fst (detect m t d2)).
Proof.
  intros Hc Hfp Hm Hd. unfold flat in Hd.
  destruct d1 as [h hs uf fa fm rh bt dt_ avg sd1 lpt mpi lm1 ld1 sc en ts fp].
  destruct d2 as [h2 hs2 uf2 fa2 fm2 rh2 bt2 dt2 avg2 sd2 lpt2 mpi2 lm2 ld2
                    sc2 en2 ts2 fp2].
  compute_fields_in Hc. compute_fields_in Hfp. compute_fields_in Hm.
  compute_fields_in Hd.
  injection Hc as -> -> -> -> -> -> -> -> -> -> -> -> -> -> ->.
  subst fp2 lm2.
  unfold detect, isValidStep. compute_fields.
  assert (Ep : isPeak m (js_sub m lm1)
                 (mkStepDetector h2 hs2 uf2 fa2 fm2 rh2 bt2 dt2 avg2 sd1 lpt2
                    mpi2 lm1 ld1 sc2 en2 ts2 false)
               = isPeak m (js_sub m lm1)
                   (mkStepDetector h2 hs2 uf2 fa2 fm2 rh2 bt2 dt2 avg2 sd2
                      lpt2 mpi2 lm1 ld2 sc2 en2 ts2 false)).
  { destruct Hd as [-> | [H1 H2]]; [reflexivity |].
    rewrite !isPeak_flat by (unfold flat; cbn [lastDelta]; assumption).
    reflexivity. }
  rewrite Ep.
  destruct (isPeak _ _ _ && _ && true); cbn [fst snd];
    (split; [reflexivity |]); unfold alike; compute_fields;
    (split; [reflexivity | split; [reflexivity | split; right + left; reflexivity]]).
Qed.

Lemma step_alike (d1 d2 : StepDetector) (s : Sample) :
  alike d1 d2 ->
  snd (step d1 s) = snd (step d2 s)
  /\ alike (fst (step d1 s)) (fst (step d2 s)).
Proof.
  intros (Hc & Hfp & Hm & Hd). unfold flat in Hd.
  pose proof (push_bounded_length (historySize d1) (magnitudeHistory d1))
    as Hpush.
  destruct d1 as [h hs uf fa fm rh bt dt_ avg sd1 lpt mpi lm1 ld1 sc en ts fp].
  destruct d2 as [h2 hs2 uf2 fa2 fm2 rh2 bt2 dt2 avg2 sd2 lpt2 mpi2 lm2 ld2
                    sc2 en2 ts2 fp2].
  compute_fields_in Hc. compute_fields_in Hfp. compute_fields_in Hm.
  compute_fields_in Hd. compute_fields_in Hpush.
  injection Hc as -> -> -> -> -> -> -> -> -> -> -> -> -> -> ->.
  subst fp2.
  unfold step, update, applyFilter, currentMagnitude, record, adaptThreshold.
  compute_fields.
  destruct en2; cbn [fst snd].
  2: { split; [reflexivity |]. unfold alike, flat. compute_fields.
       split; [reflexivity | split; [reflexivity | split; assumption]]. }
  set (raw := magnitudeOf (acceleration s)).
  destruct uf2; cbv beta iota.
  - set (m := js_add _ _).
    destruct (length (push_bounded hs2 h2 m) <? 5)%nat eqn:Elen.
    + cbn [fst snd]. split; [reflexivity |]. unfold alike, flat.
      compute_fields.
      split; [reflexivity | split; [reflexivity | split; [right; reflexivity |]]].
      exact Hd.
    + assert (El : lm1 = lm2).
      { destruct Hm as [-> | Hm]; [| exact Hm].
        apply Nat.ltb_ge in Elen. specialize (Hpush m). cbn in Hpush. lia. }
      subst lm2.
      destruct (S ts2 mod 10 =? 0)%nat;
        apply detect_alike; unfold flat; compute_fields; try reflexivity;
        exact Hd.
  - destruct (length (push_bounded hs2 h2 (Num raw)) <? 5)%nat eqn:Elen.
    + cbn [fst snd]. split; [reflexivity |]. unfold alike, flat.
      compute_fields.
      split; [reflexivity | split; [reflexivity | split; [right; reflexivity |]]].
      exact Hd.
    + assert (El : lm1 = lm2).
      { destruct Hm as [-> | Hm]; [| exact Hm].
        apply Nat.ltb_ge in Elen. specialize (Hpush (Num raw)).
        cbn in Hpush. lia. }
      subst lm2.
      destruct (S ts2 mod 10 =? 0)%nat;
        apply detect_alike; unfold flat; compute_fields; try reflexivity;
        exact Hd.
Qed.

Lemma outputs_alike (l : list Sample) (d1 d2 : StepDetector) :
  alike d1 d2 -> outputs d1 l = outputs d2 l.
Proof.
  revert d1 d2. induction l as [| s l IH]; intros d1 d2 H; [reflexivity |].
  destruct (step_alike d1 d2 s H) as [Eo Ea].
  cbn [outputs]. rewrite Eo. f_equal. apply IH. exact Ea.
Qed.

(** Without [setSensitivity], no method touches the prominence switch. *)
Lemma steady_reachable (d : StepDetector) : Steady d -> Reachable d.
Proof.
  induction 1; [apply reach_new | apply reach_update | apply reach_reset
                | apply reach_setEnabled | apply reach_setFilter]; assumption.
Qed.

(** X10.  When no sensitivity was set and the slope stored by the last run
    is at most 0.25, [reset()] is as good as a new detector: replaying any
    run after [reset()] gives the answers a newly constructed detector with
    the same filter and enable settings gives. *)
Theorem reset_replay_faithful (l : list Sample) (d : StepDetector) :
  Steady d ->
  flat d ->
  outputs (reset d) l = outputs (freshLike d) l.
Proof.
  intros Hs Hd. apply outputs_alike. unfold flat in Hd.
  destruct (steady_floor d Hs) as [Hb _].
  pose proof (reachable_alpha d (steady_reachable d Hs)) as Ha.
  destruct (reachable_filter_off d (steady_reachable d Hs)) as [Hfp Hmpi].
  destruct (reachable_windows d (steady_reachable d Hs)) as (Hhs & _).
  unfold alike, flat, freshLike, reset, setEnabled, setFilter, new.
  destruct d as [h hs uf fa fm rh bt dt_ avg sd lpt mpi lm ld sc en ts fp].
  compute_fields_in Hb. compute_fields_in Ha. compute_fields_in Hfp.
  compute_fields_in Hmpi. compute_fields_in Hhs. compute_fields_in Hd.
  subst. compute_fields.
  assert (Eclamp : js_max (Num 0.1) (js_min (Num 1.0) fa) = fa).
  { destruct Ha as [Ha | ->]; [| reflexivity].
    destruct fa as [a |]; [| destruct Ha].
    cbn in Ha |- *. f_equal. unfold Rmax, Rmin.
    destruct (Rle_dec 1.0 a); destruct (Rle_dec 0.1 _); lra. }
  rewrite Eclamp.
  split; [reflexivity | split; [reflexivity | split; [left; reflexivity |]]].
  right. split; [exact Hd | cbn; apply Rltb_false; lra].
Qed.

Lemma reset_replay_faithful_witness :
  outputs (reset (run new two_steps)) surge
  = outputs (freshLike (run new two_steps)) surge.
Proof.
  apply (reset_replay_faithful surge (run new two_steps)).
  - unfold two_steps, rise. cbn [app run]. unfold step.
    repeat apply steady_update. apply steady_new.
  - unfold flat, two_steps, rise, vertical, new. cbn [app run].
    repeat eval_step. cbn [lastDelta js_gt js_lt]. apply Rltb_false. lra.
Defined.

(** ** The tracker: walking at a fixed heading *)

Lemma trackerStep_moves (t : IndoorPositionTracker) (s : Sample) :
  let t' := fst (trackerStep t s) in
  let k := if snd (trackerStep t s) then 1 else 0 in
  x (position t') = x (position t) + k * (sin (yaw t) * stepLength t)
  /\ z (position t') = z (position t) + k * (- cos (yaw t) * stepLength t)
  /\ getStepCount t' = (if snd (trackerStep t s)
                        then S (getStepCount t) else getStepCount t).
Proof.
  pose proof (update_counts (stepDetector t) s) as Hc.
  unfold trackerStep, trackerUpdate, getStepCount, step in *.
  destruct (update _ _ _ _) as [sd [|]]; cbn [fst snd] in *;
    cbn [position stepDetector x z]; repeat split; try lra; exact Hc.
Qed.

(** X11.  Between two orientation updates the tracker walks a straight
    line: after a run that added [n] steps, the position has moved by [n]
    times [(sin yaw, - cos yaw) * stepLength], the height is unchanged, and
    the distance from the start is [n] times the step length. *)
Theorem straight_walk (l : list Sample) (t : IndoorPositionTracker) :
  let t' := trackerRun t l in
  let n := INR (getStepCount t' - getStepCount t) in
  let dx := x (position t') - x (position t) in
  let dz := z (position t') - z (position t) in
  dx = n * (sin (yaw t) * stepLength t)
  /\ dz = n * (- cos (yaw t) * stepLength t)
  /\ y (position t') = y (position t)
  /\ dx * dx + dz * dz = (n * stepLength t) * (n * stepLength t)
  /\ (getStepCount t <= getStepCount t')%nat.
Proof.
  assert (G : forall l t,
             (getStepCount t <= getStepCount (trackerRun t l))%nat
             /\ yaw (trackerRun t l) = yaw t
             /\ stepLength (trackerRun t l) = stepLength t
             /\ y (position (trackerRun t l)) = y (position t)
             /\ x (position (trackerRun t l))
                = x (position t)
                  + INR (getStepCount (trackerRun t l) - getStepCount t)
                    * (sin (yaw t) * stepLength t)
             /\ z (position (trackerRun t l))
                = z (position t)
                  + INR (getStepCount (trackerRun t l) - getStepCount t)
                    * (- cos (yaw t) * stepLength t)).
  { clear. induction l as [| s l IH]; intros t.
    - cbn [trackerRun]. rewrite Nat.sub_diag. cbn [INR].
      repeat split; try reflexivity; try lra.
    - cbn [trackerRun].
      destruct (trackerStep_moves t s) as (Hx & Hz & Hc).
      destruct (trackerStep_fixed t s) as (HL & Hyaw & Hy).
      destruct (IH (fst (trackerStep t s)))
        as (IHc & IHyaw & IHL & IHy & IHx & IHz).
      set (t1 := fst (trackerStep t s)) in *.
      set (t2 := trackerRun t1 l) in *.
      rewrite Hyaw, HL in *.
      assert (Hle : (getStepCount t <= getStepCount t1)%nat)
        by (rewrite Hc; destruct (snd (trackerStep t s)); lia).
      assert (En : INR (getStepCount t2 - getStepCount t)
                   = INR (getStepCount t2 - getStepCount t1)
                     + (if snd (trackerStep t s) then 1 else 0)).
      { destruct (snd (trackerStep t s)).
        - replace (getStepCount t2 - getStepCount t)%nat
            with (S (getStepCount t2 - getStepCount t1))%nat by lia.
          rewrite S_INR. lra.
        - rewrite Hc. lra. }
      split; [lia |]. split; [exact IHyaw |]. split; [exact IHL |].
      split; [rewrite IHy; exact Hy |].
      rewrite IHx, IHz, Hx, Hz, En. split; lra. }
  intros t' n dx dz. subst t' n dx dz.
  destruct (G l t) as (Hc & _ & _ & Hy & Hx & Hz).
  set (n := INR _) in *.
  split; [rewrite Hx; lra |]. split; [rewrite Hz; lra |].
  split; [exact Hy |]. split; [| exact Hc].
  rewrite Hx, Hz.
  pose proof (sin2_cos2 (yaw t)) as Hsc. unfold Rsqr in Hsc.
  replace (x (position t) + n * (sin (yaw t) * stepLength t) - x (position t))
    with (n * stepLength t * sin (yaw t)) by lra.
  replace (z (position t) + n * (- cos (yaw t) * stepLength t)
           - z (position t))
    with (- (n * stepLength t * cos (yaw t))) by lra.
  replace (n * stepLength t * sin (yaw t) * (n * stepLength t * sin (yaw t))
           + - (n * stepLength t * cos (yaw t))
             * - (n * stepLength t * cos (yaw t)))
    with ((n * stepLength t) * (n * stepLength t)
          * (sin (yaw t) * sin (yaw t) + cos (yaw t) * cos (yaw t))) by ring.
  rewrite Hsc. ring.
Qed.

(** ** Heading and camera rotation *)

(** Once the reference is set, the heading follows the last non-null
    [alpha] and the reference stays. *)
Lemma yaw_after_calibration (events : list OrientationEvent) (p : Page)
    (r : R) :
  initialYaw (deviceOrientationControls p) = Some r ->
  let p' := onDeviceOrientations events p in
  initialYaw (deviceOrientationControls p') = Some r
  /\ yaw (tracker p')
     = match lastAlpha events with
       | Some a => r - degToRad a
       | None => yaw (tracker p)
       end.
Proof.
  revert p. induction events as [| e events IH]; intros p Hr.
  - split; [exact Hr | reflexivity].
  - unfold onDeviceOrientations in *. cbn [fold_left lastAlpha].
    set (p1 := onDeviceOrientation e p).
    assert (H1 : initialYaw (deviceOrientationControls p1) = Some r).
    { subst p1. cbn. rewrite Hr. reflexivity. }
    destruct (IH p1 H1) as [IHr IHy].
    split; [exact IHr |]. cbn zeta in IHy. rewrite IHy.
    destruct (lastAlpha events); [reflexivity |].
    subst p1. cbn [onDeviceOrientation tracker]. rewrite Hr.
    destruct (ev_alpha e); cbn [updateOrientation yaw]; [| reflexivity].
    unfold degToRad. lra.
Qed.

Lemma yaw_on_new_page (events : list OrientationEvent) :
  yaw (tracker (onDeviceOrientations events newPage))
  = match firstAlpha events, lastAlpha events with
    | Some theta0, Some a => degToRad theta0 - degToRad a
    | _, _ => 0
    end.
Proof.
  assert (G : forall events p,
             initialYaw (deviceOrientationControls p) = None ->
             yaw (tracker p) = 0 ->
             yaw (tracker (onDeviceOrientations events p))
             = match firstAlpha events, lastAlpha events with
               | Some theta0, Some a => degToRad theta0 - degToRad a
               | _, _ => 0
               end).
  { clear. induction events as [| e events IH]; intros p Hn Hy.
    - exact Hy.
    - unfold onDeviceOrientations in *. cbn [fold_left firstAlpha lastAlpha].
      set (p1 := onDeviceOrientation e p).
      assert (Hy1 : yaw (tracker p1) = 0).
      { subst p1. cbn [onDeviceOrientation tracker]. rewrite Hn.
        destruct (ev_alpha e); exact Hy. }
      destruct (ev_alpha e) as [a0 |] eqn:Ea.
      + assert (H1 : initialYaw (deviceOrientationControls p1)
                     = Some (degToRad a0)).
        { subst p1. cbn. rewrite Hn, Ea. reflexivity. }
        destruct (yaw_after_calibration events p1 (degToRad a0) H1)
          as [_ E].
        unfold onDeviceOrientations in E. cbn zeta in E. rewrite E.
        destruct (lastAlpha events); [reflexivity |].
        rewrite Hy1. lra.
      + assert (H1 : initialYaw (deviceOrientationControls p1) = None).
        { subst p1. cbn. rewrite Hn, Ea. reflexivity. }
        rewrite (IH p1 H1 Hy1).
        destruct (firstAlpha events); [| reflexivity].
        destruct (lastAlpha events); reflexivity. }
  apply G; reflexivity.
Qed.

(** Running [handleOrientation] again on the same event changes nothing, so
    every listener after the first is idle. *)
Lemma handleOrientation_idempotent (e : OrientationEvent)
    (c : DeviceOrientationController) :
  handleOrientation e (handleOrientation e c) = handleOrientation e c.
Proof.
  unfold handleOrientation. cbn [initialYaw].
  destruct (initialYaw c), (ev_alpha e); reflexivity.
Qed.

Lemma handleOrientation_listeners (n : nat) (e : OrientationEvent)
    (c : DeviceOrientationController) :
  Nat.iter (S n) (handleOrientation e) c = handleOrientation e c.
Proof.
  induction n as [| n IH]; [reflexivity |].
  change (Nat.iter (S (S n)) (handleOrientation e) c)
    with (handleOrientation e (Nat.iter (S n) (handleOrientation e) c)).
  rewrite IH. apply handleOrientation_idempotent.
Qed.

(** Once [connect()] has run, an event is what [onDeviceOrientation]
    says. *)
Lemma connected_run (events : list PageEvent) (s : Session) :
  (0 < listeners s)%nat ->
  page (pageRun events s) = onDeviceOrientations (orientations events) (page s).
Proof.
  revert s. induction events as [| e events IH]; intros s Hn; [reflexivity |].
  unfold pageRun, onDeviceOrientations in *. cbn [fold_left].
  destruct e as [e |]; cbn [pageStep orientations fold_left].
  - rewrite IH by exact Hn. f_equal.
    unfold dispatchOrientation, onDeviceOrientation. cbn [page].
    destruct (listeners s) as [| n]; [lia |].
    rewrite handleOrientation_listeners. reflexivity.
  - rewrite IH by (cbn; lia). reflexivity.
Qed.

(** Before [connect()] the reference heading is unset, and an event
    changes nothing. *)
Lemma unconnected_run (events : list PageEvent) :
  page (pageRun events loaded) = onDeviceOrientations (heard events) newPage.
Proof.
  change newPage with (page loaded).
  assert (G : forall s,
             listeners s = 0%nat ->
             initialYaw (deviceOrientationControls (page s)) = None ->
             page (pageRun events s)
             = onDeviceOrientations (heard events) (page s)).
  { induction events as [| e events IH]; intros s Hn Hy; [reflexivity |].
    destruct e as [e |]; cbn [heard].
    - unfold pageRun in *. cbn [fold_left pageStep].
      assert (E : dispatchOrientation e s = s).
      { unfold dispatchOrientation. rewrite Hn, Hy. cbn [Nat.iter].
        destruct s as [[c t] n]. cbn in *. subst n.
        destruct (ev_alpha e); reflexivity. }
      rewrite E. apply IH; assumption.
    - unfold pageRun. cbn [fold_left pageStep].
      apply (connected_run events (connect s)). cbn. lia. }
  apply G; reflexivity.
Qed.

(** X12.  After loading, whatever orientation events and calls of
    [connect()] arrive, the heading is determined by two readings alone: it
    is the first non-null [alpha] that arrived after the first [connect()]
    minus the last one, in radians, and 0 as long as no such event carried
    an [alpha]; the reference heading is that first [alpha], and unset
    until there is one.  Events that arrive before [connect()] change
    nothing. *)
Theorem heading_closed_form (events : list PageEvent) :
  let p := page (pageRun events loaded) in
  yaw (tracker p)
  = match firstAlpha (heard events), lastAlpha (heard events) with
    | Some theta0, Some a => degToRad theta0 - degToRad a
    | _, _ => 0
    end
  /\ initialYaw (deviceOrientationControls p)
     = option_map degToRad (firstAlpha (heard events)).
Proof.
  cbv zeta. rewrite unconnected_run.
  split; [apply yaw_on_new_page |].
  rewrite initialYaw_capture. reflexivity.
Qed.

Lemma lastAlpha_snoc (events : list OrientationEvent) (e : OrientationEvent)
    (a : R) :
  ev_alpha e = Some a -> lastAlpha (events ++ [e]) = Some a.
Proof.
  intros H. induction events as [| e0 events IH]; cbn [app lastAlpha].
  - exact H.
  - rewrite IH. reflexivity.
Qed.

(** X13.  After an event that carried an [alpha], the yaw angle the
    controller hands to the camera is the opposite of the heading the
    tracker walks along. *)
Theorem camera_yaw_opposes_heading (events : list OrientationEvent)
    (e : OrientationEvent) (a : R) :
  ev_alpha e = Some a ->
  let p := onDeviceOrientations (events ++ [e]) newPage in
  snd (fst (controllerUpdate (deviceOrientationControls p)))
  = - yaw (tracker p).
Proof.
  intros Ha p. subst p.
  rewrite yaw_on_new_page, (lastAlpha_snoc events e a Ha).
  pose proof (initialYaw_capture (events ++ [e]) newPage) as Hc.
  cbn [newPage deviceOrientationControls newController initialYaw] in Hc.
  assert (Hl : alpha (deviceOrientationControls
                        (onDeviceOrientations (events ++ [e]) newPage))
               = degToRad a).
  { rewrite onDeviceOrientations_app. unfold onDeviceOrientations at 1.
    cbn [fold_left onDeviceOrientation deviceOrientationControls
         handleOrientation alpha].
    rewrite Ha. reflexivity. }
  unfold controllerUpdate. cbn [fst snd]. rewrite Hl, Hc.
  destruct (firstAlpha (events ++ [e])) as [theta0 |] eqn:Ef.
  - cbn [option_map or_zero]. lra.
  - exfalso. clear - Ha Ef.
    induction events as [| e0 events IH]; cbn [app firstAlpha] in Ef.
    + rewrite Ha in Ef. discriminate.
    + destruct (ev_alpha e0); [discriminate | exact (IH Ef)].
Qed.

Lemma camera_yaw_opposes_heading_witness :
  let p := onDeviceOrientations
             ([withAlpha 30 None None; mkOrientationEvent None None None]
                ++ [withAlpha 75 (Some 80) None]) newPage in
  snd (fst (controllerUpdate (deviceOrientationControls p)))
  = - yaw (tracker p).
Proof.
  apply (camera_yaw_opposes_heading
           [withAlpha 30 None None; mkOrientationEvent None None None]
           (withAlpha 75 (Some 80) None) 75).
  reflexivity.
Defined.

(** ** The fixed-threshold detector: cooldown and reset *)

Lemma elapsed_nonneg (l : list (Vec3 * Z)) :
  Forall (fun s => (0 <= snd s)%Z) l -> (0 <= elapsed l)%Z.
Proof.
  induction 1 as [| s l Hs Hl IH]; cbn [elapsed fold_right]; [lia |].
  unfold elapsed in IH. lia.
Qed.

Lemma basic_cooling (l : list (Vec3 * Z)) (d : Basic.StepDetector) :
  Forall (fun s => (0 <= snd s)%Z) l ->
  (elapsed l < Basic.cooldown d)%Z ->
  Basic.outputs d l = repeat false (length l).
Proof.
  revert d. induction l as [| [a dt] l IH]; intros d Hl He; [reflexivity |].
  inversion Hl as [| s l' Hs Hl']; subst. cbn [snd] in Hs.
  pose proof (elapsed_nonneg l Hl') as Hn.
  cbn [elapsed fold_right snd] in He. fold (elapsed l) in He.
  assert (E : Basic.update d a dt
              = (Basic.mkStepDetector (magnitudeOf a) (Basic.threshold d)
                   (Basic.cooldown d - dt) (Basic.cooldownTime d)
                   (Basic.stepCount d) (Basic.enabled d), false)).
  { unfold Basic.update.
    replace (Z.max 0 (Basic.cooldown d - dt)) with (Basic.cooldown d - dt)%Z
      by lia.
    replace (Basic.cooldown d - dt =? 0)%Z with false
      by (symmetry; apply Z.eqb_neq; lia).
    rewrite andb_false_r. reflexivity. }
  cbn [Basic.outputs length repeat]. rewrite E. cbn [fst snd]. f_equal.
  apply IH; [exact Hl' | cbn [Basic.cooldown]; lia].
Qed.

(** X14.  After a detected step the fixed-threshold detector stays silent
    while the time deltas handed to [update] add up to less than
    [cooldownTime], however the magnitude moves. *)
Theorem basic_cooldown_blocks (d : Basic.StepDetector) (a : Vec3) (dt : Z)
    (l : list (Vec3 * Z)) :
  snd (Basic.update d a dt) = true ->
  Forall (fun s => (0 <= snd s)%Z) l ->
  (elapsed l < Basic.cooldownTime d)%Z ->
  Basic.outputs (fst (Basic.update d a dt)) l = repeat false (length l).
Proof.
  intros H Hl He. apply basic_cooling; [exact Hl |].
  unfold Basic.update in *.
  destruct (_ && _ && _ && _); [| discriminate].
  cbn [fst Basic.cooldown]. exact He.
Qed.

Lemma basic_cooldown_blocks_witness :
  Basic.outputs (fst (Basic.update Basic.new (mkVec3 0 0 12) 100))
    [(mkVec3 0 0 1, 100%Z); (mkVec3 0 0 30, 150%Z)]
  = repeat false 2.
Proof.
  apply (basic_cooldown_blocks Basic.new (mkVec3 0 0 12) 100
           [(mkVec3 0 0 1, 100%Z); (mkVec3 0 0 30, 150%Z)]).
  - exact basic_first_step.
  - repeat constructor; cbn; lia.
  - cbn. lia.
Defined.

Lemma basic_update_reset (d1 d2 : Basic.StepDetector) (a : Vec3) (dt : Z) :
  Basic.reset d1 = Basic.reset d2 ->
  snd (Basic.update d1 a dt) = snd (Basic.update d2 a dt)
  /\ Basic.reset (fst (Basic.update d1 a dt))
     = Basic.reset (fst (Basic.update d2 a dt)).
Proof.
  intros H. destruct d1 as [lm th cd ct sc en], d2 as [lm2 th2 cd2 ct2 sc2 en2].
  unfold Basic.reset in H. cbn in H. injection H as -> -> -> -> ->.
  unfold Basic.update. cbn [Basic.enabled Basic.threshold Basic.lastMagnitude
                             Basic.cooldown Basic.cooldownTime Basic.stepCount].
  destruct (_ && _ && _ && _); split; reflexivity.
Qed.

(** X15.  [reset()] of the fixed-threshold detector clears the counter and
    nothing else: the stored magnitude and a cooldown in progress survive,
    so every later call answers as if [reset()] had not been called. *)
Theorem basic_reset_keeps_detection (l : list (Vec3 * Z))
    (d : Basic.StepDetector) :
  Basic.outputs (Basic.reset d) l = Basic.outputs d l
  /\ Basic.stepCount (Basic.reset d) = 0%nat.
Proof.
  split; [| reflexivity].
  assert (G : forall l d1 d2,
             Basic.reset d1 = Basic.reset d2 ->
             Basic.outputs d1 l = Basic.outputs d2 l).
  { clear. induction l as [| [a dt] l IH]; intros d1 d2 H; [reflexivity |].
    destruct (basic_update_reset d1 d2 a dt H) as [Eo Er].
    cbn [Basic.outputs]. rewrite Eo. f_equal. apply IH. exact Er. }
  apply G. destruct d; reflexivity.
Qed.

(** ** Signal tiers, materials and meshes *)

Lemma Rgeb_ge (a b : R) : Rgeb a b = true <-> b <= a.
Proof.
  unfold Rgeb, Rltb. destruct (Rlt_dec a b); cbn; split; intros;
    try discriminate; try reflexivity; lra.
Qed.

Lemma Rgeb_lt (a b : R) : Rgeb a b = false <-> a < b.
Proof.
  unfold Rgeb, Rltb. destruct (Rlt_dec a b); cbn; split; intros;
    try discriminate; try reflexivity; lra.
Qed.

Ltac split_tiers s :=
  unfold Signals.getRadiusForSignal, Signals.getColorForSignal;
  destruct (Rgeb s 90) eqn:?; [|
  destruct (Rgeb s 70) eqn:?; [|
  destruct (Rgeb s 50) eqn:?; [|
  destruct (Rgeb s 30) eqn:?; [|
  destruct (Rgeb s 10) eqn:? ]]]];
  repeat match goal with
         | H : Rgeb _ _ = true |- _ => apply Rgeb_ge in H
         | H : Rgeb _ _ = false |- _ => apply Rgeb_lt in H
         end.

(** X16.  A point is left undrawn (radius 0) exactly when its strength is
    below 10, which is exactly when it gets the grey colour; otherwise the
    radius lies between 0.25 and 0.5, and a stronger signal never gets a
    smaller circle. *)
Theorem signal_tiers (s s' : R) :
  (Signals.getRadiusForSignal s = 0 <-> s < 10)
  /\ (Signals.getColorForSignal s = 0x555555%Z <-> s < 10)
  /\ (10 <= s -> 0.25 <= Signals.getRadiusForSignal s <= 0.5)
  /\ (s <= s' ->
      Signals.getRadiusForSignal s <= Signals.getRadiusForSignal s').
Proof.
  split; [| split; [| split]].
  - split_tiers s; split; intros; lra.
  - split_tiers s; split; intros; try discriminate; try reflexivity; lra.
  - intros H. split_tiers s; lra.
  - intros H. split_tiers s; split_tiers s'; lra.
Qed.

Lemma signal_tiers_witness :
  0.25 <= Signals.getRadiusForSignal 42 <= 0.5.
Proof. apply (signal_tiers 42 42). lra. Defined.

Lemma cacheGet_app_miss (cache : list (Z * Signals.Material)) (c : Z)
    (m : Signals.Material) :
  Signals.cacheGet cache c = None ->
  Signals.cacheGet (cache ++ [(c, m)]) c = Some m.
Proof.
  induction cache as [| [k m0] cache IH]; cbn [app Signals.cacheGet]; intros H.
  - rewrite Z.eqb_refl. reflexivity.
  - destruct (k =? c)%Z; [discriminate | apply IH; exact H].
Qed.

Lemma cacheGet_app_hit (cache : list (Z * Signals.Material)) (k c : Z)
    (m m0 : Signals.Material) :
  Signals.cacheGet cache k = Some m0 ->
  Signals.cacheGet (cache ++ [(c, m)]) k = Some m0.
Proof.
  induction cache as [| [k1 m1] cache IH]; cbn [app Signals.cacheGet];
    intros H; [discriminate |].
  destruct (k1 =? k)%Z; [exact H | apply IH; exact H].
Qed.

(** A call caches what it returns and keeps every earlier entry. *)
Lemma getMaterialForColor_caches (c : Z) (st : Signals.MaterialStore) :
  let st' := fst (Signals.getMaterialForColor c st) in
  Signals.cacheGet (Signals.materialCache st') c
  = Some (snd (Signals.getMaterialForColor c st))
  /\ (forall k m0,
        Signals.cacheGet (Signals.materialCache st) k = Some m0 ->
        Signals.cacheGet (Signals.materialCache st') k = Some m0).
Proof.
  unfold Signals.getMaterialForColor.
  destruct (Signals.cacheGet (Signals.materialCache st) c) as [m |] eqn:E;
    cbn [fst snd Signals.materialCache].
  - split; [exact E | tauto].
  - split; [apply cacheGet_app_miss; exact E |].
    intros k m0 H. apply cacheGet_app_hit. exact H.
Qed.

Lemma askAll_keeps (colors : list Z) (st : Signals.MaterialStore) (k : Z)
    (m : Signals.Material) :
  Signals.cacheGet (Signals.materialCache st) k = Some m ->
  Signals.cacheGet (Signals.materialCache (askAll colors st)) k = Some m.
Proof.
  revert st. induction colors as [| c colors IH]; intros st H; [exact H |].
  unfold askAll in *. cbn [fold_left]. apply IH.
  apply (getMaterialForColor_caches c st). exact H.
Qed.

(** X17.  The material cache memoizes: once a colour has been asked for,
    asking for it again, after any number of other requests, returns the
    very same material and neither constructs a material nor changes the
    cache. *)
Theorem material_memoized (c : Z) (others : list Z)
    (st : Signals.MaterialStore) :
  let first := Signals.getMaterialForColor c st in
  let later := askAll others (fst first) in
  Signals.getMaterialForColor c later = (later, snd first).
Proof.
  intros first later.
  assert (H : Signals.cacheGet (Signals.materialCache later) c
              = Some (snd first)).
  { subst later first. apply askAll_keeps.
    exact (proj1 (getMaterialForColor_caches c st)). }
  unfold Signals.getMaterialForColor at 1. rewrite H. reflexivity.
Qed.

Lemma radius_zero_iff (s : R) :
  Signals.getRadiusForSignal s = 0 <-> Rgeb s 10 = false.
Proof.
  rewrite Rgeb_lt. split_tiers s; split; intros; lra.
Qed.

Lemma cacheGet_app_inv (cache : list (Z * Signals.Material)) (k c : Z)
    (m m' : Signals.Material) :
  Signals.cacheGet (cache ++ [(c, m)]) k = Some m' ->
  Signals.cacheGet cache k = Some m' \/ (k = c /\ m' = m).
Proof.
  induction cache as [| [k1 m1] cache IH]; cbn [app Signals.cacheGet].
  - destruct (c =? k)%Z eqn:E; [| discriminate].
    apply Z.eqb_eq in E. intros H. injection H as <-. right. split; congruence.
  - destruct (k1 =? k)%Z; [left; assumption | exact IH].
Qed.

Lemma createSignal_tidy (sc : Signals.Scene) (p : Signals.SignalPoint) :
  tidy sc ->
  tidy (Signals.createSignal sc p)
  /\ map meshView (Signals.signalMeshes (Signals.createSignal sc p))
     = map meshView (Signals.signalMeshes sc)
       ++ (if drawn p then [pointView p] else []).
Proof.
  intros [Hc Hm]. unfold Signals.createSignal, drawn.
  destruct (Req_dec_T (Signals.getRadiusForSignal (Signals.power p)) 0)
    as [Hz | Hnz].
  - apply radius_zero_iff in Hz. rewrite Hz, app_nil_r.
    split; [split; assumption | reflexivity].
  - assert (Hd : Rgeb (Signals.power p) 10 = true).
    { destruct (Rgeb (Signals.power p) 10) eqn:E; [reflexivity |].
      apply radius_zero_iff in E. contradiction. }
    rewrite Hd.
    set (c := Signals.getColorForSignal (Signals.power p)).
    assert (Hcol : Signals.color
                     (snd (Signals.getMaterialForColor c (Signals.materials sc)))
                   = c).
    { unfold Signals.getMaterialForColor.
      destruct (Signals.cacheGet (Signals.materialCache (Signals.materials sc)) c)
        as [m |] eqn:E; cbn [snd].
      - apply (Hc c m E).
      - reflexivity. }
    assert (Hc' : forall k m,
               Signals.cacheGet
                 (Signals.materialCache
                    (fst (Signals.getMaterialForColor c (Signals.materials sc))))
                 k = Some m ->
               Signals.color m = k).
    { unfold Signals.getMaterialForColor.
      destruct (Signals.cacheGet (Signals.materialCache (Signals.materials sc)) c)
        as [m0 |] eqn:E;
        cbn [fst Signals.materialCache]; [exact Hc |].
      intros k m H. apply cacheGet_app_inv in H.
      destruct H as [H | [-> ->]]; [apply (Hc k m H) | reflexivity]. }
    pose proof (getMaterialForColor_caches c (Signals.materials sc))
      as [Hget Hkeep].
    destruct (Signals.getMaterialForColor c (Signals.materials sc))
      as [store mat].
    cbn [fst snd] in *.
    cbn [Signals.signalMeshes Signals.materials].
    split.
    + split; [exact Hc' |].
      intros mesh Hin. apply in_app_or in Hin.
      destruct Hin as [Hin | [<- | []]].
      * apply Hkeep. apply Hm. exact Hin.
      * cbn [Signals.material]. rewrite Hcol. exact Hget.
    + rewrite map_app. cbn [map]. f_equal.
      unfold meshView, pointView.
      cbn [Signals.userData Signals.dataName Signals.position
           Signals.geometryRadius Signals.material].
      rewrite Hcol. reflexivity.
Qed.

Lemma createIndoorSignalsFor_tidy (points : list Signals.SignalPoint)
    (sc : Signals.Scene) :
  tidy sc ->
  tidy (Signals.createIndoorSignalsFor points sc)
  /\ map meshView (Signals.signalMeshes (Signals.createIndoorSignalsFor points sc))
     = map meshView (Signals.signalMeshes sc)
       ++ map pointView (filter drawn points).
Proof.
  revert sc. induction points as [| p points IH]; intros sc H.
  - cbn. rewrite app_nil_r. split; [exact H | reflexivity].
  - unfold Signals.createIndoorSignalsFor in *. cbn [fold_left filter].
    destruct (createSignal_tidy sc p H) as [H1 E1].
    destruct (IH _ H1) as [H2 E2].
    split; [exact H2 |]. rewrite E2, E1, <- app_assoc.
    destruct (drawn p); reflexivity.
Qed.

(** X18.  [createIndoorSignals] on an empty scene draws one circle for each
    point whose power is at least 10, in the order of the table, at height
    0.1 above the point, with the radius and colour of its tier; circles of
    the same colour share one material. *)
Theorem createIndoorSignals_draws (points : list Signals.SignalPoint) :
  let sc := Signals.createIndoorSignalsFor points Signals.emptyScene in
  map meshView (Signals.signalMeshes sc) = map pointView (filter drawn points)
  /\ (forall m1 m2,
        In m1 (Signals.signalMeshes sc) ->
        In m2 (Signals.signalMeshes sc) ->
        Signals.color (Signals.material m1)
        = Signals.color (Signals.material m2) ->
        Signals.material m1 = Signals.material m2).
Proof.
  intros sc.
  assert (H0 : tidy Signals.emptyScene).
  { split; [intros k m H; discriminate | intros mesh []]. }
  destruct (createIndoorSignalsFor_tidy points Signals.emptyScene H0)
    as [[Hc Hm] E].
  split; [exact E |].
  intros m1 m2 H1 H2 Hcol.
  pose proof (Hm m1 H1) as G1. pose proof (Hm m2 H2) as G2.
  fold sc in G1, G2. rewrite Hcol in G1. congruence.
Qed.

(** ** The nearest signal point *)

Lemma nearer_keeps (pos : Vec3) (seen : list Signals.SignalPoint)
    (acc : option (Signals.SignalPoint * R)) (q : Signals.SignalPoint) :
  nearestSoFar pos seen acc ->
  nearestSoFar pos (seen ++ [q]) (Signals.nearer pos acc q).
Proof.
  unfold Signals.nearer. destruct acc as [[p d] |]; cbn [nearestSoFar].
  - intros (Hd & before & after & Hs & Hb & Ha).
    destruct (Rltb (Signals.distanceTo pos q) d) eqn:E.
    + apply Rltb_lt in E. split; [reflexivity |].
      exists seen, []. split; [reflexivity |]. split; [| intros r []].
      intros r Hr. rewrite Hs in Hr. apply in_app_or in Hr.
      destruct Hr as [Hr | [<- | Hr]].
      * specialize (Hb r Hr). lra.
      * lra.
      * specialize (Ha r Hr). lra.
    + apply Rltb_ge in E. split; [exact Hd |].
      exists before, (after ++ [q]).
      split; [rewrite Hs, <- app_assoc; reflexivity |].
      split; [exact Hb |].
      intros r Hr. apply in_app_or in Hr.
      destruct Hr as [Hr | [<- | []]]; [apply Ha; exact Hr | exact E].
  - intros ->. split; [reflexivity |].
    exists [], []. split; [reflexivity |]. split; intros r [].
Qed.

(** X19.  The search of [updateInfoPanel] finds nothing only for an empty
    table; otherwise it returns a point of the table together with its
    distance, no point of the table is closer, and among equally close
    points it is the first. *)
Theorem nearestPoint_is_nearest (pos : Vec3)
    (points : list Signals.SignalPoint) :
  match Signals.nearestPoint pos points with
  | None => points = []
  | Some (p, d) =>
      d = Signals.distanceTo pos p
      /\ In p points
      /\ (forall q, In q points -> d <= Signals.distanceTo pos q)
      /\ exists before after,
           points = before ++ p :: after
           /\ forall q, In q before -> d < Signals.distanceTo pos q
  end.
Proof.
  assert (G : forall points seen acc,
             nearestSoFar pos seen acc ->
             nearestSoFar pos (seen ++ points)
               (fold_left (Signals.nearer pos) points acc)).
  { clear. induction points as [| q points IH]; intros seen acc H.
    - rewrite app_nil_r. exact H.
    - cbn [fold_left].
      replace (seen ++ q :: points) with ((seen ++ [q]) ++ points)
        by (rewrite <- app_assoc; reflexivity).
      apply IH. apply nearer_keeps. exact H. }
  specialize (G points [] None eq_refl). cbn [app] in G.
  unfold Signals.nearestPoint.
  destruct (fold_left (Signals.nearer pos) points None) as [[p d] |];
    cbn [nearestSoFar] in G; [| exact G].
  destruct G as (Hd & before & after & Hs & Hb & Ha).
  split; [exact Hd |]. split; [rewrite Hs; apply in_elt |]. split.
  - intros q Hq. rewrite Hs in Hq. apply in_app_or in Hq.
    destruct Hq as [Hq | [<- | Hq]].
    + specialize (Hb q Hq). lra.
    + lra.
    + apply Ha. exact Hq.
  - exists before, after. split; assumption.
Qed.

(** ** Camera and tracker *)

Lemma handle_synced (v : Motion.View) (e : Motion.ViewEvent) :
  synced v -> synced (Motion.handle v e).
Proof.
  intros (Hx & Hz & Hy & Hty). destruct e as [g now ct | a y0 |].
  - cbn [Motion.handle]. unfold Motion.onDeviceMotion.
    destruct g as [g |]; [| repeat split; assumption].
    unfold trackerUpdate.
    destruct (update _ _ _ _) as [sd [|]]; unfold synced, getPosition;
      cbn [Motion.cameraPosition Motion.viewTracker position x y z];
      repeat split; assumption.
  - cbn [Motion.handle]. unfold synced, updateOrientation.
    cbn [Motion.cameraPosition Motion.viewTracker].
    destruct a, y0; cbn [position]; repeat split; assumption.
  - cbn [Motion.handle Motion.onResetClick]. unfold synced, trackerReset.
    cbn [Motion.cameraPosition Motion.viewTracker position x y z].
    repeat split; reflexivity.
Qed.

(** X20.  Whatever motion events, orientation events and reset clicks
    arrive after loading, the camera stands where the tracker is: both
    share [x] and [z], and both stay at the eye height 1.6. *)
Theorem camera_follows_tracker (events : list Motion.ViewEvent)
    (loadTime : Z) :
  synced (Motion.handleAll events (Motion.newView loadTime)).
Proof.
  assert (G : forall events v, synced v -> synced (Motion.handleAll events v)).
  { clear. induction events as [| e events IH]; intros v H; [exact H |].
    unfold Motion.handleAll in *. cbn [fold_left].
    apply IH, handle_synced, H. }
  apply G. unfold synced. cbn. repeat split; reflexivity.
Qed.

(** ** The threshold of a still phone *)

Lemma sum_list_from (v a : R) (n : nat) :
  fold_left js_add (repeat (Num v) n) (Num a) = Num (a + INR n * v).
Proof.
  revert a. induction n as [| n IH]; intros a.
  - cbn. f_equal. lra.
  - cbn [repeat fold_left js_add lift2]. unfold js_add in IH.
    rewrite IH, S_INR. f_equal. lra.
Qed.

Lemma sum_list_constant (v : R) (n : nat) :
  sum_list (repeat (Num v) n) = Num (INR n * v).
Proof.
  unfold sum_list. rewrite sum_list_from. f_equal. lra.
Qed.

Lemma variance_constant (v : R) (n : nat) :
  (0 < n)%nat -> varianceOf (repeat (Num v) n) (Num v) = Num 0.
Proof.
  intros Hn. unfold varianceOf.
  assert (E : forall a,
             fold_left (fun sum val => js_add sum (js_sq (js_sub val (Num v))))
               (repeat (Num v) n) (Num a) = Num a).
  { clear. induction n as [| k IH]; intros a; [reflexivity |].
    cbn [repeat fold_left js_add js_sq js_sub lift1 lift2].
    rewrite IH. f_equal. lra. }
  rewrite E. cbn [js_quot lift2]. f_equal. unfold Rdiv. apply Rmult_0_l.
Qed.

(** When the window holds [n] copies of one magnitude, a recomputation
    finds that magnitude as the average, no deviation, and the larger of
    base threshold and magnitude as the threshold. *)
Lemma adaptThreshold_constant (d : StepDetector) (v : R) (n : nat) :
  (0 < n)%nat ->
  magnitudeHistory d = repeat (Num v) n ->
  (totalSamples d mod 10 =? 0)%nat = true ->
  avgMagnitude (adaptThreshold d) = Num v
  /\ magnitudeStdDev (adaptThreshold d) = Num 0
  /\ dynamicThreshold (adaptThreshold d) = max_num (baseThreshold d) v.
Proof.
  intros Hn Hh Ht. unfold adaptThreshold. rewrite Ht.
  cbn [avgMagnitude magnitudeStdDev dynamicThreshold baseThreshold
       magnitudeHistory set_dynamicThreshold set_magnitudeStdDev
       set_avgMagnitude].
  rewrite Hh, repeat_length, sum_list_constant.
  assert (Hn' : INR n <> 0) by (apply not_0_INR; lia).
  assert (Ea : js_quot (Num (INR n * v)) (Num (INR n)) = Num v)
    by (cbn; f_equal; field; exact Hn').
  rewrite Ea, variance_constant by exact Hn.
  cbn [js_sqrt lift1]. rewrite sqrt_0.
  split; [reflexivity | split; [reflexivity |]].
  destruct (baseThreshold d) as [b |]; [| reflexivity].
  cbn. f_equal. f_equal. lra.
Qed.

Lemma run_app (l1 l2 : list Sample) (d : StepDetector) :
  run d (l1 ++ l2) = run (run d l1) l2.
Proof.
  revert d. induction l1 as [| s l1 IH]; intros d; [reflexivity |].
  cbn [app run]. apply IH.
Qed.

Lemma run_settings (l : list Sample) (d : StepDetector) :
  enabled d = true ->
  enabled (run d l) = true
  /\ useFilter (run d l) = useFilter d
  /\ historySize (run d l) = historySize d
  /\ totalSamples (run d l) = (totalSamples d + length l)%nat
  /\ baseThreshold (run d l) = baseThreshold d.
Proof.
  revert d. induction l as [| s l IH]; intros d He.
  - cbn. repeat split; try assumption; lia.
  - destruct (update_windows d s He) as (_ & _ & Es & He' & Ef & _).
    destruct (IH _ He') as (IHe & IHf & IHs & IHt & IHb).
    cbn [run length]. rewrite IHf, IHs, IHt, IHb, Ef, Es.
    split; [exact IHe |]. split; [reflexivity |]. split; [reflexivity |].
    assert (G : totalSamples (fst (step d s)) = S (totalSamples d)
                /\ baseThreshold (fst (step d s)) = baseThreshold d).
    { clear - He. split_update; try congruence; cbn;
        unfold record, applyFilter; destruct (useFilter d);
        split; reflexivity. }
    destruct G as [-> ->]. split; [lia | reflexivity].
Qed.

(** With the filter off, a sample that repeats the stored magnitude has
    no slope and is no step. *)
Lemma constant_step (d : StepDetector) (s : Sample) (v : R) :
  enabled d = true ->
  useFilter d = false ->
  magnitudeHistory d = [] \/ lastMagnitude d = Num v ->
  magnitudeOf (acceleration s) = v ->
  snd (step d s) = false /\ lastMagnitude (fst (step d s)) = Num v.
Proof.
  intros He Hf Hm Hv.
  pose proof (push_bounded_length (historySize d) (magnitudeHistory d)
                (Num v)) as Hpush.
  unfold step, update. rewrite He. cbn [negb].
  unfold applyFilter, currentMagnitude. rewrite Hf, Hf, Hv.
  destruct (length (magnitudeHistory (record (Num v) d)) <? 5)%nat eqn:Elen.
  - split; reflexivity.
  - assert (El : lastMagnitude d = Num v).
    { destruct Hm as [Hm | Hm]; [| exact Hm].
      apply Nat.ltb_ge in Elen. unfold record in Elen.
      cbn [magnitudeHistory set_totalSamples set_magnitudeHistory] in Elen.
      rewrite Hm in Hpush. cbn [length] in Hpush. rewrite Hm in Elen. lia. }
    destruct (adaptThreshold_shape (record (Num v) d))
      as (avg & sd & dyn & E).
    rewrite E. rewrite detect_no_peak.
    + split; reflexivity.
    + unfold isPeak.
      cbn [lastMagnitude set_dynamicThreshold set_magnitudeStdDev
           set_avgMagnitude record set_totalSamples set_magnitudeHistory].
      rewrite El. cbn [js_sub js_lt lift2].
      rewrite (Rltb_false (v - v) 0) by lra.
      rewrite andb_false_r. reflexivity.
Qed.

Lemma constant_run (l : list Sample) (d : StepDetector) (v : R) :
  enabled d = true ->
  useFilter d = false ->
  magnitudeHistory d = [] \/ lastMagnitude d = Num v ->
  Forall (fun s => magnitudeOf (acceleration s) = v) l ->
  outputs d l = repeat false (length l).
Proof.
  revert d. induction l as [| s l IH]; intros d He Hf Hm Hl; [reflexivity |].
  apply Forall_cons_iff in Hl. destruct Hl as [Hs Hl'].
  destruct (constant_step d s v He Hf Hm Hs) as [Eo Em].
  destruct (update_windows d s He) as (_ & _ & _ & He' & Hf' & _).
  cbn [outputs length repeat]. rewrite Eo. f_equal.
  apply IH.
  - exact He'.
  - rewrite Hf'. exact Hf.
  - right. exact Em.
  - exact Hl'.
Qed.

(** X21.  A still phone.  Start with an empty window and the filter off,
    and feed ten samples of one magnitude [v]: the tenth call recomputes
    the threshold and finds the average [v], no deviation, and the larger
    of the base threshold and [v] as the dynamic threshold. *)
Theorem still_phone_threshold (d : StepDetector) (l : list Sample) (v : R) :
  enabled d = true ->
  useFilter d = false ->
  historySize d = 10%nat ->
  magnitudeHistory d = [] ->
  totalSamples d = 0%nat ->
  length l = 10%nat ->
  Forall (fun s => magnitudeOf (acceleration s) = v) l ->
  avgMagnitude (run d l) = Num v
  /\ magnitudeStdDev (run d l) = Num 0
  /\ dynamicThreshold (run d l) = max_num (baseThreshold d) v
  /\ outputs d l = repeat false 10.
Proof.
  intros He Hf Hs Hh Ht Hlen Hl.
  assert (Hmap : forall l', Forall (fun s => magnitudeOf (acceleration s) = v) l' ->
                   map (fun s => Num (magnitudeOf (acceleration s))) l'
                   = repeat (Num v) (length l')).
  { clear. induction 1 as [| s l' Hs Hl IH]; [reflexivity |].
    cbn [map length repeat]. rewrite Hs, IH. reflexivity. }
  destruct (exists_last (l := l)) as (l9 & s10 & ->);
    [intros ->; discriminate |].
  rewrite length_app in Hlen. cbn [length] in Hlen.
  apply Forall_app in Hl. destruct Hl as [Hl9 Hl10].
  inversion Hl10 as [| s' l' Hv _]; subst s' l'.
  destruct (run_settings l9 d He) as (He9 & Hf9 & Hs9 & Ht9 & Hb9).
  assert (Hh9 : magnitudeHistory (run d l9) = repeat (Num v) 9).
  { rewrite sliding_window_filter_off; try assumption;
      [| rewrite Hh; cbn; lia].
    rewrite Hh, Hs. cbn [app]. rewrite (Hmap l9 Hl9).
    rewrite lastn_all by (rewrite repeat_length; lia).
    f_equal. lia. }
  rewrite run_app. cbn [run].
  remember (run d l9) as d9 eqn:Hd9.
  assert (E10 : step d9 s10
                = detect (Num v) (currentTime s10)
                    (adaptThreshold (record (Num v) d9))).
  { rewrite Hf in Hf9.
    unfold step, update. rewrite He9. cbn [negb].
    unfold applyFilter, currentMagnitude. repeat rewrite Hf9. rewrite Hv.
    unfold record at 1.
    cbn [magnitudeHistory set_totalSamples set_magnitudeHistory].
    rewrite Hh9, Hs9, Hs. unfold push_bounded.
    cbn [repeat app length Nat.ltb Nat.leb tl]. reflexivity. }
  assert (Hrec : magnitudeHistory (record (Num v) d9) = repeat (Num v) 10
                 /\ totalSamples (record (Num v) d9) = 10%nat
                 /\ baseThreshold (record (Num v) d9) = baseThreshold d).
  { unfold record.
    cbn [magnitudeHistory totalSamples baseThreshold set_totalSamples
         set_magnitudeHistory].
    rewrite Hh9, Hs9, Hs, Ht9, Ht, Hb9.
    split; [reflexivity | split; [lia | reflexivity]]. }
  destruct Hrec as (Hh10 & Ht10 & Hb10).
  destruct (adaptThreshold_constant (record (Num v) d9) v 10)
    as (Ea & Esd & Edyn);
    [lia | exact Hh10 | rewrite Ht10; reflexivity |].
  destruct (adaptThreshold_shape (record (Num v) d9))
    as (avg & sd & dyn & Eshape).
  rewrite E10.
  rewrite Eshape in Ea, Esd, Edyn |- *.
  cbn [avgMagnitude magnitudeStdDev dynamicThreshold set_dynamicThreshold
       set_magnitudeStdDev set_avgMagnitude] in Ea, Esd, Edyn.
  subst avg sd dyn. rewrite Hb10.
  unfold detect.
  destruct (_ && _ && _) eqn:Ec; cbn [fst].
  - exfalso. apply andb_prop in Ec. destruct Ec as [Ec _].
    apply andb_prop in Ec. destruct Ec as [Ec _].
    unfold isPeak in Ec.
    apply andb_prop in Ec. destruct Ec as [Ec _].
    apply andb_prop in Ec. destruct Ec as [Ec _].
    apply andb_prop in Ec. destruct Ec as [Ec _].
    cbn [dynamicThreshold set_dynamicThreshold] in Ec.
    destruct (baseThreshold d) as [b |]; cbn in Ec; [| discriminate].
    apply Rltb_lt in Ec. pose proof (Rmax_r b v). lra.
  - split; [reflexivity | split; [reflexivity | split; [reflexivity |]]].
    replace 10%nat with (length (l9 ++ [s10]))
      by (rewrite length_app; cbn [length]; exact Hlen).
    apply constant_run with (v := v).
    + exact He.
    + exact Hf.
    + left. exact Hh.
    + apply Forall_app. split; assumption.
Qed.

Lemma still_phone_threshold_witness :
  dynamicThreshold (run (setFilter false (Num 0.5) new) still)
  = max_num (baseThreshold (setFilter false (Num 0.5) new)) 12.
Proof.
  apply (still_phone_threshold (setFilter false (Num 0.5) new) still 12);
    try reflexivity.
  unfold still, vertical. cbn [seq map].
  repeat (constructor;
          [cbn [acceleration]; rewrite magnitudeOf_z by lra; reflexivity |]).
  constructor.
Defined.

Lemma createIndoorSignals_draws_witness :
  map meshView
    (Signals.signalMeshes (Signals.createIndoorSignals Signals.emptyScene))
  = map pointView (filter drawn Signals.INDOOR_SIGNAL_POINTS).
Proof.
  apply (createIndoorSignals_draws Signals.INDOOR_SIGNAL_POINTS).
Defined.
